(** * The email scheduler: batch planner and execution engine

    A shallow embedding of [core/scheduler_manager.py], of the validation
    of the configuration in [core/config_manager.py], of the list of emails
    and the sending of a batch in [core/email_processor.py] and of the
    creation of a schedule from [gui/components/schedule_frame.py], with the
    properties of the planner, of the retry path, of the operations of the
    engine and of the code around them.

    Conventions of the embedding.
    - Python [int] is [Z]; [//] is [Z.div] (both round towards minus
      infinity); a division by zero raises.
    - A [datetime] is the number of microseconds since midnight of the
      proleptic Gregorian ordinal 0, so that [toordinal] and [weekday] are
      the formulas of the [datetime] module.  The range check of the module
      (years 1 to 9999, [OverflowError]) is not modelled: where the source
      raises it the model goes on.
    - Python [str] is [string]; only ASCII text is modelled.
    - [uuid.uuid4()] is a supply of fresh natural numbers threaded through
      the operations; [datetime.now()] is an argument of each operation,
      read once.
    - [while] loops take fuel; running out of fuel is a result of its own,
      distinct from returning and from raising.
    - The batch objects live in a store and the manager's collections hold
      references to them, as the same object is reached, and mutated,
      through several of them.
    - Of the [schedule] library only the registry of jobs is kept: when a
      job is due is not modelled, any registered job may run.  Of the
      threads only the question who calls [stop_schedule] is kept.  The
      float statistics (success rates, progress percentage) are left out.
    - The objects a constructor is given are arguments: the verdict of the
      validation engine and the reply of the Outlook manager for the email
      processor, the processor and the scheduler manager for the schedule
      frame.  Files, logs and the widgets of the frame are left out; of the
      message boxes the kind and the text are kept.

    The file has three parts: the model, the vocabulary of the properties,
    and the properties with their proofs. *)

From Stdlib Require Import ZArith List String Ascii Bool Lia DecimalString.
From stdpp Require Import base decidable numbers list strings gmap.

Import ListNotations.
#[local] Open Scope string_scope.
#[local] Open Scope Z_scope.

(** ** Python built-ins used by the scheduler *)

Module Py.

(** The exceptions the modelled code can raise. *)
Inductive exn : Set :=
| ValueError
| ZeroDivisionError
| RuntimeError.

(** Result of running code that may raise or, in the model, exhaust its
    fuel. *)
Inductive outcome (A : Type) : Type :=
| Done (a : A)
| Raise (e : exn)
| OutOfFuel.
Arguments Done {A} a.
Arguments Raise {A} e.
Arguments OutOfFuel {A}.

Definition bind {A B : Type} (m : outcome A) (k : A -> outcome B) : outcome B :=
  match m with
  | Done a => k a
  | Raise e => Raise e
  | OutOfFuel => OutOfFuel
  end.

Definition len {A : Type} (l : list A) : Z := Z.of_nat (List.length l).

(** Normalisation of a slice bound against a sequence of length [n]:
    negative bounds count from the end, and every bound is clamped. *)
Definition slice_bound (n i : Z) : Z :=
  if i <? 0 then Z.max 0 (n + i) else Z.min i n.

(** [l[i:j]] *)
Definition slice {A : Type} (l : list A) (i j : Z) : list A :=
  let lo := slice_bound (len l) i in
  let hi := slice_bound (len l) j in
  firstn (Z.to_nat (hi - lo)) (skipn (Z.to_nat lo) l).

(** Whitespace skipped by [int()]: TAB, LF, VT, FF, CR and the space. *)
Definition int_space (c : ascii) : bool :=
  let n := nat_of_ascii c in
  (((9 <=? n) && (n <=? 13)) || (n =? 32))%nat.

(** Whitespace removed by [str.strip()]: the above and FS, GS, RS, US. *)
Definition str_space (c : ascii) : bool :=
  let n := nat_of_ascii c in
  (((9 <=? n) && (n <=? 13)) || ((28 <=? n) && (n <=? 32)))%nat.

Definition is_digit (c : ascii) : bool :=
  let n := nat_of_ascii c in ((48 <=? n) && (n <=? 57))%nat.

Definition digit_value (c : ascii) : Z := Z.of_nat (nat_of_ascii c) - 48.

Fixpoint lstrip (sp : ascii -> bool) (s : list ascii) : list ascii :=
  match s with
  | c :: r => if sp c then lstrip sp r else s
  | [] => []
  end.

Definition strip (sp : ascii -> bool) (s : list ascii) : list ascii :=
  rev (lstrip sp (rev (lstrip sp s))).

(** Decimal digits with single underscores between digits.  [sep] tells
    that a digit must come next (at the start and after an underscore). *)
Fixpoint digits (acc : Z) (sep : bool) (s : list ascii) : option Z :=
  match s with
  | [] => if sep then None else Some acc
  | c :: r =>
      if is_digit c then digits (10 * acc + digit_value c) false r
      else if Ascii.eqb c "_"%char && negb sep then digits acc true r
      else None
  end.

(** [int(s)] for a [str] argument in base 10; [None] is [ValueError]. *)
Definition int (s : string) : option Z :=
  match strip int_space (list_ascii_of_string s) with
  | c :: r =>
      if Ascii.eqb c "-"%char then option_map Z.opp (digits 0 true r)
      else if Ascii.eqb c "+"%char then digits 0 true r
      else digits 0 true (c :: r)
  | [] => None
  end.

(** [s.split(sep)] for a one-character separator, on the characters of
    [s]; [cur] is the reversed field being read. *)
Fixpoint split_chars (sep : ascii) (cur : list ascii) (s : list ascii)
  : list string :=
  match s with
  | [] => [string_of_list_ascii (rev cur)]
  | c :: r =>
      if Ascii.eqb c sep
      then string_of_list_ascii (rev cur) :: split_chars sep [] r
      else split_chars sep (c :: cur) r
  end.

Definition split (s : string) (sep : ascii) : list string :=
  split_chars sep [] (list_ascii_of_string s).

(** [not s.strip()] *)
Definition blank (s : string) : bool :=
  match strip str_space (list_ascii_of_string s) with
  | [] => true
  | _ :: _ => false
  end.

(** [str(n)] for an integer. *)
Definition str_of_int (n : Z) : string := NilZero.string_of_int (Z.to_int n).

(** *** [datetime] and [timedelta] *)

Definition datetime : Set := Z.

Definition us_per_minute : Z := 60000000.
Definition us_per_hour : Z := 3600000000.
Definition us_per_day : Z := 86400000000.

Definition timedelta_days (n : Z) : Z := n * us_per_day.
Definition timedelta_minutes (n : Z) : Z := n * us_per_minute.

(** [t.date()], as the ordinal of the day ([date.toordinal]). *)
Definition date (t : datetime) : Z := t / us_per_day.

(** [t.weekday()]: Monday is 0 and Sunday is 6. *)
Definition weekday (t : datetime) : Z := (date t + 6) mod 7.

(** [t.replace(hour=0, minute=0, second=0, microsecond=0)] *)
Definition midnight (t : datetime) : datetime := date t * us_per_day.

(** [t.replace(hour=h, minute=m)]: seconds and microseconds stay; an hour
    outside 0..23 or a minute outside 0..59 is a [ValueError]. *)
Definition replace_hour_minute (t : datetime) (h m : Z) : option datetime :=
  if (0 <=? h) && (h <=? 23) && (0 <=? m) && (m <=? 59)
  then Some (midnight t + h * us_per_hour + m * us_per_minute
             + t mod us_per_minute)
  else None.

(** [s.strip()] *)
Definition str_strip (s : string) : string :=
  string_of_list_ascii (strip str_space (list_ascii_of_string s)).

(** [s.lower()], on ASCII text. *)
Definition lower_char (c : ascii) : ascii :=
  let n := nat_of_ascii c in
  if ((65 <=? n) && (n <=? 90))%nat then ascii_of_nat (n + 32) else c.

Definition lower (s : string) : string :=
  string_of_list_ascii (map lower_char (list_ascii_of_string s)).

(** [range(0, stop, step)]; a step of zero is a [ValueError]. *)
Definition range_from_zero (stop step : Z) : option (list Z) :=
  if step =? 0 then None
  else if step <? 0 then Some []
  else Some (map (fun k => Z.of_nat k * step)
                 (seq 0 (Z.to_nat ((stop + step - 1) / step)))).

End Py.

(** ** [core/config_manager.py]: the schedule section of the configuration *)

Module config_manager.

Record ScheduleSettings : Set := {
  emails_per_day : Z;
  emails_per_batch : Z;
  start_time : string;
  working_days_only : bool;
  retry_failed_emails : bool;
  retry_attempts : Z;
  retry_delay_minutes : Z;
  batch_delay_minutes : Z
}.

(** The defaults of the dataclass. *)
Definition defaults : ScheduleSettings := {|
  emails_per_day := 499;
  emails_per_batch := 10;
  start_time := "06:00";
  working_days_only := true;
  retry_failed_emails := true;
  retry_attempts := 3;
  retry_delay_minutes := 30;
  batch_delay_minutes := 2
|}.

(** The sections [email_settings], [validation_settings] and
    [performance_settings]. *)
Record EmailSettings : Set := {
  default_subject : string;
  default_body : string;
  signature : string;
  max_attachments : Z;
  max_attachment_size_mb : Z
}.

Record ValidationSettings : Set := {
  strict_validation : bool;
  allow_international_domains : bool;
  check_mx_records : bool;
  max_email_length : Z;
  blacklist_domains : option (list string);
  whitelist_domains : option (list string)
}.

Record PerformanceSettings : Set := {
  max_concurrent_operations : Z;
  memory_optimization : bool;
  auto_cleanup_cache : bool;
  cache_size_mb : Z;
  progress_update_interval : Z
}.

(** The [ConfigManager] object, with the sections that [validate_config]
    reads (the Outlook and security sections, the profile and the
    encryption key are left out). *)
Record ConfigManager : Set := {
  email_settings : EmailSettings;
  schedule_settings : ScheduleSettings;
  validation_settings : ValidationSettings;
  performance_settings : PerformanceSettings
}.

Definition newline : string := String (ascii_of_nat 10) EmptyString.

(** The sections as [__init__] builds them, from the defaults of the
    dataclasses. *)
Definition __init__ : ConfigManager := {|
  email_settings := {|
    default_subject := "Important Email with Attachments";
    default_body :=
      "Dear Recipient," ++ newline ++ newline
      ++ "I hope this email finds you well. Please find the attached important documents for your review."
      ++ newline ++ newline
      ++ "If you have any questions, please don't hesitate to contact us."
      ++ newline ++ newline ++ "Best regards," ++ newline ++ "[Your Name]";
    signature := EmptyString;
    max_attachments := 2;
    max_attachment_size_mb := 25 |};
  schedule_settings := defaults;
  validation_settings := {|
    strict_validation := true;
    allow_international_domains := true;
    check_mx_records := false;
    max_email_length := 254;
    blacklist_domains := None;
    whitelist_domains := None |};
  performance_settings := {|
    max_concurrent_operations := 5;
    memory_optimization := true;
    auto_cleanup_cache := true;
    cache_size_mb := 100;
    progress_update_interval := 1 |}
|}.

(** The dict of lists that [validate_config] returns. *)
Record issues : Set := {
  errors : list string;
  warnings : list string;
  suggestions : list string
}.

(** The [try] block on the start time: [true] when it raises
    [ValueError], from [int] or from one of its two [raise]. *)
Definition time_format_error (start_time : string) : bool :=
  match Py.split start_time ":" with
  | [a; b] =>
      match Py.int a with
      | Some hour =>
          match Py.int b with
          | Some minute =>
              negb ((0 <=? hour) && (hour <=? 23)
                    && (0 <=? minute) && (minute <=? 59))
          | None => true
          end
      | None => true
      end
  | _ => true
  end.

(** [if c: l.append(msg)] *)
Definition append_if (c : bool) (msg : string) (l : list string)
  : list string :=
  if c then l ++ [msg] else l.

(** [validate_config] *)
Definition validate_config (self : ConfigManager) : issues :=
  let email := email_settings self in
  let schedule := schedule_settings self in
  let validation := validation_settings self in
  let performance := performance_settings self in
  {| errors :=
       append_if (time_format_error (start_time schedule))
         "Start time must be in HH:MM format (00:00 to 23:59)"
         (append_if (emails_per_day schedule <? emails_per_batch schedule)
            "Emails per batch cannot exceed emails per day"
            (append_if ((emails_per_batch schedule <? 1)
                        || (100 <? emails_per_batch schedule))
               "Emails per batch must be between 1 and 100"
               (append_if ((emails_per_day schedule <? 1)
                           || (1000 <? emails_per_day schedule))
                  "Emails per day must be between 1 and 1000"
                  (append_if (Py.blank (default_subject email))
                     "Default email subject cannot be empty" []))));
     warnings :=
       append_if ((max_email_length validation <? 10)
                  || (500 <? max_email_length validation))
         "Max email length should be between 10 and 500 characters"
         (append_if ((max_attachment_size_mb email <? 1)
                     || (100 <? max_attachment_size_mb email))
            "Max attachment size should be between 1MB and 100MB"
            (append_if ((max_attachments email <? 0)
                        || (10 <? max_attachments email))
               "Max attachments should be between 0 and 10" []));
     suggestions :=
       append_if (500 <? cache_size_mb performance)
         "Large cache size may consume significant memory"
         (append_if (10 <? max_concurrent_operations performance)
            "High concurrent operations may impact system performance" [])
  |}.

(** [get_schedule_settings] *)
Definition get_schedule_settings (self : ConfigManager) : ScheduleSettings :=
  schedule_settings self.

End config_manager.

(** ** [core/scheduler_manager.py] *)

Module scheduler_manager.
Import Py.

(** A value of [str(uuid.uuid4())]: the [n]-th identifier drawn from the
    supply.  Distinct draws give distinct identifiers. *)
Definition uuid : Set := nat.

(** [EmailBatch.status] takes the four values named in the source. *)
Inductive batch_status : Set := pending | sent | failed | cancelled.

(** Values stored in [EmailBatch.metadata]. *)
Inductive meta_value : Set :=
| MInt (n : Z)
| MBool (b : bool)
| MUuid (u : uuid).

(** A [dict] with [str] keys, in insertion order. *)
Definition dict : Set := list (string * meta_value).

Fixpoint dict_get (d : dict) (key : string) : option meta_value :=
  match d with
  | [] => None
  | (k, v) :: r => if String.eqb k key then Some v else dict_get r key
  end.

(** The dataclass [EmailBatch].  Every construction in the source passes
    [created_time] and [metadata], so their [None] default is left out. *)
Record EmailBatch : Set := {
  batch_id : uuid;
  emails : list string;
  subject : string;
  body : string;
  attachments : list string;
  scheduled_time : datetime;
  status : batch_status;
  created_time : datetime;
  sent_time : option datetime;
  attempts : Z;
  error_message : option string;
  metadata : dict
}.

(** The dataclass [ScheduleSettings] of this module (the configuration has
    one of its own, with other retry fields). *)
Record ScheduleSettings : Set := {
  emails_per_day : Z;
  emails_per_batch : Z;
  start_time : string;
  end_time : string;
  working_days_only : bool;
  batch_interval_minutes : Z;
  retry_failed_batches : bool;
  max_retry_attempts : Z;
  retry_delay_hours : Z
}.

Definition default_settings : ScheduleSettings := {|
  emails_per_day := 499;
  emails_per_batch := 10;
  start_time := "06:00";
  end_time := "18:00";
  working_days_only := true;
  batch_interval_minutes := 5;
  retry_failed_batches := true;
  max_retry_attempts := 3;
  retry_delay_hours := 1
|}.

(** *** The planner *)

(** [while next_day.weekday() >= 5: next_day += timedelta(days=1)] *)
Fixpoint skip_weekend (fuel : nat) (next_day : datetime) : outcome datetime :=
  match fuel with
  | O => OutOfFuel
  | S fuel' =>
      if 5 <=? weekday next_day
      then skip_weekend fuel' (next_day + timedelta_days 1)
      else Done next_day
  end.

Definition _get_next_working_day (fuel : nat) (now : datetime)
  : outcome datetime :=
  skip_weekend fuel (midnight now + timedelta_days 1).

(** [len([email for batch in batches
          if batch.scheduled_time.date() == current_date.date()
          for email in batch.emails])] *)
Definition day_email_count (batches : list EmailBatch) (current_date : datetime)
  : Z :=
  len (flat_map
         (fun batch =>
            if date (scheduled_time batch) =? date current_date
            then emails batch else [])
         batches).

Section planner.
Variable now : datetime.
(** The first identifier the supply gives to this call. *)
Variable fresh : uuid.
Variable all_emails : list string.
Variables the_subject the_body : string.
Variable the_attachments : list string.
Variable settings : ScheduleSettings.

(** The batch built in the body of the inner loop.  It is the
    [length batches]-th draw of this call from the identifier supply. *)
Definition new_batch (batches : list EmailBatch) (batch_emails : list string)
  (current_time : datetime) (daily_batches max_daily_batches : Z)
  : EmailBatch := {|
  batch_id := (fresh + List.length batches)%nat;
  emails := batch_emails;
  subject := the_subject;
  body := the_body;
  attachments := the_attachments;
  scheduled_time := current_time;
  status := pending;
  created_time := now;
  sent_time := None;
  attempts := 0;
  error_message := None;
  metadata := [("day_batch_number", MInt (daily_batches + 1));
               ("total_day_batches", MInt max_daily_batches);
               ("emails_in_batch", MInt (len batch_emails))]
|}.

(** The inner [while]: the batches of one day.  Its guard bounds it by
    [max_daily_batches - daily_batches] rounds, which is the fuel it is
    started with; the state at the exit is returned. *)
Fixpoint day_loop (fuel : nat) (current_date : datetime)
  (max_daily_batches : Z) (batches : list EmailBatch) (email_index : Z)
  (daily_batches : Z) (current_time : datetime)
  : list EmailBatch * Z :=
  match fuel with
  | O => (batches, email_index)
  | S fuel' =>
      if (email_index <? len all_emails)
         && (daily_batches <? max_daily_batches)
         && (day_email_count batches current_date <? emails_per_day settings)
      then
        let batch_emails :=
          slice all_emails email_index
                (email_index + emails_per_batch settings) in
        let batch :=
          new_batch batches batch_emails current_time daily_batches
                    max_daily_batches in
        day_loop fuel' current_date max_daily_batches
                 (batches ++ [batch])
                 (email_index + len batch_emails)
                 (daily_batches + 1)
                 (current_time
                  + timedelta_minutes (batch_interval_minutes settings))
      else (batches, email_index)
  end.

(** The outer [while]: one round per calendar day. *)
Fixpoint plan_loop (fuel : nat) (start_hour start_minute : Z)
  (batches : list EmailBatch) (email_index : Z) (current_date : datetime)
  : outcome (list EmailBatch) :=
  match fuel with
  | O => OutOfFuel
  | S fuel' =>
      if email_index <? len all_emails then
        if working_days_only settings && (5 <=? weekday current_date)
        then plan_loop fuel' start_hour start_minute batches email_index
                       (current_date + timedelta_days 1)
        else if emails_per_batch settings =? 0 then Raise ZeroDivisionError
        else
          let max_daily_batches :=
            emails_per_day settings / emails_per_batch settings in
          match replace_hour_minute current_date start_hour start_minute with
          | None => Raise ValueError
          | Some current_time =>
              let '(batches', email_index') :=
                day_loop (Z.to_nat max_daily_batches) current_date
                         max_daily_batches batches email_index 0
                         current_time in
              plan_loop fuel' start_hour start_minute batches' email_index'
                        (current_date + timedelta_days 1)
          end
      else Done batches
  end.

(** [start_hour, start_minute = map(int, settings.start_time.split(':'))] *)
Definition parse_start_time : outcome (Z * Z) :=
  match split (start_time settings) ":" with
  | [a; b] =>
      match int a, int b with
      | Some start_hour, Some start_minute => Done (start_hour, start_minute)
      | _, _ => Raise ValueError
      end
  | _ => Raise ValueError
  end.

Definition _generate_batches (fuel : nat) : outcome (list EmailBatch) :=
  bind (_get_next_working_day fuel now) (fun current_date =>
  bind parse_start_time (fun '(start_hour, start_minute) =>
  plan_loop fuel start_hour start_minute [] 0 current_date)).

End planner.

(** *** The manager's state *)

#[global] Instance batch_status_eq_dec : EqDecision batch_status.
Proof. solve_decision. Defined.
#[global] Instance meta_value_eq_dec : EqDecision meta_value.
Proof. solve_decision. Defined.
(** [==] on two [EmailBatch] objects compares all fields. *)
#[global] Instance EmailBatch_eq_dec : EqDecision EmailBatch.
Proof. unfold dict, uuid, datetime. solve_decision. Defined.

(** Values of [current_schedule['status']]. *)
Inductive schedule_status : Set :=
  created | running | stopped | paused | completed.
#[global] Instance schedule_status_eq_dec : EqDecision schedule_status.
Proof. solve_decision. Defined.

(** The [schedule_data] dict, with the keys that the operations add to it
    later.  [batches] holds the [asdict] copies taken at creation; the
    float [success_rate] is left out. *)
Record schedule_data : Set := {
  sd_schedule_id : uuid;
  sd_created_time : datetime;
  sd_settings : ScheduleSettings;
  sd_batches : list EmailBatch;
  sd_subject : string;
  sd_body : string;
  sd_attachments : list string;
  sd_total_emails : Z;
  sd_status : schedule_status;
  sd_started_time : option datetime;
  sd_stopped_time : option datetime;
  sd_paused_time : option datetime;
  sd_resumed_time : option datetime;
  sd_completed_time : option datetime
}.

Record ScheduleResult : Set := {
  success : bool;
  message : string;
  total_batches : Z;
  total_days : Z;
  start_date : option datetime;
  end_date : option datetime;
  schedule_id : option uuid
}.

(** The integer entries of [self.stats] and the last schedule date (the
    float average of the success rates is left out). *)
Record statistics : Set := {
  total_schedules_created : Z;
  total_batches_sent : Z;
  total_emails_sent : Z;
  total_failures : Z;
  last_schedule_date : option datetime
}.

(** A reference to an [EmailBatch] object: its index in the store. *)
Definition ref : Set := nat.

(** A job of the [schedule] library: [every().day.at("HH:MM")] running the
    closure [execute_batch] of one batch object. *)
Record job : Set := {
  job_at : Z * Z;
  job_batch : ref
}.

(** The [SchedulerManager] object.  The three collections hold references
    to batch objects kept in [heap], since the same object is mutated
    through any of them.  [jobs] is the registry of the [schedule] library
    and [schedule_files] the documents written by [_save_schedule]. *)
Record SchedulerManager : Set := {
  heap : list EmailBatch;
  current_schedule : option schedule_data;
  schedule_history : list schedule_data;
  active_batches : list ref;
  completed_batches : list ref;
  failed_batches : list ref;
  is_running : bool;
  scheduler_thread : bool;
  stats : statistics;
  jobs : list job;
  schedule_files : list schedule_data;
  next_uuid : uuid
}.

Definition __init__ : SchedulerManager := {|
  heap := [];
  current_schedule := None;
  schedule_history := [];
  active_batches := [];
  completed_batches := [];
  failed_batches := [];
  is_running := false;
  scheduler_thread := false;
  stats := {| total_schedules_created := 0; total_batches_sent := 0;
              total_emails_sent := 0; total_failures := 0;
              last_schedule_date := None |};
  jobs := [];
  schedule_files := [];
  next_uuid := O
|}.

(** Field updates. *)
Definition set_heap (h : list EmailBatch) (self : SchedulerManager) :=
  {| heap := h; current_schedule := current_schedule self;
     schedule_history := schedule_history self;
     active_batches := active_batches self;
     completed_batches := completed_batches self;
     failed_batches := failed_batches self; is_running := is_running self;
     scheduler_thread := scheduler_thread self; stats := stats self;
     jobs := jobs self; schedule_files := schedule_files self;
     next_uuid := next_uuid self |}.
Definition set_current_schedule (s : option schedule_data)
  (self : SchedulerManager) :=
  {| heap := heap self; current_schedule := s;
     schedule_history := schedule_history self;
     active_batches := active_batches self;
     completed_batches := completed_batches self;
     failed_batches := failed_batches self; is_running := is_running self;
     scheduler_thread := scheduler_thread self; stats := stats self;
     jobs := jobs self; schedule_files := schedule_files self;
     next_uuid := next_uuid self |}.
Definition set_active_batches (l : list ref) (self : SchedulerManager) :=
  {| heap := heap self; current_schedule := current_schedule self;
     schedule_history := schedule_history self;
     active_batches := l;
     completed_batches := completed_batches self;
     failed_batches := failed_batches self; is_running := is_running self;
     scheduler_thread := scheduler_thread self; stats := stats self;
     jobs := jobs self; schedule_files := schedule_files self;
     next_uuid := next_uuid self |}.
Definition set_completed_batches (l : list ref) (self : SchedulerManager) :=
  {| heap := heap self; current_schedule := current_schedule self;
     schedule_history := schedule_history self;
     active_batches := active_batches self;
     completed_batches := l;
     failed_batches := failed_batches self; is_running := is_running self;
     scheduler_thread := scheduler_thread self; stats := stats self;
     jobs := jobs self; schedule_files := schedule_files self;
     next_uuid := next_uuid self |}.
Definition set_failed_batches (l : list ref) (self : SchedulerManager) :=
  {| heap := heap self; current_schedule := current_schedule self;
     schedule_history := schedule_history self;
     active_batches := active_batches self;
     completed_batches := completed_batches self;
     failed_batches := l; is_running := is_running self;
     scheduler_thread := scheduler_thread self; stats := stats self;
     jobs := jobs self; schedule_files := schedule_files self;
     next_uuid := next_uuid self |}.
Definition set_is_running (b : bool) (self : SchedulerManager) :=
  {| heap := heap self; current_schedule := current_schedule self;
     schedule_history := schedule_history self;
     active_batches := active_batches self;
     completed_batches := completed_batches self;
     failed_batches := failed_batches self; is_running := b;
     scheduler_thread := scheduler_thread self; stats := stats self;
     jobs := jobs self; schedule_files := schedule_files self;
     next_uuid := next_uuid self |}.
Definition set_scheduler_thread (b : bool) (self : SchedulerManager) :=
  {| heap := heap self; current_schedule := current_schedule self;
     schedule_history := schedule_history self;
     active_batches := active_batches self;
     completed_batches := completed_batches self;
     failed_batches := failed_batches self; is_running := is_running self;
     scheduler_thread := b; stats := stats self;
     jobs := jobs self; schedule_files := schedule_files self;
     next_uuid := next_uuid self |}.
Definition set_stats (s : statistics) (self : SchedulerManager) :=
  {| heap := heap self; current_schedule := current_schedule self;
     schedule_history := schedule_history self;
     active_batches := active_batches self;
     completed_batches := completed_batches self;
     failed_batches := failed_batches self; is_running := is_running self;
     scheduler_thread := scheduler_thread self; stats := s;
     jobs := jobs self; schedule_files := schedule_files self;
     next_uuid := next_uuid self |}.
Definition set_jobs (j : list job) (self : SchedulerManager) :=
  {| heap := heap self; current_schedule := current_schedule self;
     schedule_history := schedule_history self;
     active_batches := active_batches self;
     completed_batches := completed_batches self;
     failed_batches := failed_batches self; is_running := is_running self;
     scheduler_thread := scheduler_thread self; stats := stats self;
     jobs := j; schedule_files := schedule_files self;
     next_uuid := next_uuid self |}.
Definition set_schedule_files (f : list schedule_data)
  (self : SchedulerManager) :=
  {| heap := heap self; current_schedule := current_schedule self;
     schedule_history := schedule_history self;
     active_batches := active_batches self;
     completed_batches := completed_batches self;
     failed_batches := failed_batches self; is_running := is_running self;
     scheduler_thread := scheduler_thread self; stats := stats self;
     jobs := jobs self; schedule_files := f;
     next_uuid := next_uuid self |}.
Definition set_next_uuid (u : uuid) (self : SchedulerManager) :=
  {| heap := heap self; current_schedule := current_schedule self;
     schedule_history := schedule_history self;
     active_batches := active_batches self;
     completed_batches := completed_batches self;
     failed_batches := failed_batches self; is_running := is_running self;
     scheduler_thread := scheduler_thread self; stats := stats self;
     jobs := jobs self; schedule_files := schedule_files self;
     next_uuid := u |}.

(** Assignments to the fields of a batch object. *)
Definition batch_set_status (s : batch_status) (b : EmailBatch) : EmailBatch :=
  {| batch_id := batch_id b; emails := emails b; subject := subject b;
     body := body b; attachments := attachments b;
     scheduled_time := scheduled_time b; status := s;
     created_time := created_time b; sent_time := sent_time b;
     attempts := attempts b; error_message := error_message b;
     metadata := metadata b |}.
Definition batch_set_sent_time (t : option datetime) (b : EmailBatch)
  : EmailBatch :=
  {| batch_id := batch_id b; emails := emails b; subject := subject b;
     body := body b; attachments := attachments b;
     scheduled_time := scheduled_time b; status := status b;
     created_time := created_time b; sent_time := t;
     attempts := attempts b; error_message := error_message b;
     metadata := metadata b |}.
Definition batch_set_scheduled_time (t : datetime) (b : EmailBatch)
  : EmailBatch :=
  {| batch_id := batch_id b; emails := emails b; subject := subject b;
     body := body b; attachments := attachments b;
     scheduled_time := t; status := status b;
     created_time := created_time b; sent_time := sent_time b;
     attempts := attempts b; error_message := error_message b;
     metadata := metadata b |}.
Definition batch_set_attempts (n : Z) (b : EmailBatch) : EmailBatch :=
  {| batch_id := batch_id b; emails := emails b; subject := subject b;
     body := body b; attachments := attachments b;
     scheduled_time := scheduled_time b; status := status b;
     created_time := created_time b; sent_time := sent_time b;
     attempts := n; error_message := error_message b;
     metadata := metadata b |}.
Definition batch_set_error_message (m : option string) (b : EmailBatch)
  : EmailBatch :=
  {| batch_id := batch_id b; emails := emails b; subject := subject b;
     body := body b; attachments := attachments b;
     scheduled_time := scheduled_time b; status := status b;
     created_time := created_time b; sent_time := sent_time b;
     attempts := attempts b; error_message := m;
     metadata := metadata b |}.

(** Assignments to the keys of the [current_schedule] dict. *)
Definition sd_set_status (s : schedule_status) (d : schedule_data) :=
  {| sd_schedule_id := sd_schedule_id d; sd_created_time := sd_created_time d;
     sd_settings := sd_settings d; sd_batches := sd_batches d;
     sd_subject := sd_subject d; sd_body := sd_body d;
     sd_attachments := sd_attachments d;
     sd_total_emails := sd_total_emails d; sd_status := s;
     sd_started_time := sd_started_time d;
     sd_stopped_time := sd_stopped_time d;
     sd_paused_time := sd_paused_time d;
     sd_resumed_time := sd_resumed_time d;
     sd_completed_time := sd_completed_time d |}.
Definition sd_set_started_time (t : datetime) (d : schedule_data) :=
  {| sd_schedule_id := sd_schedule_id d; sd_created_time := sd_created_time d;
     sd_settings := sd_settings d; sd_batches := sd_batches d;
     sd_subject := sd_subject d; sd_body := sd_body d;
     sd_attachments := sd_attachments d;
     sd_total_emails := sd_total_emails d; sd_status := sd_status d;
     sd_started_time := Some t;
     sd_stopped_time := sd_stopped_time d;
     sd_paused_time := sd_paused_time d;
     sd_resumed_time := sd_resumed_time d;
     sd_completed_time := sd_completed_time d |}.
Definition sd_set_stopped_time (t : datetime) (d : schedule_data) :=
  {| sd_schedule_id := sd_schedule_id d; sd_created_time := sd_created_time d;
     sd_settings := sd_settings d; sd_batches := sd_batches d;
     sd_subject := sd_subject d; sd_body := sd_body d;
     sd_attachments := sd_attachments d;
     sd_total_emails := sd_total_emails d; sd_status := sd_status d;
     sd_started_time := sd_started_time d;
     sd_stopped_time := Some t;
     sd_paused_time := sd_paused_time d;
     sd_resumed_time := sd_resumed_time d;
     sd_completed_time := sd_completed_time d |}.
Definition sd_set_paused_time (t : datetime) (d : schedule_data) :=
  {| sd_schedule_id := sd_schedule_id d; sd_created_time := sd_created_time d;
     sd_settings := sd_settings d; sd_batches := sd_batches d;
     sd_subject := sd_subject d; sd_body := sd_body d;
     sd_attachments := sd_attachments d;
     sd_total_emails := sd_total_emails d; sd_status := sd_status d;
     sd_started_time := sd_started_time d;
     sd_stopped_time := sd_stopped_time d;
     sd_paused_time := Some t;
     sd_resumed_time := sd_resumed_time d;
     sd_completed_time := sd_completed_time d |}.
Definition sd_set_resumed_time (t : datetime) (d : schedule_data) :=
  {| sd_schedule_id := sd_schedule_id d; sd_created_time := sd_created_time d;
     sd_settings := sd_settings d; sd_batches := sd_batches d;
     sd_subject := sd_subject d; sd_body := sd_body d;
     sd_attachments := sd_attachments d;
     sd_total_emails := sd_total_emails d; sd_status := sd_status d;
     sd_started_time := sd_started_time d;
     sd_stopped_time := sd_stopped_time d;
     sd_paused_time := sd_paused_time d;
     sd_resumed_time := Some t;
     sd_completed_time := sd_completed_time d |}.
Definition sd_set_completed_time (t : datetime) (d : schedule_data) :=
  {| sd_schedule_id := sd_schedule_id d; sd_created_time := sd_created_time d;
     sd_settings := sd_settings d; sd_batches := sd_batches d;
     sd_subject := sd_subject d; sd_body := sd_body d;
     sd_attachments := sd_attachments d;
     sd_total_emails := sd_total_emails d; sd_status := sd_status d;
     sd_started_time := sd_started_time d;
     sd_stopped_time := sd_stopped_time d;
     sd_paused_time := sd_paused_time d;
     sd_resumed_time := sd_resumed_time d;
     sd_completed_time := Some t |}.
(** *** The operations *)

(** [ScheduleResult(success=False, message=m)] *)
Definition failure (m : string) : ScheduleResult :=
  {| success := false; message := m; total_batches := 0; total_days := 0;
     start_date := None; end_date := None; schedule_id := None |}.

(** The text of a caught exception, shortened to the name of its class. *)
Definition exn_text (e : exn) : string :=
  match e with
  | ValueError => "ValueError"
  | ZeroDivisionError => "ZeroDivisionError"
  | RuntimeError => "RuntimeError"
  end.

(** The settings that [create_schedule] builds from the configuration when
    it is given none; the other fields keep the dataclass defaults. *)
Definition settings_of_config (c : config_manager.ScheduleSettings)
  : ScheduleSettings := {|
  emails_per_day := config_manager.emails_per_day c;
  emails_per_batch := config_manager.emails_per_batch c;
  start_time := config_manager.start_time c;
  end_time := "18:00";
  working_days_only := config_manager.working_days_only c;
  batch_interval_minutes := 5;
  retry_failed_batches := config_manager.retry_failed_emails c;
  max_retry_attempts := config_manager.retry_attempts c;
  retry_delay_hours := 1
|}.

(** [min(...)] and [max(...)] of the scheduled times of a non-empty list. *)
Definition min_scheduled_time (first : EmailBatch) (rest : list EmailBatch)
  : datetime :=
  fold_left (fun m b => Z.min m (scheduled_time b)) rest (scheduled_time first).
Definition max_scheduled_time (first : EmailBatch) (rest : list EmailBatch)
  : datetime :=
  fold_left (fun m b => Z.max m (scheduled_time b)) rest (scheduled_time first).

(** [create_schedule].  [attachments] and [schedule_settings] are optional
    arguments; [config] is what [config_manager.get_schedule_settings()]
    returns at the time of the call.  Every exception of the body is caught
    and turned into a failure result. *)
Definition create_schedule (fuel : nat) (now : datetime)
  (config : config_manager.ScheduleSettings) (self : SchedulerManager)
  (emails : list string) (subject body : string)
  (attachments : option (list string))
  (schedule_settings : option ScheduleSettings)
  : outcome (SchedulerManager * ScheduleResult) :=
  match emails with
  | [] => Done (self, failure "No emails provided for scheduling")
  | _ :: _ =>
      if blank subject
      then Done (self, failure "Email subject cannot be empty")
      else
        let settings :=
          match schedule_settings with
          | None => settings_of_config config
          | Some s => s
          end in
        let attachments :=
          match attachments with
          | Some l => l
          | None => []
          end in
        match _generate_batches now (next_uuid self) emails subject body
                                attachments settings fuel with
        | OutOfFuel => OutOfFuel
        | Raise e =>
            Done (self, failure ("Error creating schedule: " ++ exn_text e))
        | Done [] => Done (self, failure "Failed to generate email batches")
        | Done ((first :: rest) as batches) =>
            let n := List.length batches in
            let id := (next_uuid self + n)%nat in
            let schedule := {|
              sd_schedule_id := id;
              sd_created_time := now;
              sd_settings := settings;
              sd_batches := batches;
              sd_subject := subject;
              sd_body := body;
              sd_attachments := attachments;
              sd_total_emails := len emails;
              sd_status := created;
              sd_started_time := None;
              sd_stopped_time := None;
              sd_paused_time := None;
              sd_resumed_time := None;
              sd_completed_time := None |} in
            let first_ref := List.length (heap self) in
            let st := stats self in
            let self' := {|
              heap := heap self ++ batches;
              current_schedule := Some schedule;
              schedule_history := schedule_history self;
              active_batches := seq first_ref n;
              completed_batches := completed_batches self;
              failed_batches := failed_batches self;
              is_running := is_running self;
              scheduler_thread := scheduler_thread self;
              stats := {|
                total_schedules_created := total_schedules_created st + 1;
                total_batches_sent := total_batches_sent st;
                total_emails_sent := total_emails_sent st;
                total_failures := total_failures st;
                last_schedule_date := Some now |};
              jobs := jobs self;
              schedule_files := schedule_files self ++ [schedule];
              next_uuid := S id |} in
            let start := min_scheduled_time first rest in
            let stop := max_scheduled_time first rest in
            Done (self',
                  {| success := true;
                     message := "Schedule created with "
                                ++ str_of_int (len batches) ++ " batches";
                     total_batches := len batches;
                     total_days := date stop - date start + 1;
                     start_date := Some start;
                     end_date := Some stop;
                     schedule_id := Some id |})
        end
  end.

(** [batch.scheduled_time.strftime("%H:%M")], as hour and minute. *)
Definition hour_minute (t : datetime) : Z * Z :=
  ((t mod us_per_day) / us_per_hour, (t mod us_per_hour) / us_per_minute).

(** [_schedule_batch]: registers the closure [execute_batch] of the batch
    object [r] with the [schedule] library. *)
Definition _schedule_batch (r : ref) (self : SchedulerManager)
  : SchedulerManager :=
  match heap self !! r with
  | Some batch =>
      set_jobs (jobs self
                ++ [{| job_at := hour_minute (scheduled_time batch);
                       job_batch := r |}]) self
  | None => self
  end.

(** [start_schedule] *)
Definition start_schedule (now : datetime) (self : SchedulerManager)
  : SchedulerManager * bool :=
  match current_schedule self with
  | None => (self, false)
  | Some _ =>
      if is_running self then (self, false)
      else
        let self1 := set_jobs [] (set_is_running true self) in
        let self2 :=
          fold_left
            (fun s r =>
               match heap s !! r with
               | Some batch =>
                   if decide (status batch = pending)
                   then _schedule_batch r s else s
               | None => s
               end)
            (active_batches self1) self1 in
        let self3 := set_scheduler_thread true self2 in
        (set_current_schedule
           (option_map (fun d => sd_set_started_time now (sd_set_status running d))
                       (current_schedule self3))
           self3,
         true)
  end.

(** [_schedule_retry], with the configuration read at the time of the
    call. *)
Definition _schedule_retry (now : datetime)
  (config : config_manager.ScheduleSettings) (r : ref)
  (self : SchedulerManager) : SchedulerManager :=
  match heap self !! r with
  | None => self
  | Some batch =>
      let retry_delay := config_manager.retry_delay_minutes config in
      let retry_time := now + timedelta_minutes retry_delay in
      let retry_batch := {|
        batch_id := next_uuid self;
        emails := emails batch;
        subject := subject batch;
        body := body batch;
        attachments := attachments batch;
        scheduled_time := retry_time;
        status := pending;
        created_time := now;
        sent_time := None;
        attempts := attempts batch;
        error_message := None;
        metadata := [("is_retry", MBool true);
                     ("original_batch_id", MUuid (batch_id batch));
                     ("retry_attempt", MInt (attempts batch))] |} in
      let new_ref := List.length (heap self) in
      _schedule_batch new_ref
        (set_active_batches (active_batches self ++ [new_ref])
           (set_next_uuid (S (next_uuid self))
              (set_heap (heap self ++ [retry_batch]) self)))
  end.

(** [_update_schedule_status] (without the float statistics). *)
Definition _update_schedule_status (now : datetime) (self : SchedulerManager)
  : SchedulerManager :=
  match current_schedule self with
  | None => self
  | Some d =>
      let total :=
        len (completed_batches self) + len (failed_batches self)
        + len (active_batches self) in
      match active_batches self with
      | [] =>
          if 0 <? total
          then set_current_schedule
                 (Some (sd_set_completed_time now (sd_set_status completed d)))
                 self
          else self
      | _ :: _ => self
      end
  end.

(** [x is batch or x == batch], the test of [in] and of [list.remove]. *)
Definition same_batch (h : list EmailBatch) (r x : ref) : bool :=
  (x =? r)%nat
  || match h !! x, h !! r with
     | Some a, Some b => bool_decide (a = b)
     | _, _ => false
     end.

(** [l.remove(x)] guarded by [x in l]: the first match goes. *)
Fixpoint remove_first (p : ref -> bool) (l : list ref) : list ref :=
  match l with
  | [] => []
  | x :: l' => if p x then l' else x :: remove_first p l'
  end.

(** [if batch in self.active_batches: self.active_batches.remove(batch)] *)
Definition remove_active (r : ref) (self : SchedulerManager)
  : SchedulerManager :=
  set_active_batches
    (remove_first (same_batch (heap self) r) (active_batches self)) self.

(** What [send_email_batch] did: it returned a result with [success] set,
    returned one with [success] unset and a message, or raised. *)
Inductive send_result : Set :=
| SendOk
| SendFailed (msg : string)
| SendRaised (msg : string).

(** The closure [execute_batch] of the batch object [r], run by the
    [schedule] library; [result] is the behaviour of the mail transport. *)
Definition execute_batch (now : datetime)
  (config : config_manager.ScheduleSettings) (result : send_result)
  (r : ref) (self : SchedulerManager) : SchedulerManager :=
  match heap self !! r with
  | None => self
  | Some batch =>
      match result with
      | SendOk =>
          let batch' :=
            batch_set_sent_time (Some now) (batch_set_status sent batch) in
          let st := stats self in
          let self1 :=
            set_stats
              {| total_schedules_created := total_schedules_created st;
                 total_batches_sent := total_batches_sent st + 1;
                 total_emails_sent :=
                   total_emails_sent st + len (emails batch');
                 total_failures := total_failures st;
                 last_schedule_date := last_schedule_date st |}
              (set_completed_batches (completed_batches self ++ [r])
                 (set_heap (<[r := batch']> (heap self)) self)) in
          _update_schedule_status now (remove_active r self1)
      | SendFailed msg =>
          let batch' :=
            batch_set_attempts (attempts batch + 1)
              (batch_set_error_message (Some msg)
                 (batch_set_status failed batch)) in
          let st := stats self in
          let self1 :=
            set_stats
              {| total_schedules_created := total_schedules_created st;
                 total_batches_sent := total_batches_sent st;
                 total_emails_sent := total_emails_sent st;
                 total_failures := total_failures st + 1;
                 last_schedule_date := last_schedule_date st |}
              (set_failed_batches (failed_batches self ++ [r])
                 (set_heap (<[r := batch']> (heap self)) self)) in
          let self2 :=
            if config_manager.retry_failed_emails config
               && (attempts batch' <? config_manager.retry_attempts config)
            then _schedule_retry now config r self1
            else self1 in
          _update_schedule_status now (remove_active r self2)
      | SendRaised msg =>
          let batch' :=
            batch_set_attempts (attempts batch + 1)
              (batch_set_error_message (Some msg)
                 (batch_set_status failed batch)) in
          let self1 :=
            remove_active r (set_heap (<[r := batch']> (heap self)) self) in
          set_failed_batches (failed_batches self1 ++ [r]) self1
      end
  end.

(** Who calls [stop_schedule]: the thread that runs [_run_scheduler], or
    any other one. *)
Inductive caller : Set := SchedulerThread | OtherThread.

(** [for batch in self.active_batches: batch.status = "cancelled";
     self.failed_batches.append(batch)] *)
Definition cancel_batch (self : SchedulerManager) (r : ref)
  : SchedulerManager :=
  let h :=
    match heap self !! r with
    | Some batch => <[r := batch_set_status cancelled batch]> (heap self)
    | None => heap self
    end in
  set_failed_batches (failed_batches self ++ [r]) (set_heap h self).

(** [stop_schedule].  Joining the scheduler thread from that same thread
    raises [RuntimeError], which the [except] clause turns into [False];
    from another thread the join returns (after at most its timeout). *)
Definition stop_schedule (now : datetime) (who : caller)
  (self : SchedulerManager) : SchedulerManager * bool :=
  if negb (is_running self) then (self, false)
  else
    let self1 := set_jobs [] (set_is_running false self) in
    match who with
    | SchedulerThread => (self1, false)
    | OtherThread =>
        let self2 :=
          set_current_schedule
            (option_map
               (fun d => sd_set_stopped_time now (sd_set_status stopped d))
               (current_schedule self1))
            self1 in
        let self3 := fold_left cancel_batch (active_batches self2) self2 in
        (set_active_batches [] self3, true)
    end.

(** [pause_schedule] *)
Definition pause_schedule (now : datetime) (self : SchedulerManager)
  : SchedulerManager * bool :=
  if negb (is_running self) then (self, false)
  else
    let self1 := set_jobs [] self in
    (set_current_schedule
       (option_map (fun d => sd_set_paused_time now (sd_set_status paused d))
                   (current_schedule self1))
       self1,
     true).

(** One round of the loop of [resume_schedule]. *)
Definition resume_batch (now : datetime) (self : SchedulerManager) (r : ref)
  : SchedulerManager :=
  match heap self !! r with
  | Some batch =>
      if decide (status batch = pending) then
        let self1 :=
          if scheduled_time batch <? now
          then set_heap
                 (<[r := batch_set_scheduled_time
                           (now + timedelta_minutes 5) batch]> (heap self))
                 self
          else self in
        _schedule_batch r self1
      else self
  | None => self
  end.

(** [resume_schedule] *)
Definition resume_schedule (now : datetime) (self : SchedulerManager)
  : SchedulerManager * bool :=
  match current_schedule self with
  | Some d =>
      if decide (sd_status d = paused) then
        let self1 := fold_left (resume_batch now) (active_batches self) self in
        (set_current_schedule
           (option_map
              (fun d => sd_set_resumed_time now (sd_set_status running d))
              (current_schedule self1))
           self1,
         true)
      else (self, false)
  | None => (self, false)
  end.

(** The end of a round of [_run_scheduler]:
    [if not self.active_batches and self.is_running: self.stop_schedule()] *)
Definition scheduler_round_end (now : datetime) (self : SchedulerManager)
  : SchedulerManager :=
  match active_batches self with
  | [] => if is_running self
          then fst (stop_schedule now SchedulerThread self) else self
  | _ :: _ => self
  end.

(** [cleanup], called from outside the scheduler thread. *)
Definition cleanup (now : datetime) (self : SchedulerManager)
  : SchedulerManager :=
  let self1 :=
    if is_running self then fst (stop_schedule now OtherThread self)
    else self in
  set_failed_batches []
    (set_completed_batches []
       (set_active_batches [] (set_jobs [] self1))).

(** The dict returned by [get_current_schedule_status] when there is a
    schedule (without the float [progress_percentage]). *)
Record status_snapshot : Set := {
  snap_status : schedule_status;
  snap_schedule_id : uuid;
  snap_created_time : datetime;
  snap_started_time : option datetime;
  snap_total_batches : Z;
  snap_completed_batches : Z;
  snap_failed_batches : Z;
  snap_pending_batches : Z;
  snap_total_emails : Z;
  snap_next_batch : option (uuid * datetime * Z);
  snap_is_running : bool
}.

(** [min(self.active_batches, key=lambda b: b.scheduled_time)]: the first
    of the earliest batches. *)
Definition earliest (h : list EmailBatch) (l : list ref) : option EmailBatch :=
  fold_left
    (fun best r =>
       match best, h !! r with
       | None, b => b
       | Some a, Some b =>
           if scheduled_time b <? scheduled_time a then Some b else Some a
       | Some a, None => Some a
       end)
    l None.

(** [get_current_schedule_status]; [None] is [{'status': 'no_schedule'}]. *)
Definition get_current_schedule_status (self : SchedulerManager)
  : option status_snapshot :=
  match current_schedule self with
  | None => None
  | Some d =>
      let completed_n := len (completed_batches self) in
      let failed_n := len (failed_batches self) in
      let pending_n := len (active_batches self) in
      Some {|
        snap_status := sd_status d;
        snap_schedule_id := sd_schedule_id d;
        snap_created_time := sd_created_time d;
        snap_started_time := sd_started_time d;
        snap_total_batches := completed_n + failed_n + pending_n;
        snap_completed_batches := completed_n;
        snap_failed_batches := failed_n;
        snap_pending_batches := pending_n;
        snap_total_emails := sd_total_emails d;
        snap_next_batch :=
          option_map
            (fun b => (batch_id b, scheduled_time b, len (emails b)))
            (earliest (heap self) (active_batches self));
        snap_is_running := is_running self |}
  end.

(** [get_active_schedule_count] *)
Definition get_active_schedule_count (self : SchedulerManager) : Z :=
  match current_schedule self with
  | Some _ => if is_running self then 1 else 0
  | None => 0
  end.

(** [health_check].  The two arguments tell whether the email processor
    and the configuration manager given to the constructor are objects
    (and not [None]).  The method calls [schedule.clear()], which empties
    the registry of jobs, then registers a test job and cancels it. *)
Definition health_check (email_processor config_manager : bool)
  (self : SchedulerManager) : SchedulerManager * bool :=
  if negb email_processor then (self, false)
  else if negb config_manager then (self, false)
  else (set_jobs [] self, true).

(** *** Serialisation *)

(** The Python values that [_make_json_serializable] tells apart (a
    [datetime], a [dict], a [list]) and some of those it does not.  A
    [dict] has [str] keys and keeps their order. *)
#[local] Unset Elimination Schemes.
Inductive value : Set :=
| VNone
| VBool (b : bool)
| VInt (n : Z)
| VStr (s : string)
| VDatetime (t : datetime)
| VList (items : list value)
| VDict (entries : list (string * value))
| VTuple (items : list value).
#[local] Set Elimination Schemes.

Section serialisation.
(** [datetime.isoformat], of the standard library. *)
Variable isoformat : datetime -> string.

(** [_make_json_serializable] *)
Fixpoint _make_json_serializable (data : value) : value :=
  match data with
  | VDatetime t => VStr (isoformat t)
  | VDict entries =>
      VDict (map (fun kv => (fst kv, _make_json_serializable (snd kv)))
                 entries)
  | VList items => VList (map _make_json_serializable items)
  | _ => data
  end.
End serialisation.

End scheduler_manager.

(** ** [core/email_processor.py] *)

Module email_processor.
Import Py.

(** The dataclass [EmailData] (the float [validation_score] and the
    [metadata] of the validation are left out). *)
Record EmailData : Set := {
  address : string;
  status : string;
  attempts : Z;
  last_attempt : option datetime;
  error_message : option string
}.

(** The dataclass [ProcessingResult]; [unique_emails] is the entry of its
    [details]. *)
Record ProcessingResult : Set := {
  pr_success : bool;
  pr_message : string;
  processed_count : Z;
  valid_emails : Z;
  invalid_emails : Z;
  duplicates_removed : Z;
  unique_emails : Z
}.

(** The dataclass [SendingResult]. *)
Record SendingResult : Set := {
  success : bool;
  message : string;
  sent_count : Z;
  failed_count : Z;
  failed_emails : option (list string);
  warnings : option (list string)
}.

(** The [EmailProcessor] object: its list of emails, the two counters of
    [processing_stats] that sending updates, and [batch_size]. *)
Record EmailProcessor : Set := {
  email_list : list EmailData;
  stats_sent_emails : Z;
  stats_failed_emails : Z;
  batch_size : Z
}.

Definition __init__ : EmailProcessor := {|
  email_list := [];
  stats_sent_emails := 0;
  stats_failed_emails := 0;
  batch_size := 1000
|}.

(** The body of the loop that removes duplicates: [seen] is a set and
    [unique_emails] a list. *)
Definition dedup_step (st : gset string * list string) (email : string)
  : gset string * list string :=
  let email_lower := str_strip (lower email) in
  if bool_decide (email_lower ∈ st.1) then st
  else ({[email_lower]} ∪ st.1, (st.2 ++ [email_lower])%list).

(** [EmailData(address=email, status=...)] *)
Definition new_email (email : string) (valid : bool) : EmailData := {|
  address := email;
  status := if valid then "valid" else "invalid";
  attempts := 0;
  last_attempt := None;
  error_message := None
|}.

(** The body of the inner validation loop, on the two lists
    [valid_emails] and [invalid_emails]. *)
Definition validate_step (is_valid : string -> bool)
  (st : list EmailData * list EmailData) (email : string)
  : list EmailData * list EmailData :=
  if is_valid email
  then ((st.1 ++ [new_email email true])%list, st.2)
  else (st.1, (st.2 ++ [new_email email false])%list).

(** [_process_email_list].  [is_valid] is the verdict of the validation
    engine given to the constructor.  The emails are validated in runs of
    [min(self.batch_size, 100)]. *)
Definition _process_email_list (is_valid : string -> bool)
  (self : EmailProcessor) (raw_emails : list string)
  : outcome (EmailProcessor * ProcessingResult) :=
  let processed_count := len raw_emails in
  let unique := (fold_left dedup_step raw_emails (∅, [])).2 in
  let duplicates := processed_count - len unique in
  let step := Z.min (batch_size self) 100 in
  match range_from_zero (len unique) step with
  | None => Raise ValueError
  | Some starts =>
      let '(valid, invalid) :=
        fold_left
          (fun st i =>
             fold_left (validate_step is_valid)
                       (slice unique i (i + step)) st)
          starts ([], []) in
      Done ({| email_list := (valid ++ invalid)%list;
               stats_sent_emails := stats_sent_emails self;
               stats_failed_emails := stats_failed_emails self;
               batch_size := batch_size self |},
            {| pr_success := true;
               pr_message := "Processed " ++ str_of_int processed_count
                             ++ " emails successfully";
               processed_count := processed_count;
               valid_emails := len valid;
               invalid_emails := len invalid;
               duplicates_removed := duplicates;
               unique_emails := len unique |})
  end.

(** [_update_email_status]: the first entry with that address is
    updated; an error message that is [None] or empty is not recorded. *)
Fixpoint _update_email_status (now : datetime) (l : list EmailData)
  (email_address new_status : string) (error : option string)
  : list EmailData :=
  match l with
  | [] => []
  | email_data :: rest =>
      if String.eqb (address email_data) email_address
      then {| address := address email_data;
              status := new_status;
              attempts := attempts email_data + 1;
              last_attempt := Some now;
              error_message :=
                match error with
                | Some (String c m) => Some (String c m)
                | _ => error_message email_data
                end |} :: rest
      else email_data
           :: _update_email_status now rest email_address new_status error
  end.

(** [get_valid_emails], [get_pending_emails], [get_failed_emails]. *)
Definition get_valid_emails (self : EmailProcessor) : list EmailData :=
  List.filter (fun email => String.eqb (status email) "valid")
              (email_list self).

Definition get_pending_emails (self : EmailProcessor) : list EmailData :=
  List.filter (fun email => String.eqb (status email) "valid"
                            || String.eqb (status email) "pending")
              (email_list self).

Definition get_failed_emails (self : EmailProcessor) : list EmailData :=
  List.filter (fun email => String.eqb (status email) "failed")
              (email_list self).

(** The entry [total_emails] of [get_statistics]. *)
Definition total_emails (self : EmailProcessor) : Z := len (email_list self).

(** What [outlook_manager.send_email_batch] did: it returned a result with
    [success] set, one with [success] unset and a message, or it raised an
    exception with that text. *)
Inductive outlook_reply : Set :=
| Accepted (outlook_warnings : option (list string))
| Rejected (outlook_message : string)
| Failed (text : string).

(** The loop [for email_addr in batch_emails:
    self._update_email_status(email_addr, status, error)]. *)
Definition update_all (now : datetime) (l : list EmailData)
  (batch_emails : list string) (new_status : string)
  (error : option string) : list EmailData :=
  fold_left
    (fun l email_addr =>
       _update_email_status now l email_addr new_status error)
    batch_emails l.

(** [send_email_batch].  [connected] is what
    [outlook_manager.is_connected()] returns and [reply] what the Outlook
    manager does with the batch. *)
Definition send_email_batch (now : datetime) (connected : bool)
  (reply : outlook_reply) (self : EmailProcessor)
  (batch_emails : list string) : EmailProcessor * SendingResult :=
  match batch_emails with
  | [] =>
      (self, {| success := false;
                message := "No email addresses provided";
                sent_count := 0; failed_count := 0;
                failed_emails := None; warnings := None |})
  | _ :: _ =>
      if negb connected
      then (self, {| success := false;
                     message := "Outlook not connected";
                     sent_count := 0; failed_count := 0;
                     failed_emails := Some batch_emails;
                     warnings := None |})
      else
        match reply with
        | Accepted w =>
            ({| email_list :=
                  update_all now (email_list self) batch_emails "sent" None;
                stats_sent_emails :=
                  stats_sent_emails self + len batch_emails;
                stats_failed_emails := stats_failed_emails self;
                batch_size := batch_size self |},
             {| success := true;
                message := "Email sent to " ++ str_of_int (len batch_emails)
                           ++ " recipients";
                sent_count := len batch_emails; failed_count := 0;
                failed_emails := None; warnings := w |})
        | Rejected m =>
            ({| email_list :=
                  update_all now (email_list self) batch_emails "failed"
                             (Some m);
                stats_sent_emails := stats_sent_emails self;
                stats_failed_emails :=
                  stats_failed_emails self + len batch_emails;
                batch_size := batch_size self |},
             {| success := false;
                message := m;
                sent_count := 0; failed_count := len batch_emails;
                failed_emails := Some batch_emails; warnings := None |})
        | Failed text =>
            ({| email_list :=
                  update_all now (email_list self) batch_emails "failed"
                             (Some text);
                stats_sent_emails := stats_sent_emails self;
                stats_failed_emails :=
                  stats_failed_emails self + len batch_emails;
                batch_size := batch_size self |},
             {| success := false;
                message := "Error sending email batch: " ++ text;
                sent_count := 0; failed_count := len batch_emails;
                failed_emails := Some batch_emails; warnings := None |})
        end
  end.

End email_processor.

(** ** [gui/components/schedule_frame.py] *)

Module schedule_frame.
Import Py.

(** The Tk variables of the frame.  [get] on an [IntVar] whose entry does
    not hold an integer raises: such a variable is [None]. *)
Record ScheduleFrame : Set := {
  emails_per_day_var : option Z;
  emails_per_batch_var : option Z;
  start_time_var : string;
  working_days_var : bool
}.

(** The message boxes the frame shows.  The text of the box that reports
    a created schedule is built from the result, which stands for it. *)
Inductive dialog : Set :=
| showerror (title text : string)
| showwarning (title text : string)
| showinfo_created (result : scheduler_manager.ScheduleResult).

(** [_validate_settings], with the boxes it shows.  Its check of the
    start time is, word for word, the [try] block of
    [ConfigManager.validate_config].  An exception of [get] is caught by
    the outer [except], which shows nothing. *)
Definition _validate_settings (self : ScheduleFrame) : bool * list dialog :=
  match emails_per_day_var self, emails_per_batch_var self with
  | Some emails_per_day, Some emails_per_batch =>
      if (emails_per_day <? 1) || (1000 <? emails_per_day)
      then (false,
            [showerror "Error" "Emails per day must be between 1 and 1000"])
      else if (emails_per_batch <? 1) || (50 <? emails_per_batch)
      then (false,
            [showerror "Error" "Emails per batch must be between 1 and 50"])
      else if emails_per_day <? emails_per_batch
      then (false,
            [showerror "Error"
                       "Emails per batch cannot exceed emails per day"])
      else if config_manager.time_format_error (start_time_var self)
      then (false,
            [showerror "Error"
               "Start time must be in HH:MM format (00:00 to 23:59)"])
      else (true, [])
  | _, _ => (false, [])
  end.

(** The dict returned by [_get_email_data]; the key [attachments] may be
    missing. *)
Record email_data : Set := {
  subject : string;
  body : string;
  attachments : option (list string)
}.

(** [ScheduleSettings(emails_per_day=..., emails_per_batch=...,
    start_time=..., working_days_only=...)]: the other fields take the
    defaults of the dataclass. *)
Definition settings_of_frame (emails_per_day emails_per_batch : Z)
  (self : ScheduleFrame) : scheduler_manager.ScheduleSettings := {|
  scheduler_manager.emails_per_day := emails_per_day;
  scheduler_manager.emails_per_batch := emails_per_batch;
  scheduler_manager.start_time := start_time_var self;
  scheduler_manager.end_time := "18:00";
  scheduler_manager.working_days_only := working_days_var self;
  scheduler_manager.batch_interval_minutes := 5;
  scheduler_manager.retry_failed_batches := true;
  scheduler_manager.max_retry_attempts := 3;
  scheduler_manager.retry_delay_hours := 1
|}.

(** [_create_schedule], for an application that has its email processor
    and its scheduler manager: the manager after the call and the boxes
    shown.  [config] is the configuration the scheduler manager reads. *)
Definition _create_schedule (fuel : nat) (now : datetime)
  (config : config_manager.ScheduleSettings) (self : ScheduleFrame)
  (processor : email_processor.EmailProcessor) (data : email_data)
  (manager : scheduler_manager.SchedulerManager)
  : outcome (scheduler_manager.SchedulerManager * list dialog) :=
  match _validate_settings self with
  | (false, shown) => Done (manager, shown)
  | (true, _) =>
      if email_processor.total_emails processor =? 0
      then Done (manager,
                 [showwarning "Warning"
                    "No emails loaded. Please load an email list first."])
      else if blank (subject data)
      then Done (manager,
                 [showwarning "Warning" "Please enter an email subject"])
      else if blank (body data)
      then Done (manager,
                 [showwarning "Warning" "Please enter an email message"])
      else
        match map email_processor.address
                  (email_processor.get_valid_emails processor) with
        | [] => Done (manager, [showerror "Error" "No valid emails found"])
        | (_ :: _) as valid_emails =>
            match emails_per_day_var self, emails_per_batch_var self with
            | Some emails_per_day, Some emails_per_batch =>
                let schedule_settings :=
                  settings_of_frame emails_per_day emails_per_batch self in
                let attachments :=
                  match attachments data with
                  | Some l => l
                  | None => []
                  end in
                bind (scheduler_manager.create_schedule
                        fuel now config manager valid_emails
                        (subject data) (body data) (Some attachments)
                        (Some schedule_settings))
                     (fun r =>
                        if scheduler_manager.success (snd r)
                        then Done (fst r, [showinfo_created (snd r)])
                        else Done (fst r,
                                   [showerror "Error"
                                      ("Failed to create schedule: "
                                       ++ scheduler_manager.message (snd r))]))
            | _, _ => Done (manager, [])
            end
        end
  end.

End schedule_frame.

(** * Vocabulary of the properties *)

Import Py scheduler_manager.
#[local] Open Scope list_scope.
#[local] Open Scope Z_scope.

(** ** The planner *)

(** The settings the planner is meant for. *)
Definition valid_settings (s : ScheduleSettings) : Prop :=
  0 < emails_per_batch s /\ emails_per_batch s <= emails_per_day s.

(** [max_daily_batches] *)
Definition max_daily (settings : ScheduleSettings) : Z :=
  emails_per_day settings / emails_per_batch settings.

(** The start time as an offset into the day. *)
Definition start_offset (start_hour start_minute : Z) : Z :=
  start_hour * us_per_hour + start_minute * us_per_minute.


(** The scheduled time of the [k]-th batch of the day of ordinal [d]. *)
Definition slot_time (settings : ScheduleSettings) (start_hour start_minute : Z)
  (d k : Z) : datetime :=
  timedelta_days d + start_offset start_hour start_minute
  + k * timedelta_minutes (batch_interval_minutes settings).

(** How many days after its own day the [k]-th batch of a day falls. *)
Definition slot_shift (settings : ScheduleSettings)
  (start_hour start_minute : Z) (k : Z) : Z :=
  (start_offset start_hour start_minute
   + k * timedelta_minutes (batch_interval_minutes settings))
  / us_per_day.

(** The [k]-th batch that lands on day [x] comes from a day before [d], or
    from day [d] and is one of its first [j] batches. *)
Definition slot_used (settings : ScheduleSettings)
  (start_hour start_minute : Z) (d j x k : Z) : bool :=
  (x - slot_shift settings start_hour start_minute k <? d)
  || ((x - slot_shift settings start_hour start_minute k =? d) && (k <? j)).

Definition krange (m : Z) : list Z := map Z.of_nat (seq 0 (Z.to_nat m)).

(** The number of batch positions of day [x] that the planner can have
    filled when it is at batch [j] of day [d]. *)
Definition slots (settings : ScheduleSettings) (start_hour start_minute : Z)
  (d j x : Z) : Z :=
  len (List.filter (slot_used settings start_hour start_minute d j x)
                   (krange (max_daily settings))).

(** The guard of the inner loop at batch [j] of day [d]. *)
Definition day_guard (all_emails : list string) (settings : ScheduleSettings)
  (d j : Z) (bs : list EmailBatch) (i : Z) : Prop :=
  i < len all_emails /\ j < max_daily settings
  /\ day_email_count bs (timedelta_days d) < emails_per_day settings.

(** The batches after the body of the inner loop. *)
Definition appended (now : datetime) (fresh : uuid) (all_emails : list string)
  (the_subject the_body : string) (the_attachments : list string)
  (settings : ScheduleSettings) (start_hour start_minute : Z)
  (d j : Z) (bs : list EmailBatch) (i : Z) : list EmailBatch :=
  bs ++ [new_batch now fresh the_subject the_body the_attachments bs
           (slice all_emails i (i + emails_per_batch settings))
           (slot_time settings start_hour start_minute d j) j
           (max_daily settings)].

(** The conditions under which a day gets batches. *)
Definition day_entered (settings : ScheduleSettings)
  (start_hour start_minute : Z) (d : Z) : Prop :=
  (0 <= start_hour <= 23 /\ 0 <= start_minute <= 59)
  /\ working_days_only settings && (5 <=? weekday (timedelta_days d)) = false
  /\ emails_per_batch settings <> 0.

(** The batches are the slices of a prefix of the recipients, none larger
    than [emails_per_batch], and a day holds no more recipients than
    [emails_per_batch] for each of its filled positions. *)
Definition plan_inv (all_emails : list string) (settings : ScheduleSettings)
  (start_hour start_minute : Z) (d j : Z) (bs : list EmailBatch) (i : Z)
  : Prop :=
  0 <= i <= len all_emails
  /\ concat (map emails bs) = firstn (Z.to_nat i) all_emails
  /\ Forall (fun b => len (emails b) <= emails_per_batch settings) bs
  /\ forall x, day_email_count bs (timedelta_days x)
               <= emails_per_batch settings
                  * slots settings start_hour start_minute d j x.


(** Every batch is on a working day. *)
Definition weekday_inv (d j : Z) (bs : list EmailBatch) (i : Z) : Prop :=
  Forall (fun b => weekday (scheduled_time b) < 5) bs.


(** The days of weekend still to skip from day [d]. *)
Definition weekend_left (d : Z) : nat :=
  let w := weekday (timedelta_days d) in
  if 5 <=? w then Z.to_nat (7 - w) else O.

(** Fuel that lets the planner finish on [n] recipients. *)
Definition plan_fuel (n : nat) : nat := (3 * n + 3)%nat.

(** The batches of a run of the planner, or none if it did not return. *)
Definition batches_of (o : outcome (list EmailBatch)) : list EmailBatch :=
  match o with
  | Done bs => bs
  | _ => []
  end.

(** ** The engine *)

(** The status of the batch object behind a reference. *)
Definition status_at (h : list EmailBatch) (r : ref) : option batch_status :=
  option_map status (h !! r).

Definition status_of (self : SchedulerManager) (r : ref) : option batch_status :=
  status_at (heap self) r.

(** The batches the manager keeps in one of its three collections. *)
Definition managed (self : SchedulerManager) (r : ref) : Prop :=
  In r (active_batches self) \/ In r (completed_batches self)
  \/ In r (failed_batches self).

(** A batch that is past pending. *)
Definition settled (h : list EmailBatch) (r : ref) : Prop :=
  exists s, status_at h r = Some s /\ s <> pending.

(** The active collection holds pending batches, each once; the batches of
    the two other collections are past pending; every job runs a batch that
    exists. *)
Record engine_inv (self : SchedulerManager) : Prop := {
  inv_active :
    Forall (fun r => status_of self r = Some pending) (active_batches self);
  inv_nodup : NoDup (active_batches self);
  inv_completed : Forall (settled (heap self)) (completed_batches self);
  inv_failed : Forall (settled (heap self)) (failed_batches self);
  inv_jobs :
    Forall (fun j => (job_batch j < List.length (heap self))%nat) (jobs self)
}.

(** The states the manager can be in: from the fresh object, by its public
    operations called from outside the scheduler thread, by the jobs that
    the [schedule] library runs (any registered job, at any time) and by the
    end of a round of the scheduler thread. *)
Inductive reachable : SchedulerManager -> Prop :=
| reach_init : reachable __init__
| reach_create fuel now config self all_emails the_subject the_body
    the_attachments schedule_settings self' result :
    reachable self ->
    create_schedule fuel now config self all_emails the_subject the_body
                    the_attachments schedule_settings = Done (self', result) ->
    reachable self'
| reach_start now self :
    reachable self -> reachable (fst (start_schedule now self))
| reach_execute now config result j self :
    reachable self -> In j (jobs self) ->
    reachable (execute_batch now config result (job_batch j) self)
| reach_round_end now self :
    reachable self -> reachable (scheduler_round_end now self)
| reach_stop now self :
    reachable self -> reachable (fst (stop_schedule now OtherThread self))
| reach_pause now self :
    reachable self -> reachable (fst (pause_schedule now self))
| reach_resume now self :
    reachable self -> reachable (fst (resume_schedule now self))
| reach_cleanup now self :
    reachable self -> reachable (cleanup now self).

(** What a failed dispatch records on the batch object: the three
    assignments at the head of the [else] branch of [execute_batch]. *)
Definition record_failure (msg : string) (b : EmailBatch) : EmailBatch :=
  batch_set_attempts (attempts b + 1)
    (batch_set_error_message (Some msg) (batch_set_status failed b)).

(** Dispatching the batch [r] when every dispatch fails, and then each retry
    batch that a failure creates (the object it adds to the store), until a
    failure creates none: the number of failed dispatches and the state at
    the end. *)
Fixpoint fail_chain (fuel : nat) (now : datetime)
  (config : config_manager.ScheduleSettings) (r : ref)
  (self : SchedulerManager) : nat * SchedulerManager :=
  match fuel with
  | O => (O, self)
  | S fuel' =>
      let self' := execute_batch now config (SendFailed "rejected") r self in
      if (List.length (heap self) <? List.length (heap self'))%nat
      then let '(n, s) :=
             fail_chain fuel' now config (List.length (heap self)) self' in
           (S n, s)
      else (1%nat, self')
  end.

(** ** Concrete inputs *)

(** A Thursday: 2024-01-04, at noon. *)
Definition thursday_noon : datetime :=
  timedelta_days 738889 + 12 * us_per_hour.

(** The settings of the worked example of the specification. *)
Definition example_settings : ScheduleSettings := {|
  emails_per_day := 10;
  emails_per_batch := 5;
  start_time := "09:00";
  end_time := "18:00";
  working_days_only := false;
  batch_interval_minutes := 5;
  retry_failed_batches := true;
  max_retry_attempts := 3;
  retry_delay_hours := 1
|}.

Definition twenty_five_emails : list string :=
  map (fun i => "user" ++ str_of_int (Z.of_nat i) ++ "@example.org")%string
      (seq 0 25).

(** Settings with a start time just before midnight. *)
Definition late_settings : ScheduleSettings := {|
  emails_per_day := 10;
  emails_per_batch := 5;
  start_time := "23:58";
  end_time := "18:00";
  working_days_only := true;
  batch_interval_minutes := 5;
  retry_failed_batches := true;
  max_retry_attempts := 3;
  retry_delay_hours := 1
|}.

Definition six_emails : list string :=
  ["a@x.org"; "b@x.org"; "c@x.org"; "d@x.org"; "e@x.org"; "f@x.org"].

(** The manager after a schedule for one recipient was created with the
    default configuration, the result of that call, and the manager after
    the schedule was started. *)
Definition one_batch_created : SchedulerManager :=
  match create_schedule 10 thursday_noon config_manager.defaults __init__
                        ["a@x.org"] "subject" "body" None None with
  | Done (s, _) => s
  | _ => __init__
  end.

Definition one_batch_result : ScheduleResult :=
  match create_schedule 10 thursday_noon config_manager.defaults __init__
                        ["a@x.org"] "subject" "body" None None with
  | Done (_, r) => r
  | _ => failure "no result"
  end.

Definition one_batch_started : SchedulerManager :=
  fst (start_schedule thursday_noon one_batch_created).

(** The manager after a schedule whose own settings ask for retries one
    hour later ([example_settings]) was created for one recipient and
    started, and after the dispatch of its batch failed once, under the
    default configuration. *)
Definition hourly_started : SchedulerManager :=
  match create_schedule 10 thursday_noon config_manager.defaults __init__
                        ["a@x.org"] "subject" "body" None
                        (Some example_settings) with
  | Done (s, _) => fst (start_schedule thursday_noon s)
  | _ => __init__
  end.

Definition hourly_failed_once : SchedulerManager :=
  execute_batch thursday_noon config_manager.defaults (SendFailed "rejected")
                0%nat hourly_started.

(** The default configuration with the retries switched off, and the same
    failed dispatch under it. *)
Definition no_retry_config : config_manager.ScheduleSettings := {|
  config_manager.emails_per_day := 499;
  config_manager.emails_per_batch := 10;
  config_manager.start_time := "06:00";
  config_manager.working_days_only := true;
  config_manager.retry_failed_emails := false;
  config_manager.retry_attempts := 3;
  config_manager.retry_delay_minutes := 30;
  config_manager.batch_delay_minutes := 2
|}.

Definition hourly_failed_without_retry : SchedulerManager :=
  execute_batch thursday_noon no_retry_config (SendFailed "rejected")
                0%nat hourly_started.

(** A pending batch for one recipient, and a manager that holds just it. *)
Definition lone_batch : EmailBatch := {|
  batch_id := 0%nat;
  emails := ["a@x.org"];
  subject := "subject";
  body := "body";
  attachments := [];
  scheduled_time := timedelta_days 738890 + 9 * us_per_hour;
  status := pending;
  created_time := thursday_noon;
  sent_time := None;
  attempts := 0;
  error_message := None;
  metadata := []
|}.

Definition lone_manager : SchedulerManager :=
  set_next_uuid 1%nat
    (set_active_batches [0%nat] (set_heap [lone_batch] __init__)).

(** ** The shape of a plan *)

(** The [day_batch_number] recorded in the metadata of a batch. *)
Definition day_batch_number (b : EmailBatch) : option Z :=
  match dict_get (metadata b) "day_batch_number" with
  | Some (MInt n) => Some n
  | _ => None
  end.

(** The planner has made a batch only if its settings leave room for one,
    and it has used recipients only if it has made a batch. *)
Definition room_inv (settings : ScheduleSettings)
  (d j : Z) (bs : list EmailBatch) (i : Z) : Prop :=
  (bs = [] -> i = 0)
  /\ (bs <> [] ->
      1 <= emails_per_day settings / emails_per_batch settings
      /\ 1 <= emails_per_day settings).

(** The [k]-th batch holds the [k]-th run of [emails_per_batch]
    recipients. *)
Definition chunk_inv (all_emails : list string) (settings : ScheduleSettings)
  (d j : Z) (bs : list EmailBatch) (i : Z) : Prop :=
  i = Z.min (len bs * emails_per_batch settings) (len all_emails)
  /\ (bs = [] \/ (len bs - 1) * emails_per_batch settings < len all_emails)
  /\ forall (k : nat) (b : EmailBatch),
      bs !! k = Some b ->
      emails b
      = slice all_emails (Z.of_nat k * emails_per_batch settings)
              (Z.of_nat k * emails_per_batch settings
               + emails_per_batch settings).

(** What the planner writes into the [k]-th batch besides its recipients
    and its time. *)
Definition planned_fields (now : datetime) (fresh : uuid)
  (the_subject the_body : string) (the_attachments : list string)
  (settings : ScheduleSettings) (k : nat) (b : EmailBatch) : Prop :=
  batch_id b = (fresh + k)%nat
  /\ (subject b = the_subject /\ body b = the_body
      /\ attachments b = the_attachments)
  /\ (status b = pending /\ created_time b = now /\ sent_time b = None
      /\ attempts b = 0 /\ error_message b = None)
  /\ (exists n, day_batch_number b = Some n
                /\ 1 <= n <= emails_per_day settings / emails_per_batch settings)
  /\ dict_get (metadata b) "total_day_batches"
     = Some (MInt (emails_per_day settings / emails_per_batch settings))
  /\ dict_get (metadata b) "emails_in_batch" = Some (MInt (len (emails b))).

Definition fields_inv (now : datetime) (fresh : uuid)
  (the_subject the_body : string) (the_attachments : list string)
  (settings : ScheduleSettings)
  (d j : Z) (bs : list EmailBatch) (i : Z) : Prop :=
  forall (k : nat) (b : EmailBatch),
    bs !! k = Some b ->
    planned_fields now fresh the_subject the_body the_attachments settings k b.

(** Two batches that follow each other in a plan: the second one is the
    next of the same day, one interval later, or it is the first of a later
    day, a whole number of days after the first batch of the day of the
    other. *)
Definition follows (settings : ScheduleSettings) (a b : EmailBatch) : Prop :=
  exists n,
    day_batch_number a = Some n
    /\ ((day_batch_number b = Some (n + 1)
         /\ scheduled_time b
            = scheduled_time a
              + timedelta_minutes (batch_interval_minutes settings))
        \/ (day_batch_number b = Some 1
            /\ exists gap,
                1 <= gap
                /\ scheduled_time b
                   = scheduled_time a
                     - (n - 1)
                       * timedelta_minutes (batch_interval_minutes settings)
                     + timedelta_days gap)).

(** Neighbours in the plan follow each other, and the last batch is batch
    [j - 1] of the day the planner is at, or a batch of a day before. *)
Definition spacing_inv (settings : ScheduleSettings)
  (start_hour start_minute : Z)
  (d j : Z) (bs : list EmailBatch) (i : Z) : Prop :=
  (forall (k : nat) (a b : EmailBatch),
      bs !! k = Some a -> bs !! S k = Some b -> follows settings a b)
  /\ forall a : EmailBatch,
      last bs = Some a ->
      exists da ja,
        0 <= ja
        /\ scheduled_time a
           = slot_time settings start_hour start_minute da ja
        /\ day_batch_number a = Some (ja + 1)
        /\ ((da = d /\ ja + 1 = j) \/ (da < d /\ j = 0)).

(** ** Dispatching *)

(** The job that [_schedule_batch] registers for the batch object [r]. *)
Definition job_of (h : list EmailBatch) (r : ref) : option job :=
  option_map
    (fun b => {| job_at := hour_minute (scheduled_time b); job_batch := r |})
    (h !! r).

(** What a successful dispatch at [now] records on the batch object. *)
Definition record_sent (now : datetime) (b : EmailBatch) : EmailBatch :=
  batch_set_sent_time (Some now) (batch_set_status sent b).

(** The statistics after one more batch of [n] recipients was sent. *)
Definition count_sent (n : Z) (st : statistics) : statistics :=
  {| total_schedules_created := total_schedules_created st;
     total_batches_sent := total_batches_sent st + 1;
     total_emails_sent := total_emails_sent st + n;
     total_failures := total_failures st;
     last_schedule_date := last_schedule_date st |}.

(** The jobs of the batches [l] run one after the other, in that order,
    each at the time [clock] gives it and each with a successful sending. *)
Definition dispatch_all (clock : ref -> datetime)
  (config : config_manager.ScheduleSettings) (l : list ref)
  (self : SchedulerManager) : SchedulerManager :=
  fold_left (fun s r => execute_batch (clock r) config SendOk r s) l self.

(** The recipients of the batches [l]. *)
Definition recipients (h : list EmailBatch) (l : list ref) : Z :=
  fold_right (fun r n => match h !! r with
                         | Some b => len (emails b) + n
                         | None => n
                         end) 0 l.


(** The settings [create_schedule] plans with: those it is given, or those
    it builds from the configuration. *)
Definition settings_used (config : config_manager.ScheduleSettings)
  (schedule_settings : option ScheduleSettings) : ScheduleSettings :=
  match schedule_settings with
  | None => settings_of_config config
  | Some s => s
  end.

(** ** The list of emails *)

(** The form under which [_process_email_list] keeps an address. *)
Definition normalise (email : string) : string := str_strip (lower email).

(** A list without its repetitions, each element kept at its first
    place. *)
Fixpoint first_occurrences (l : list string) : list string :=
  match l with
  | [] => []
  | x :: r =>
      x :: List.filter (fun y => negb (String.eqb y x)) (first_occurrences r)
  end.

(** What a successful sending at [now] records on an entry of the list. *)
Definition mark_sent (now : datetime) (e : email_processor.EmailData)
  : email_processor.EmailData := {|
  email_processor.address := email_processor.address e;
  email_processor.status := "sent";
  email_processor.attempts := email_processor.attempts e + 1;
  email_processor.last_attempt := Some now;
  email_processor.error_message := email_processor.error_message e
|}.

(** Membership in a list of addresses, as a test. *)
Definition among (l : list string) (a : string) : bool :=
  existsb (String.eqb a) l.

(** ** Serialised values *)

(** A [datetime] occurs in the value. *)
Fixpoint has_datetime (v : value) : bool :=
  match v with
  | VDatetime _ => true
  | VList items => existsb has_datetime items
  | VDict entries => existsb (fun kv => has_datetime (snd kv)) entries
  | VTuple items => existsb has_datetime items
  | _ => false
  end.

(** A tuple occurs in the value. *)
Fixpoint has_tuple (v : value) : bool :=
  match v with
  | VTuple _ => true
  | VList items => existsb has_tuple items
  | VDict entries => existsb (fun kv => has_tuple (snd kv)) entries
  | _ => false
  end.

(** The keys of a [dict] and the number of items of a [list], all the way
    down. *)
Fixpoint shape (v : value) : value :=
  match v with
  | VList items => VList (map shape items)
  | VDict entries => VDict (map (fun kv => (fst kv, shape (snd kv))) entries)
  | _ => VNone
  end.

(** A schedule frame set to ten emails a day in batches of five from 09:00,
    a processor that holds one valid email, and the data of an email. *)
Definition example_frame : schedule_frame.ScheduleFrame := {|
  schedule_frame.emails_per_day_var := Some 10;
  schedule_frame.emails_per_batch_var := Some 5;
  schedule_frame.start_time_var := "09:00";
  schedule_frame.working_days_var := false
|}.

Definition example_processor : email_processor.EmailProcessor := {|
  email_processor.email_list := [email_processor.new_email "a@x.org" true];
  email_processor.stats_sent_emails := 0;
  email_processor.stats_failed_emails := 0;
  email_processor.batch_size := 1000
|}.

Definition example_data : schedule_frame.email_data := {|
  schedule_frame.subject := "subject";
  schedule_frame.body := "body";
  schedule_frame.attachments := None
|}.

(** A dict with a [datetime] and a list, as [schedule_data] has them. *)
Definition example_value : value :=
  VDict [("created_time", VDatetime thursday_noon);
         ("status", VStr "created");
         ("batches", VList [VDict [("scheduled_time",
                                    VDatetime thursday_noon)]])].

(** ** A dispatch through the email processor *)

(** What the closure [execute_batch] makes of the result of
    [send_email_batch]: it tests [result.success] and, on a failure, keeps
    [result.message]. *)
Definition send_outcome (result : email_processor.SendingResult)
  : send_result :=
  if email_processor.success result then SendOk
  else SendFailed (email_processor.message result).

(** The closure [execute_batch] of the batch object [r] together with the
    call of [send_email_batch] it starts with, on the scheduler manager and
    the email processor it was given. *)
Definition dispatch (now : datetime)
  (config : config_manager.ScheduleSettings) (connected : bool)
  (reply : email_processor.outlook_reply) (r : ref)
  (st : SchedulerManager * email_processor.EmailProcessor)
  : SchedulerManager * email_processor.EmailProcessor :=
  match heap st.1 !! r with
  | None => st
  | Some batch =>
      let sent :=
        email_processor.send_email_batch now connected reply st.2
                                         (emails batch) in
      (execute_batch now config (send_outcome sent.2) r st.1, sent.1)
  end.

(** ** The limits of Python's values *)

(** The datetimes Python represents run from 0001-01-01 00:00:00 to
    9999-12-31 23:59:59.999999, the days of ordinal 1 to 3652059.
    Arithmetic that leaves them raises [OverflowError]; [datetime] above is
    unbounded, so a statement about a run that computes a time assumes that
    time to be representable. *)
Definition max_ordinal : Z := 3652059.

Definition representable (t : datetime) : Prop := 1 <= date t <= max_ordinal.

(** Room in the calendar for the planner, called at [now] for [n]
    recipients under valid settings.  Its first day is at most three days
    after [now]; every day it plans on takes a recipient and is followed by
    at most two days it skips, so it leaves its loop at most [3 * n] days
    later; and the times it computes on a day, the one after the last batch
    of the day included, lie at most [spill + 2] days after that day's
    midnight, where [spill] is the day's batches times the interval, in
    days. *)
Definition calendar_room (now : datetime) (n spill : Z) : Prop :=
  representable now /\ date now + 3 * n + 5 + spill <= max_ordinal.

(** [str.isascii].  On ASCII strings [blank], [str_strip], [lower] and
    [int] are Python's [strip], [lower] and [int]; beyond ASCII Python also
    strips other spaces, folds other capitals and reads other digits. *)
Definition isascii (s : string) : bool :=
  forallb (fun c => Nat.ltb (nat_of_ascii c) 128) (list_ascii_of_string s).

(** A start time of at most nine ASCII characters.  An integer that [int]
    reads from it is below 10^9 in absolute value: it fits the C int that
    [datetime.replace] converts its arguments to, and its digits are fewer
    than the 4300 that Python converts. *)
Definition short_ascii (s : string) : Prop :=
  isascii s = true /\ (String.length s <= 9)%nat.

(** Settings for one email a day, and the manager after a schedule for two
    recipients was created with them and started: its batches are on a
    Friday and on the Monday after. *)
Definition one_a_day : ScheduleSettings := {|
  emails_per_day := 1;
  emails_per_batch := 1;
  start_time := "09:00";
  end_time := "18:00";
  working_days_only := true;
  batch_interval_minutes := 5;
  retry_failed_batches := true;
  max_retry_attempts := 3;
  retry_delay_hours := 1
|}.

Definition two_days_started : SchedulerManager :=
  match create_schedule 10 thursday_noon config_manager.defaults __init__
                        ["a@x.org"; "b@x.org"] "subject" "body" None
                        (Some one_a_day) with
  | Done (s, _) => fst (start_schedule thursday_noon s)
  | _ => __init__
  end.

(** * Properties *)

(** ** Calendar arithmetic *)

Lemma us_per_day_pos : 0 < us_per_day.
Proof. reflexivity. Qed.

Lemma date_of_day (d r : Z) : date (timedelta_days d + r) = d + r / us_per_day.
Proof.
  unfold date, timedelta_days.
  rewrite Z.add_comm, Z.div_add by (unfold us_per_day; lia). lia.
Qed.

Lemma date_timedelta_days (d : Z) : date (timedelta_days d) = d.
Proof.
  replace (timedelta_days d) with (timedelta_days d + 0) by lia.
  rewrite date_of_day. rewrite Z.div_0_l by (unfold us_per_day; lia). lia.
Qed.

Lemma midnight_aligned (t : datetime) : midnight t = timedelta_days (date t).
Proof. reflexivity. Qed.

Lemma weekday_range (t : datetime) : 0 <= weekday t < 7.
Proof. unfold weekday. apply Z.mod_pos_bound. lia. Qed.

Lemma weekday_next (d : Z) :
  weekday (timedelta_days (d + 1)) = (weekday (timedelta_days d) + 1) mod 7.
Proof.
  unfold weekday. rewrite !date_timedelta_days.
  replace (d + 1 + 6) with ((d + 6) + 1) by lia.
  rewrite (Z.add_mod (d + 6) 1 7) by lia. reflexivity.
Qed.

Lemma replace_aligned (d h m : Z) (t : datetime) :
  replace_hour_minute (timedelta_days d) h m = Some t ->
  (0 <= h <= 23 /\ 0 <= m <= 59)
  /\ t = timedelta_days d + (h * us_per_hour + m * us_per_minute).
Proof.
  unfold replace_hour_minute.
  destruct ((0 <=? h) && (h <=? 23) && (0 <=? m) && (m <=? 59)) eqn:E;
    [|discriminate].
  intros [= <-]. split; [lia|].
  rewrite midnight_aligned, date_timedelta_days.
  assert (timedelta_days d mod us_per_minute = 0) as ->; [|lia].
  unfold timedelta_days, us_per_day, us_per_minute.
  replace (d * 86400000000) with ((d * 1440) * 60000000) by lia.
  apply Z.mod_mul. lia.
Qed.

(** ** Sequences *)

Lemma len_nonneg {A} (l : list A) : 0 <= len l.
Proof. unfold len. lia. Qed.

Lemma len_app {A} (l k : list A) : len (l ++ k) = len l + len k.
Proof. unfold len. rewrite List.length_app. lia. Qed.

Lemma firstn_plus_skipn {A} (l : list A) (a b : nat) :
  firstn a l ++ firstn b (skipn a l) = firstn (a + b) l.
Proof.
  revert l. induction a as [|a IH]; intros [|x l]; simpl; try reflexivity.
  - now rewrite firstn_nil.
  - now rewrite IH.
Qed.

(** A forward slice inside the sequence. *)
Lemma slice_forward {A} (l : list A) (i n : Z) :
  0 <= i <= len l -> 0 <= n ->
  slice l i (i + n)
  = firstn (Z.to_nat (Z.min (i + n) (len l) - i)) (skipn (Z.to_nat i) l).
Proof.
  intros Hi Hn. unfold slice, slice_bound.
  destruct (i <? 0) eqn:E1; [lia|].
  destruct (i + n <? 0) eqn:E2; [lia|].
  now replace (Z.min i (len l)) with i by lia.
Qed.

Lemma len_slice_forward {A} (l : list A) (i n : Z) :
  0 <= i <= len l -> 0 <= n ->
  len (slice l i (i + n)) = Z.min (i + n) (len l) - i.
Proof.
  intros Hi Hn. rewrite slice_forward by assumption.
  unfold len in *. rewrite List.length_firstn, List.length_skipn. lia.
Qed.

Lemma firstn_slice {A} (l : list A) (i n : Z) :
  0 <= i <= len l -> 0 <= n ->
  firstn (Z.to_nat i) l ++ slice l i (i + n)
  = firstn (Z.to_nat (i + len (slice l i (i + n)))) l.
Proof.
  intros Hi Hn. rewrite len_slice_forward by assumption.
  rewrite slice_forward by assumption.
  rewrite firstn_plus_skipn. f_equal. lia.
Qed.

(** ** Counting with a boolean filter *)

Lemma filter_length_mono {A} (p q : A -> bool) (l : list A) :
  (forall x, In x l -> p x = true -> q x = true) ->
  (List.length (List.filter p l) <= List.length (List.filter q l))%nat.
Proof.
  induction l as [|x l IH]; intros H; simpl; [lia|].
  assert (IH' := IH (fun y Hy => H y (or_intror Hy))).
  destruct (p x) eqn:Ep.
  - rewrite (H x (or_introl eq_refl) Ep). simpl. lia.
  - destruct (q x); simpl; lia.
Qed.

Lemma filter_length_strict {A} (p q : A -> bool) (l : list A) (a : A) :
  (forall x, In x l -> p x = true -> q x = true) ->
  In a l -> p a = false -> q a = true ->
  (List.length (List.filter p l) < List.length (List.filter q l))%nat.
Proof.
  induction l as [|x l IH]; intros H Ha Hp Hq; simpl; [destruct Ha|].
  assert (Hl := filter_length_mono p q l (fun y Hy => H y (or_intror Hy))).
  destruct Ha as [-> | Ha].
  - rewrite Hp, Hq. simpl. lia.
  - assert (IH' := IH (fun y Hy => H y (or_intror Hy)) Ha Hp Hq).
    destruct (p x) eqn:Ep.
    + rewrite (H x (or_introl eq_refl) Ep). simpl. lia.
    + destruct (q x); simpl; lia.
Qed.

(** ** The loops of the planner *)

Section plan_rule.
Variables (now : datetime) (fresh : uuid) (all_emails : list string).
Variables (the_subject the_body : string) (the_attachments : list string).
Variable settings : ScheduleSettings.
Variables start_hour start_minute : Z.

Variable P : Z -> Z -> list EmailBatch -> Z -> Prop.

Hypothesis P_skip : forall d bs i,
  P d 0 bs i -> i < len all_emails ->
  working_days_only settings = true -> 5 <= weekday (timedelta_days d) ->
  P (d + 1) 0 bs i.

Hypothesis P_batch : forall d j bs i,
  P d j bs i -> 0 <= j -> day_entered settings start_hour start_minute d -> day_guard all_emails settings d j bs i ->
  P d (j + 1)
    (appended now fresh all_emails the_subject the_body the_attachments
             settings start_hour start_minute
             d j bs i)
    (i + len (slice all_emails i (i + (emails_per_batch settings)))).

Hypothesis P_next : forall d j bs i,
  P d j bs i -> 0 <= j -> day_entered settings start_hour start_minute d -> ~ day_guard all_emails settings d j bs i ->
  P (d + 1) 0 bs i.

Lemma day_guard_spec (d j : Z) (bs : list EmailBatch) (i : Z) :
  (i <? len all_emails) && (j <? (max_daily settings))
  && (day_email_count bs (timedelta_days d) <? emails_per_day settings)
  = true <-> day_guard all_emails settings d j bs i.
Proof. unfold day_guard. rewrite !andb_true_iff, !Z.ltb_lt. tauto. Qed.

(** The inner loop keeps [P] and leaves with its guard false: the fuel
    it is given is never what stops it. *)
Lemma day_loop_rule (d : Z) (fuel : nat) :
  forall j bs i,
    0 <= j -> (Z.to_nat ((max_daily settings) - j) <= fuel)%nat -> day_entered settings start_hour start_minute d ->
    P d j bs i ->
    let r := day_loop now fresh all_emails the_subject the_body
                      the_attachments settings fuel (timedelta_days d) (max_daily settings)
                      bs i j
                      (slot_time settings start_hour start_minute d j) in
    exists j', 0 <= j' /\ P d j' (fst r) (snd r)
               /\ ~ day_guard all_emails settings d j' (fst r) (snd r).
Proof.
  induction fuel as [|fuel IH]; intros j bs i Hj Hfuel Hd HP; simpl.
  - exists j. repeat split; try assumption. unfold day_guard. lia.
  - destruct ((i <? len all_emails) && (j <? (max_daily settings))
              && (day_email_count bs (timedelta_days d)
                  <? emails_per_day settings)) eqn:G.
    + apply day_guard_spec in G.
      assert (Hj' : (Z.to_nat ((max_daily settings) - (j + 1)) <= fuel)%nat) by lia.
      specialize (IH (j + 1) _ _ ltac:(lia) Hj' Hd (P_batch d j bs i HP Hj Hd G)).
          unfold appended, slot_time in *.
      replace (timedelta_days d + start_offset start_hour start_minute
               + j * timedelta_minutes (batch_interval_minutes settings)
               + timedelta_minutes (batch_interval_minutes settings))
        with (timedelta_days d + start_offset start_hour start_minute
              + (j + 1) * timedelta_minutes (batch_interval_minutes settings))
        by lia.
      exact IH.
    + exists j. simpl. repeat split; try assumption.
      intros G'. apply day_guard_spec in G'. congruence.
Qed.

(** When the outer loop returns, [P] holds of what it returns and the
    recipients are used up. *)
Lemma plan_loop_rule (fuel : nat) :
  forall d bs i bs',
    plan_loop now fresh all_emails the_subject the_body the_attachments
              settings fuel start_hour start_minute bs i (timedelta_days d)
    = Done bs' ->
    P d 0 bs i ->
    exists d' i', P d' 0 bs' i' /\ len all_emails <= i' /\ d <= d'.
Proof.
  induction fuel as [|fuel IH]; intros d bs i bs' H HP; simpl in H;
    [discriminate|].
  destruct (i <? len all_emails) eqn:Ei.
  2:{ injection H as <-. exists d, i. split; [assumption|lia]. }
  apply Z.ltb_lt in Ei.
  replace (timedelta_days d + timedelta_days 1)
    with (timedelta_days (d + 1)) in H by (unfold timedelta_days; lia).
  destruct (working_days_only settings && (5 <=? weekday (timedelta_days d)))
    eqn:Ew.
  - apply andb_true_iff in Ew as [Ew1 Ew2]. apply Z.leb_le in Ew2.
    destruct (IH _ _ _ _ H (P_skip d bs i HP Ei Ew1 Ew2)) as (d' & i' & ? & ? & ?).
    exists d', i'. repeat split; try assumption. lia.
  - destruct (emails_per_batch settings =? 0) eqn:Ez; [discriminate|].
    apply Z.eqb_neq in Ez.
    destruct (replace_hour_minute (timedelta_days d) start_hour start_minute)
      as [t|] eqn:Er; [|discriminate].
    apply replace_aligned in Er as [Hhm ->].
    assert (Hd : day_entered settings start_hour start_minute d) by (repeat split; try assumption; lia).
    pose proof (day_loop_rule d (Z.to_nat (max_daily settings)) 0 bs i ltac:(lia) ltac:(lia)
                  Hd HP) as (j' & Hj' & HP' & HG).
    unfold slot_time in HP', HG.
    replace (timedelta_days d + start_offset start_hour start_minute
             + 0 * timedelta_minutes (batch_interval_minutes settings))
      with (timedelta_days d
            + (start_hour * us_per_hour + start_minute * us_per_minute))
      in HP', HG by (unfold start_offset; lia).
    fold (max_daily settings) in H.
    destruct (day_loop _ _ _ _ _ _ _ _ _ _ _ _ _ _) as [bs1 i1].
    simpl in HP', HG.
    destruct (IH _ _ _ _ H (P_next d j' bs1 i1 HP' Hj' Hd HG))
      as (d' & i' & ? & ? & ?).
    exists d', i'. repeat split; try assumption. lia.
Qed.

End plan_rule.

(** ** Counting the recipients of a day *)

Lemma day_email_count_nil (t : datetime) : day_email_count [] t = 0.
Proof. reflexivity. Qed.

Lemma day_email_count_app (bs : list EmailBatch) (b : EmailBatch) (t : datetime) :
  day_email_count (bs ++ [b]) t
  = day_email_count bs t
    + (if date (scheduled_time b) =? date t then len (emails b) else 0).
Proof.
  unfold day_email_count. rewrite flat_map_app, len_app. simpl.
  rewrite app_nil_r. destruct (_ =? _); reflexivity.
Qed.

Lemma day_email_count_nonneg (bs : list EmailBatch) (t : datetime) :
  0 <= day_email_count bs t.
Proof. apply len_nonneg. Qed.

Section slot_facts.
Variable settings : ScheduleSettings.
Variables start_hour start_minute : Z.

Lemma in_krange (n k : Z) : In k (krange n) <-> 0 <= k < n.
Proof.
  unfold krange. rewrite in_map_iff. split.
  - intros (i & <- & Hi). apply in_seq in Hi. lia.
  - intros H. exists (Z.to_nat k). split; [lia|]. apply in_seq. lia.
Qed.

Lemma len_krange (n : Z) : len (krange n) = Z.max 0 n.
Proof. unfold len, krange. rewrite length_map, length_seq. lia. Qed.

Lemma date_slot_time (d k : Z) :
  date (slot_time settings start_hour start_minute d k) = d + slot_shift settings start_hour start_minute k.
Proof.
  unfold slot_time, slot_shift. rewrite <- Z.add_assoc. apply date_of_day.
Qed.

Lemma slots_nonneg (d j x : Z) : 0 <= slots settings start_hour start_minute d j x.
Proof. apply len_nonneg. Qed.

Lemma slots_le_max (d j x : Z) : slots settings start_hour start_minute d j x <= Z.max 0 (max_daily settings).
Proof.
  unfold slots. rewrite <- len_krange. unfold len.
  apply inj_le, List.filter_length_le.
Qed.

(** Going to the next day keeps every position that was counted. *)
Lemma slots_next_day (d j x : Z) : slots settings start_hour start_minute d j x <= slots settings start_hour start_minute (d + 1) 0 x.
Proof.
  unfold slots, len. apply inj_le, filter_length_mono.
  intros k _. unfold slot_used.
  rewrite !orb_true_iff, !andb_true_iff, !Z.ltb_lt, !Z.eqb_eq. lia.
Qed.

(** The batch [j] of day [d] takes a position of the day it lands on that
    was not counted before. *)
Lemma slots_batch (d j x : Z) :
  0 <= j < (max_daily settings) ->
  slots settings start_hour start_minute d j x + (if d + slot_shift settings start_hour start_minute j =? x then 1 else 0) <= slots settings start_hour start_minute d (j + 1) x.
Proof.
  intros Hj. unfold slots, len.
  assert (Hmono : forall k, In k (krange (max_daily settings)) ->
                            slot_used settings start_hour start_minute d j x k = true -> slot_used settings start_hour start_minute d (j + 1) x k = true).
  { intros k _. unfold slot_used.
    rewrite !orb_true_iff, !andb_true_iff, !Z.ltb_lt, !Z.eqb_eq. lia. }
  destruct (d + slot_shift settings start_hour start_minute j =? x) eqn:E.
  - apply Z.eqb_eq in E.
    assert (List.length (List.filter (slot_used settings start_hour start_minute d j x) (krange (max_daily settings)))
            < List.length (List.filter (slot_used settings start_hour start_minute d (j + 1) x) (krange (max_daily settings))))%nat;
      [|lia].
    apply filter_length_strict with (a := j); try assumption.
    + apply in_krange. lia.
    + unfold slot_used. rewrite orb_false_iff, andb_false_iff.
      rewrite !Z.ltb_ge, Z.eqb_neq. lia.
    + unfold slot_used. rewrite orb_true_iff, andb_true_iff.
      rewrite !Z.ltb_lt, Z.eqb_eq. lia.
  - assert (H := filter_length_mono _ _ _ Hmono). lia.
Qed.

(** At the start of its own day, the first position of a day is free. *)
Lemma slots_day_start (d : Z) :
  0 <= start_hour <= 23 -> 0 <= start_minute <= 59 -> 1 <= (max_daily settings) ->
  slots settings start_hour start_minute d 0 d <= (max_daily settings) - 1.
Proof.
  intros Hh Hm Hm1.
  assert (H0 : slot_shift settings start_hour start_minute 0 = 0).
  { unfold slot_shift, start_offset. rewrite Z.mul_0_l, Z.add_0_r.
    apply Z.div_small. unfold us_per_hour, us_per_minute, us_per_day. lia. }
  assert (List.length (List.filter (slot_used settings start_hour start_minute d 0 d) (krange (max_daily settings)))
          < List.length (List.filter (fun _ => true) (krange (max_daily settings))))%nat.
  { apply filter_length_strict with (a := 0); try reflexivity.
    - apply in_krange. lia.
    - unfold slot_used. rewrite H0. rewrite orb_false_iff, andb_false_iff.
      rewrite !Z.ltb_ge. lia. }
  assert (Hall : List.filter (fun _ : Z => true) (krange (max_daily settings)) = krange (max_daily settings)).
  { clear. induction (krange (max_daily settings)) as [|a l IH]; simpl; [reflexivity|].
    now rewrite IH. }
  rewrite Hall in H. pose proof (len_krange (max_daily settings)) as Hk. unfold len in Hk.
  unfold slots, len. lia.
Qed.

End slot_facts.

(** ** The anchor day *)

Lemma skip_weekend_done (fuel : nat) :
  forall (d : Z) (t : datetime),
    skip_weekend fuel (timedelta_days d) = Done t ->
    exists d', t = timedelta_days d' /\ d <= d' /\ weekday t < 5.
Proof.
  induction fuel as [|fuel IH]; intros d t H; cbn [skip_weekend] in H; [discriminate|].
  destruct (5 <=? weekday (timedelta_days d)) eqn:E.
  - replace (timedelta_days d + timedelta_days 1)
      with (timedelta_days (d + 1)) in H by (unfold timedelta_days; lia).
    destruct (IH _ _ H) as (d' & ? & ? & ?). exists d'.
    repeat split; try assumption. lia.
  - injection H as <-. apply Z.leb_gt in E. exists d.
    repeat split; try assumption. lia.
Qed.

Lemma skip_weekend_no_raise (fuel : nat) :
  forall (t : datetime) (e : exn), skip_weekend fuel t <> Raise e.
Proof.
  induction fuel as [|fuel IH]; intros t e; cbn [skip_weekend]; [discriminate|].
  destruct (5 <=? weekday t); [apply IH | discriminate].
Qed.

(** Two steps are enough to leave a weekend. *)
Lemma skip_weekend_total (fuel : nat) (d : Z) :
  (3 <= fuel)%nat -> exists t, skip_weekend fuel (timedelta_days d) = Done t.
Proof.
  intros Hf. destruct fuel as [|[|[|fuel]]]; try lia. cbn [skip_weekend].
  replace (timedelta_days d + timedelta_days 1 + timedelta_days 1)
    with (timedelta_days (d + 1 + 1)) by (unfold timedelta_days; lia).
  replace (timedelta_days d + timedelta_days 1)
    with (timedelta_days (d + 1)) by (unfold timedelta_days; lia).
  pose proof (weekday_range (timedelta_days d)) as Hr.
  pose proof (weekday_next d) as H1. pose proof (weekday_next (d + 1)) as H2.
  destruct (5 <=? weekday (timedelta_days d)) eqn:E0; [|eauto].
  apply Z.leb_le in E0.
  destruct (5 <=? weekday (timedelta_days (d + 1))) eqn:E1; [|eauto].
  apply Z.leb_le in E1.
  destruct (5 <=? weekday (timedelta_days (d + 1 + 1))) eqn:E2; [|eauto].
  apply Z.leb_le in E2. exfalso.
  assert (weekday (timedelta_days d) = 5 \/ weekday (timedelta_days d) = 6)
    as [W|W] by lia; rewrite W in H1; simpl in H1;
    change ((5 + 1) mod 7) with 6 in H1; change ((6 + 1) mod 7) with 0 in H1;
    rewrite H1 in *; simpl in H2; try lia.
  change ((6 + 1) mod 7) with 0 in H2. lia.
Qed.

Lemma get_next_working_day_done (fuel : nat) (now t : datetime) :
  _get_next_working_day fuel now = Done t ->
  exists d, t = timedelta_days d /\ date now < d /\ weekday t < 5.
Proof.
  unfold _get_next_working_day. rewrite midnight_aligned.
  replace (timedelta_days (date now) + timedelta_days 1)
    with (timedelta_days (date now + 1)) by (unfold timedelta_days; lia).
  intros H. apply skip_weekend_done in H as (d & ? & ? & ?).
  exists d. repeat split; try assumption. lia.
Qed.

Lemma get_next_working_day_total (fuel : nat) (now : datetime) :
  (3 <= fuel)%nat -> exists t, _get_next_working_day fuel now = Done t.
Proof.
  intros Hf. unfold _get_next_working_day. rewrite midnight_aligned.
  replace (timedelta_days (date now) + timedelta_days 1)
    with (timedelta_days (date now + 1)) by (unfold timedelta_days; lia).
  now apply skip_weekend_total.
Qed.

(** ** The invariant of the planner *)

Section plan_invariant.
Variables (now : datetime) (fresh : uuid) (all_emails : list string).
Variables (the_subject the_body : string) (the_attachments : list string).
Variable settings : ScheduleSettings.
Variables start_hour start_minute : Z.
Hypothesis Hvalid : valid_settings settings.

Lemma max_daily_pos : 1 <= (max_daily settings) /\ (max_daily settings) * (emails_per_batch settings) <= (emails_per_day settings).
Proof.
  destruct Hvalid as [H1 H2].  unfold max_daily.
  split.
  - apply Z.div_le_lower_bound; lia.
  - rewrite Z.mul_comm. apply Z.mul_div_le. lia.
Qed.

Lemma plan_inv_init (d : Z) : plan_inv all_emails settings start_hour start_minute d 0 [] 0.
Proof.
  destruct Hvalid as [H1 H2]. unfold plan_inv. repeat split.
  - lia.
  - apply len_nonneg.
  - constructor.
  - intros x. rewrite day_email_count_nil.
    pose proof (slots_nonneg settings start_hour start_minute d 0 x). nia.
Qed.

Lemma plan_inv_day (d j : Z) (bs : list EmailBatch) (i : Z) (t : datetime) :
  plan_inv all_emails settings start_hour start_minute d j bs i -> day_email_count bs t <= (emails_per_day settings).
Proof.
  intros (_ & _ & _ & H). destruct Hvalid as [H1 H2].
  destruct max_daily_pos as [Hm1 Hm2].
  specialize (H (date t)).
  assert (E : day_email_count bs (timedelta_days (date t))
              = day_email_count bs t).
  { unfold day_email_count. now rewrite date_timedelta_days. }
  rewrite E in H.
  pose proof (slots_le_max settings start_hour start_minute d j (date t)).
  nia.
Qed.

Lemma plan_inv_skip (d j : Z) (bs : list EmailBatch) (i : Z) :
  plan_inv all_emails settings start_hour start_minute d j bs i -> plan_inv all_emails settings start_hour start_minute (d + 1) 0 bs i.
Proof.
  intros (Hi & Hc & Hs & Hd). repeat split; try assumption; try lia.
  intros x. specialize (Hd x).
  pose proof (slots_next_day settings start_hour start_minute d j x).
  destruct Hvalid as [H1 H2].  nia.
Qed.

Lemma slice_size (i : Z) :
  0 <= i <= len all_emails ->
  len (slice all_emails i (i + (emails_per_batch settings))) <= (emails_per_batch settings)
  /\ (i < len all_emails -> 1 <= len (slice all_emails i (i + (emails_per_batch settings)))).
Proof.
  intros Hi. destruct Hvalid as [H1 H2]. 
  rewrite len_slice_forward by lia. lia.
Qed.

Lemma plan_inv_batch (d j : Z) (bs : list EmailBatch) (i : Z) :
  plan_inv all_emails settings start_hour start_minute d j bs i -> 0 <= j ->
  day_guard all_emails settings d j bs i ->
  plan_inv all_emails settings start_hour start_minute d (j + 1)
    (appended now fresh all_emails the_subject the_body the_attachments
              settings start_hour start_minute d j bs i)
    (i + len (slice all_emails i (i + (emails_per_batch settings)))).
Proof.
  intros (Hi & Hc & Hs & Hd) Hj (G1 & G2 & G3).
  destruct Hvalid as [H1 H2]. 
  destruct (slice_size i Hi) as [Hle Hge]. specialize (Hge G1).
  unfold appended.
  set (b := new_batch _ _ _ _ _ _ _ _ _ _).
  assert (Eb : emails b = slice all_emails i (i + (emails_per_batch settings))) by reflexivity.
  assert (Et : scheduled_time b
               = slot_time settings start_hour start_minute d j)
    by reflexivity.
  repeat split.
  - lia.
  - rewrite len_slice_forward by lia. lia.
  - rewrite map_app, concat_app. cbn [map concat]. rewrite app_nil_r, Hc, Eb.
    apply firstn_slice; lia.
  - apply Forall_app. split; [assumption|]. constructor; [|constructor].
    now rewrite Eb.
  - intros x. rewrite day_email_count_app, Et, date_slot_time,
      date_timedelta_days, Eb.
    specialize (Hd x).
    pose proof (slots_batch settings start_hour start_minute d j x
                  ltac:(lia)) as Hsl.
    destruct (d + slot_shift settings start_hour start_minute j =? x); nia.
Qed.

End plan_invariant.

Section plan_correct.
Variables (now : datetime) (fresh : uuid) (all_emails : list string).
Variables (the_subject the_body : string) (the_attachments : list string).
Variable settings : ScheduleSettings.
Hypothesis Hvalid : valid_settings settings.

Lemma plan_loop_inv (start_hour start_minute : Z) (fuel : nat) (d : Z)
  (bs : list EmailBatch) :
  plan_loop now fresh all_emails the_subject the_body the_attachments
            settings fuel start_hour start_minute [] 0 (timedelta_days d)
  = Done bs ->
  exists d' i,
    plan_inv all_emails settings start_hour start_minute d' 0 bs i
    /\ len all_emails <= i.
Proof.
  intros H.
  destruct (plan_loop_rule now fresh all_emails the_subject the_body
              the_attachments settings start_hour start_minute
              (plan_inv all_emails settings start_hour start_minute)
              ltac:(intros; now apply plan_inv_skip with (j := 0))
              ltac:(intros; now apply plan_inv_batch)
              ltac:(intros ? j; intros; now apply plan_inv_skip with (j := j))
              fuel d [] 0 bs H (plan_inv_init all_emails settings
                                  start_hour start_minute Hvalid d))
    as (d' & i & ? & ? & ?).
  eauto.
Qed.

Lemma generate_batches_inv (fuel : nat) (bs : list EmailBatch) :
  _generate_batches now fresh all_emails the_subject the_body
                    the_attachments settings fuel = Done bs ->
  exists start_hour start_minute d i,
    plan_inv all_emails settings start_hour start_minute d 0 bs i
    /\ len all_emails <= i.
Proof.
  unfold _generate_batches. intros H.
  destruct (_get_next_working_day fuel now) as [t| |] eqn:Ea;
    try discriminate.
  apply get_next_working_day_done in Ea as (d & -> & _ & _).
  cbn [bind] in H.
  destruct (parse_start_time settings) as [[h mi]| |]; try discriminate.
  cbn [bind] in H. exists h, mi.
  now apply plan_loop_inv in H.
Qed.

(** The weekend days ahead go down by one at each skipped day. *)
Lemma weekend_left_skip (d : Z) :
  5 <= weekday (timedelta_days d) ->
  S (weekend_left (d + 1)) = weekend_left d.
Proof.
  intros H. unfold weekend_left. rewrite weekday_next.
  pose proof (weekday_range (timedelta_days d)) as Hr.
  destruct (5 <=? weekday (timedelta_days d)) eqn:E;
    [|apply Z.leb_gt in E; lia].
  assert (weekday (timedelta_days d) = 5 \/ weekday (timedelta_days d) = 6)
    as [W|W] by lia; rewrite W; reflexivity.
Qed.

Lemma weekend_left_bound (d : Z) : (weekend_left d <= 2)%nat.
Proof.
  unfold weekend_left.
  destruct (5 <=? weekday (timedelta_days d)) eqn:E; [|lia].
  apply Z.leb_le in E. lia.
Qed.

(** A day that is entered with recipients left takes at least one. *)
Lemma day_loop_progress (start_hour start_minute : Z) (d : Z)
  (bs : list EmailBatch) (i : Z) :
  plan_inv all_emails settings start_hour start_minute d 0 bs i ->
  day_entered settings start_hour start_minute d ->
  i < len all_emails ->
  let r := day_loop now fresh all_emails the_subject the_body
                    the_attachments settings
                    (Z.to_nat (max_daily settings)) (timedelta_days d)
                    (max_daily settings) bs i 0
                    (slot_time settings start_hour start_minute d 0) in
  plan_inv all_emails settings start_hour start_minute (d + 1) 0
           (fst r) (snd r)
  /\ i < snd r.
Proof.
  intros HI Hd Hi.
  pose (P := fun d' j bs' i' =>
               plan_inv all_emails settings start_hour start_minute
                        d' j bs' i'
               /\ (j = 0 -> bs' = bs /\ i' = i) /\ (0 < j -> i < i')).
  assert (HP : P d 0 bs i) by (split; [apply HI|split; [tauto|lia]]).
  pose proof (day_loop_rule now fresh all_emails the_subject the_body
                the_attachments settings start_hour start_minute P) as R.
  assert (Hstep : forall d0 j bs0 i0,
             P d0 j bs0 i0 -> 0 <= j ->
             day_entered settings start_hour start_minute d0 ->
             day_guard all_emails settings d0 j bs0 i0 ->
             P d0 (j + 1)
               (appended now fresh all_emails the_subject the_body
                         the_attachments settings start_hour start_minute
                         d0 j bs0 i0)
               (i0 + len (slice all_emails i0
                                (i0 + emails_per_batch settings)))).
  { intros d0 j bs0 i0 (HI0 & H0 & H1) Hj Hd0 G.
    split; [now apply plan_inv_batch|]. split; [lia|]. intros _.
    pose proof (slice_size all_emails settings Hvalid i0
                  ltac:(apply HI0)) as [_ Hs].
    specialize (Hs ltac:(apply G)).
    destruct (Z.eq_dec j 0) as [->|]; [destruct H0; lia|].
    specialize (H1 ltac:(lia)). lia. }
  specialize (R Hstep).
  specialize (R d (Z.to_nat (max_daily settings)) 0 bs i ltac:(lia)
                ltac:(lia) Hd HP).
  destruct R as (j' & Hj' & (HI' & H0' & H1') & HG).
  destruct (max_daily_pos settings Hvalid) as [Hm1 Hm2].
  destruct Hd as ((Hh & Hmi) & _ & _).
  assert (Hj0 : 0 < j').
  { destruct (Z.eq_dec j' 0) as [->|]; [|lia]. exfalso. apply HG.
    destruct (H0' eq_refl) as [-> ->]. repeat split; try assumption; try lia.
    destruct HI as (_ & _ & _ & Hday). specialize (Hday d).
    pose proof (slots_day_start settings start_hour start_minute d Hh Hmi Hm1).
    destruct Hvalid as [V1 V2]. nia. }
  split; [|now apply H1'].
  now apply plan_inv_skip with (j := j').
Qed.

Lemma plan_loop_terminates (start_hour start_minute : Z) (fuel : nat) :
  forall d bs i,
    plan_inv all_emails settings start_hour start_minute d 0 bs i ->
    (3 * Z.to_nat (len all_emails - i) + weekend_left d < fuel)%nat ->
    plan_loop now fresh all_emails the_subject the_body the_attachments
              settings fuel start_hour start_minute bs i (timedelta_days d)
    <> OutOfFuel.
Proof.
  induction fuel as [|fuel IH]; intros d bs i HI Hf; [lia|].
  cbn [plan_loop].
  destruct (i <? len all_emails) eqn:Ei; [|discriminate].
  apply Z.ltb_lt in Ei.
  replace (timedelta_days d + timedelta_days 1)
    with (timedelta_days (d + 1)) by (unfold timedelta_days; lia).
  destruct (working_days_only settings && (5 <=? weekday (timedelta_days d)))
    eqn:Ew.
  - apply andb_true_iff in Ew as [_ Ew]. apply Z.leb_le in Ew.
    apply IH; [now apply plan_inv_skip with (j := 0)|].
    pose proof (weekend_left_skip d Ew). lia.
  - destruct (emails_per_batch settings =? 0) eqn:Ez; [discriminate|].
    apply Z.eqb_neq in Ez.
    destruct (replace_hour_minute (timedelta_days d) start_hour start_minute)
      as [t|] eqn:Er; [|discriminate].
    apply replace_aligned in Er as [Hhm ->].
    assert (Hd : day_entered settings start_hour start_minute d)
      by (repeat split; try assumption; lia).
    pose proof (day_loop_progress start_hour start_minute d bs i HI Hd Ei)
      as [HI' Hlt].
    unfold slot_time in HI', Hlt.
    replace (timedelta_days d + start_offset start_hour start_minute
             + 0 * timedelta_minutes (batch_interval_minutes settings))
      with (timedelta_days d
            + (start_hour * us_per_hour + start_minute * us_per_minute))
      in HI', Hlt by (unfold start_offset; lia).
    fold (max_daily settings).
    destruct (day_loop _ _ _ _ _ _ _ _ _ _ _ _ _ _) as [bs1 i1].
    cbn [fst snd] in HI', Hlt.
    apply IH; [assumption|].
    pose proof (weekend_left_bound (d + 1)).
    assert (i1 <= len all_emails) by apply HI'. lia.
Qed.

(** With fuel for three rounds per recipient the planner ends: it returns
    its batches, or raises on a start time it cannot use. *)
Lemma generate_batches_terminates (fuel : nat) :
  (plan_fuel (List.length all_emails) <= fuel)%nat ->
  _generate_batches now fresh all_emails the_subject the_body
                    the_attachments settings fuel <> OutOfFuel.
Proof.
  unfold plan_fuel, _generate_batches. intros Hf.
  destruct (get_next_working_day_total fuel now ltac:(lia)) as [t Ht].
  rewrite Ht. cbn [bind].
  apply get_next_working_day_done in Ht as (d & -> & _ & Hw).
  destruct (parse_start_time settings) as [[h mi]| |] eqn:Ep;
    cbn [bind]; try discriminate.
  - apply plan_loop_terminates; [now apply plan_inv_init|].
    assert (weekend_left d = O) as ->.
    { unfold weekend_left.
      destruct (5 <=? weekday (timedelta_days d)) eqn:E; [|reflexivity].
      apply Z.leb_le in E. lia. }
    unfold len. lia.
  - unfold parse_start_time in Ep.
    destruct (split _ _) as [|a [|b [|? ?]]]; try discriminate.
    destruct (int a), (int b); discriminate.
Qed.

(** With a start time that is a time of day the planner raises
    nothing. *)
Lemma plan_loop_no_raise (start_hour start_minute : Z) (fuel : nat) :
  0 <= start_hour <= 23 -> 0 <= start_minute <= 59 ->
  forall bs i current_date e,
    plan_loop now fresh all_emails the_subject the_body the_attachments
              settings fuel start_hour start_minute bs i current_date
    <> Raise e.
Proof.
  intros Hh Hm. destruct Hvalid as [V1 V2].
  induction fuel as [|fuel IH]; intros bs i cd e; cbn [plan_loop];
    [discriminate|].
  destruct (i <? len all_emails); [|discriminate].
  destruct (working_days_only settings && (5 <=? weekday cd)); [apply IH|].
  destruct (emails_per_batch settings =? 0) eqn:Ez;
    [apply Z.eqb_eq in Ez; lia|].
  unfold replace_hour_minute.
  replace ((0 <=? start_hour) && (start_hour <=? 23)
           && (0 <=? start_minute) && (start_minute <=? 59))
    with true by (symmetry; rewrite !andb_true_iff, !Z.leb_le; lia).
  destruct (day_loop _ _ _ _ _ _ _ _ _ _ _ _ _ _) as [bs1 i1]. apply IH.
Qed.

(** So, with enough fuel, it returns its batches. *)
Lemma generate_batches_returns (start_hour start_minute : Z) (fuel : nat) :
  (plan_fuel (List.length all_emails) <= fuel)%nat ->
  parse_start_time settings = Done (start_hour, start_minute) ->
  0 <= start_hour <= 23 -> 0 <= start_minute <= 59 ->
  exists bs,
    _generate_batches now fresh all_emails the_subject the_body
                      the_attachments settings fuel = Done bs.
Proof.
  intros Hf Hp Hh Hm.
  pose proof (generate_batches_terminates fuel Hf) as Ht.
  destruct (_generate_batches now fresh all_emails the_subject the_body
              the_attachments settings fuel) as [bs|e|] eqn:E;
    [eauto| |contradiction].
  exfalso. unfold _generate_batches in E.
  destruct (_get_next_working_day fuel now) as [t|e'|] eqn:Ea;
    cbn [bind] in E; try discriminate.
  - rewrite Hp in E. cbn [bind] in E. revert E.
    now apply plan_loop_no_raise.
  - revert Ea. apply skip_weekend_no_raise.
Qed.

End plan_correct.






Section example.
Variables (now : datetime) (fresh : uuid) (all_emails : list string).
Variables (the_subject the_body : string) (the_attachments : list string).



End example.



(** ** The first day of a plan *)

Section first_day.
Variables (now : datetime) (fresh : uuid) (all_emails : list string).
Variables (the_subject the_body : string) (the_attachments : list string).
Variable settings : ScheduleSettings.
Variables start_hour start_minute : Z.
(** The ordinal of the anchor day, which is not in a weekend. *)
Variable anchor : Z.
Hypothesis anchor_weekday : weekday (timedelta_days anchor) < 5.





End first_day.

(** ** Working days *)

Section working_days.
Variables (now : datetime) (fresh : uuid) (all_emails : list string).
Variables (the_subject the_body : string) (the_attachments : list string).
Variable settings : ScheduleSettings.
Variables start_hour start_minute : Z.
Hypothesis Hwdo : working_days_only settings = true.
Hypothesis Hforward : 0 <= batch_interval_minutes settings.
(** The last batch a day can get is still on that day. *)
Hypothesis Hfits :
  slot_shift settings start_hour start_minute (max_daily settings - 1) = 0.

Lemma slot_shift_fits (j : Z) :
  0 <= start_hour <= 23 -> 0 <= start_minute <= 59 ->
  0 <= j < max_daily settings ->
  slot_shift settings start_hour start_minute j = 0.
Proof.
  intros Hh Hm Hj. unfold slot_shift in *.
  set (I := timedelta_minutes (batch_interval_minutes settings)) in *.
  assert (0 <= I) by (unfold I, timedelta_minutes, us_per_minute; lia).
  assert (0 <= start_offset start_hour start_minute)
    by (unfold start_offset, us_per_hour, us_per_minute; lia).
  assert (Hlast : start_offset start_hour start_minute
                  + (max_daily settings - 1) * I < us_per_day).
  { apply Z.div_small_iff in Hfits; [|discriminate].
    destruct Hfits as [Hfit | Hfit]; [lia|].
    unfold us_per_day in Hfit. lia. }
  apply Z.div_small. split; nia.
Qed.

Lemma weekday_inv_batch (d j : Z) (bs : list EmailBatch) (i : Z) :
  weekday_inv d j bs i -> 0 <= j ->
  day_entered settings start_hour start_minute d ->
  day_guard all_emails settings d j bs i ->
  weekday_inv d (j + 1)
    (appended now fresh all_emails the_subject the_body the_attachments
              settings start_hour start_minute d j bs i)
    (i + len (slice all_emails i (i + emails_per_batch settings))).
Proof.
  intros Hb Hj ((Hh & Hm) & Hw & _) (_ & G2 & _).
  unfold weekday_inv, appended. apply Forall_app. split; [assumption|].
  constructor; [|constructor]. cbn [new_batch scheduled_time].
  unfold weekday. rewrite date_slot_time, slot_shift_fits by lia.
  rewrite Hwdo in Hw. cbn [andb] in Hw. apply Z.leb_gt in Hw.
  unfold weekday in Hw. rewrite date_timedelta_days in Hw.
  now rewrite Z.add_0_r.
Qed.

Lemma plan_loop_weekdays (fuel : nat) (d : Z) (bs : list EmailBatch) :
  plan_loop now fresh all_emails the_subject the_body the_attachments
            settings fuel start_hour start_minute [] 0
            (timedelta_days d) = Done bs ->
  Forall (fun b => weekday (scheduled_time b) < 5) bs.
Proof.
  intros H.
  destruct (plan_loop_rule now fresh all_emails the_subject the_body
              the_attachments settings start_hour start_minute weekday_inv
              ltac:(intros; assumption)
              ltac:(intros; now apply weekday_inv_batch)
              ltac:(intros; assumption)
              fuel d [] 0 bs H)
    as (d' & i & ? & ? & ?); [constructor|assumption].
Qed.

End working_days.

(** ** The store of batch objects *)

Lemma lookup_insert_other (h : list EmailBatch) (r x : ref) (b : EmailBatch) :
  x <> r -> <[r := b]> h !! x = h !! x.
Proof. intros H. apply list_lookup_insert_ne. congruence. Qed.

(** ** Stopping *)

(** The scheduler thread cannot join itself: [stop_schedule] called from it
    clears the flag and the jobs, and gives up there. *)
Lemma stop_from_scheduler_thread (now : datetime) (self : SchedulerManager) :
  is_running self = true ->
  stop_schedule now SchedulerThread self
  = (set_jobs [] (set_is_running false self), false).
Proof. intros H. unfold stop_schedule. now rewrite H. Qed.

Lemma cancel_batch_fields (self : SchedulerManager) (r : ref) :
  let self' := cancel_batch self r in
  failed_batches self' = failed_batches self ++ [r]
  /\ active_batches self' = active_batches self
  /\ completed_batches self' = completed_batches self
  /\ current_schedule self' = current_schedule self
  /\ is_running self' = is_running self
  /\ jobs self' = jobs self
  /\ List.length (heap self') = List.length (heap self).
Proof.
  unfold cancel_batch. cbn. repeat split.
  destruct (heap self !! r); [apply length_insert|reflexivity].
Qed.

Lemma cancel_batch_heap (self : SchedulerManager) (r x : ref) :
  heap (cancel_batch self r) !! x
  = if decide (x = r)
    then option_map (batch_set_status cancelled) (heap self !! r)
    else heap self !! x.
Proof.
  unfold cancel_batch. cbn.
  destruct (decide (x = r)) as [->|Hx].
  - destruct (heap self !! r) as [b|] eqn:E; cbn.
    + rewrite list_lookup_insert_eq; [reflexivity|].
      now apply lookup_lt_Some in E.
    + assumption.
  - destruct (heap self !! r); [now apply lookup_insert_other|reflexivity].
Qed.

(** The loop of [stop_schedule] over the active batches. *)
Lemma cancel_all (l : list ref) :
  forall self : SchedulerManager,
    let self' := fold_left cancel_batch l self in
    failed_batches self' = failed_batches self ++ l
    /\ active_batches self' = active_batches self
    /\ completed_batches self' = completed_batches self
    /\ current_schedule self' = current_schedule self
    /\ is_running self' = is_running self
    /\ jobs self' = jobs self
    /\ List.length (heap self') = List.length (heap self)
    /\ (forall x, ~ In x l -> heap self' !! x = heap self !! x)
    /\ (forall x, In x l ->
                  heap self' !! x
                  = option_map (batch_set_status cancelled) (heap self !! x)).
Proof.
  induction l as [|r l IH]; intros self; cbn [fold_left].
  - rewrite app_nil_r. repeat split; try reflexivity. intros x [].
  - specialize (IH (cancel_batch self r)).
    destruct (cancel_batch_fields self r) as (F1 & F2 & F3 & F4 & F5 & F6 & F7).
    destruct IH as (I1 & I2 & I3 & I4 & I5 & I6 & I7 & I8 & I9).
    cbv zeta in *.
    repeat split; try congruence.
    + rewrite I1, F1, <- app_assoc. reflexivity.
    + intros x Hx. cbn [In] in Hx.
      rewrite I8 by tauto. rewrite cancel_batch_heap.
      destruct (decide (x = r)); [subst; tauto|reflexivity].
    + intros x Hx.
      destruct (in_dec Nat.eq_dec x l) as [Hl|Hl].
      * rewrite I9 by assumption. rewrite cancel_batch_heap.
        destruct (decide (x = r)) as [->|]; [|reflexivity].
        destruct (heap self !! r); reflexivity.
      * rewrite I8 by assumption. rewrite cancel_batch_heap.
        destruct Hx as [->|Hx]; [|contradiction].
        destruct (decide (x = x)); [reflexivity|congruence].
Qed.

(** ** Removing a batch from the active collection *)

Lemma remove_first_In (p : ref -> bool) (l : list ref) (x : ref) :
  In x (remove_first p l) -> In x l.
Proof.
  induction l as [|y l IH]; cbn; [tauto|].
  destruct (p y); cbn; tauto.
Qed.

Lemma remove_first_NoDup (p : ref -> bool) (l : list ref) :
  NoDup l -> NoDup (remove_first p l).
Proof.
  induction 1 as [|y l Hy Hl IH]; cbn; [constructor|].
  destruct (p y); [assumption|]. constructor; [|assumption].
  intros H. apply Hy. apply list_elem_of_In.
  apply remove_first_In with (p := p). now apply list_elem_of_In.
Qed.

Lemma remove_first_keep (p : ref -> bool) (l : list ref) (x : ref) :
  In x l -> p x = false -> In x (remove_first p l).
Proof.
  induction l as [|y l IH]; cbn; [tauto|]. intros [->|Hx] Hp.
  - rewrite Hp. now left.
  - destruct (p y); [assumption|]. right. now apply IH.
Qed.

(** When the batch itself is the only match, it is the one that goes. *)
Lemma remove_first_hit (p : ref -> bool) (l : list ref) (r : ref) :
  NoDup l -> p r = true ->
  (forall x, In x l -> x <> r -> p x = false) ->
  ~ In r (remove_first p l).
Proof.
  induction 1 as [|y l Hy Hl IH]; cbn; intros Hr Hp; [tauto|].
  destruct (p y) eqn:Ey.
  - destruct (Nat.eq_dec y r) as [->|Hne].
    + intros H. apply Hy. now apply list_elem_of_In.
    + rewrite (Hp y (or_introl eq_refl) Hne) in Ey. discriminate.
  - intros [->|H]; [congruence|].
    apply IH; try assumption. intros x Hx. apply Hp. now right.
Qed.

Lemma status_at_insert (h : list EmailBatch) (r x : ref) (b b' : EmailBatch) :
  h !! r = Some b ->
  status_at (<[r := b']> h) x
  = if decide (x = r) then Some (status b') else status_at h x.
Proof.
  intros Hb. unfold status_at. destruct (decide (x = r)) as [->|Hx].
  - rewrite list_lookup_insert_eq; [reflexivity|].
    now apply lookup_lt_Some in Hb.
  - now rewrite lookup_insert_other.
Qed.

Lemma status_at_app (h k : list EmailBatch) (x : ref) (s : batch_status) :
  status_at h x = Some s -> status_at (h ++ k) x = Some s.
Proof.
  unfold status_at. destruct (h !! x) as [b|] eqn:E; [|discriminate].
  intros H. now rewrite (lookup_app_l_Some _ _ _ _ E).
Qed.

Lemma status_at_valid (h : list EmailBatch) (x : ref) (s : batch_status) :
  status_at h x = Some s -> (x < List.length h)%nat.
Proof.
  unfold status_at. destruct (h !! x) as [b|] eqn:E; [|discriminate].
  intros _. now apply lookup_lt_Some in E.
Qed.

Lemma settled_insert (h : list EmailBatch) (r x : ref) (b b' : EmailBatch) :
  h !! r = Some b -> status b' <> pending ->
  settled h x -> settled (<[r := b']> h) x.
Proof.
  intros Hb Hs (s & E & Hne). unfold settled.
  rewrite (status_at_insert _ _ _ _ _ Hb).
  destruct (decide (x = r)); eauto.
Qed.

Lemma settled_app (h k : list EmailBatch) (x : ref) :
  settled h x -> settled (h ++ k) x.
Proof. intros (s & E & Hne). exists s. split; [now apply status_at_app|easy]. Qed.

(** In a store where the active batches other than [r] are pending and [r]
    is not, [r] is the only match of the removal. *)
Lemma same_batch_self (h : list EmailBatch) (r : ref) : same_batch h r r = true.
Proof. unfold same_batch. now rewrite Nat.eqb_refl. Qed.

Lemma same_batch_other (h : list EmailBatch) (r x : ref) (b : EmailBatch) :
  x <> r -> h !! r = Some b -> status b <> pending ->
  status_at h x = Some pending -> same_batch h r x = false.
Proof.
  intros Hx Hr Hs Hp. unfold same_batch.
  apply Nat.eqb_neq in Hx. rewrite Hx. cbn [orb].
  unfold status_at in Hp. destruct (h !! x) as [a|]; [|discriminate].
  rewrite Hr. apply bool_decide_eq_false. intros ->. cbn in Hp. congruence.
Qed.

(** ** The invariant of the manager *)

(** The invariant reads five fields of the manager only. *)
Lemma engine_inv_ext (self self' : SchedulerManager) :
  heap self' = heap self ->
  active_batches self' = active_batches self ->
  completed_batches self' = completed_batches self ->
  failed_batches self' = failed_batches self ->
  jobs self' = jobs self ->
  engine_inv self -> engine_inv self'.
Proof.
  intros E1 E2 E3 E4 E5 [I1 I2 I3 I4 I5].
  split; unfold status_of; rewrite ?E1, ?E2, ?E3, ?E4, ?E5; assumption.
Qed.

Lemma schedule_batch_fields (r : ref) (self : SchedulerManager) :
  let self' := _schedule_batch r self in
  heap self' = heap self
  /\ active_batches self' = active_batches self
  /\ completed_batches self' = completed_batches self
  /\ failed_batches self' = failed_batches self
  /\ current_schedule self' = current_schedule self
  /\ is_running self' = is_running self.
Proof.
  unfold _schedule_batch. destruct (heap self !! r); cbn; tauto.
Qed.

Lemma schedule_batch_jobs (r : ref) (self : SchedulerManager) :
  Forall (fun j => job_batch j < List.length (heap self))%nat (jobs self) ->
  Forall (fun j => job_batch j < List.length (heap self))%nat
         (jobs (_schedule_batch r self)).
Proof.
  unfold _schedule_batch. destruct (heap self !! r) as [b|] eqn:E; cbn.
  - intros H. apply Forall_app. split; [assumption|].
    constructor; [|constructor]. cbn. now apply lookup_lt_Some in E.
  - tauto.
Qed.

Lemma schedule_batch_inv (r : ref) (self : SchedulerManager) :
  engine_inv self -> engine_inv (_schedule_batch r self).
Proof.
  intros [I1 I2 I3 I4 I5].
  destruct (schedule_batch_fields r self) as (E1 & E2 & E3 & E4 & _ & _).
  cbv zeta in *.
  split; unfold status_of; rewrite ?E1, ?E2, ?E3, ?E4; try assumption.
  now apply schedule_batch_jobs.
Qed.

(** A loop over references whose body keeps the invariant. *)
Lemma fold_inv (f : SchedulerManager -> ref -> SchedulerManager)
  (l : list ref) :
  (forall s r, engine_inv s -> engine_inv (f s r)) ->
  forall self, engine_inv self -> engine_inv (fold_left f l self).
Proof.
  intros Hf. induction l as [|r l IH]; intros self HI; cbn; [assumption|].
  apply IH, Hf, HI.
Qed.

Lemma start_schedule_inv (now : datetime) (self : SchedulerManager) :
  engine_inv self -> engine_inv (fst (start_schedule now self)).
Proof.
  intros HI. unfold start_schedule.
  destruct (current_schedule self); [|assumption].
  destruct (is_running self); [assumption|]. cbn [fst].
  match goal with
  | |- engine_inv (set_current_schedule _ (set_scheduler_thread _ ?s)) =>
      apply engine_inv_ext with (self := s); [reflexivity..|]
  end.
  apply fold_inv.
  - intros s' r Hs. destruct (heap s' !! r) as [b|]; [|assumption].
    destruct (decide (status b = pending)); [|assumption].
    now apply schedule_batch_inv.
  - destruct HI as [I1 I2 I3 I4 I5]. split; try assumption. constructor.
Qed.

Lemma update_schedule_status_fields (now : datetime) (self : SchedulerManager) :
  let self' := _update_schedule_status now self in
  heap self' = heap self
  /\ active_batches self' = active_batches self
  /\ completed_batches self' = completed_batches self
  /\ failed_batches self' = failed_batches self
  /\ jobs self' = jobs self
  /\ is_running self' = is_running self.
Proof.
  unfold _update_schedule_status.
  destruct (current_schedule self); [|tauto].
  destruct (active_batches self) eqn:E; [|tauto].
  destruct (0 <? _); cbn; rewrite ?E; tauto.
Qed.

Lemma update_schedule_status_inv (now : datetime) (self : SchedulerManager) :
  engine_inv self -> engine_inv (_update_schedule_status now self).
Proof.
  destruct (update_schedule_status_fields now self) as (? & ? & ? & ? & ? & _).
  now apply engine_inv_ext.
Qed.

(** What [_schedule_retry] adds for the batch [b] behind [r]. *)
Lemma schedule_retry_spec (now : datetime)
  (config : config_manager.ScheduleSettings) (r : ref)
  (self : SchedulerManager) (b : EmailBatch) :
  heap self !! r = Some b ->
  let self' := _schedule_retry now config r self in
  exists retry,
    heap self' = heap self ++ [retry]
    /\ active_batches self'
       = active_batches self ++ [List.length (heap self)]
    /\ completed_batches self' = completed_batches self
    /\ failed_batches self' = failed_batches self
    /\ jobs self'
       = jobs self ++ [{| job_at := hour_minute (scheduled_time retry);
                          job_batch := List.length (heap self) |}]
    /\ (batch_id retry = next_uuid self
        /\ emails retry = emails b /\ subject retry = subject b
        /\ body retry = body b /\ attachments retry = attachments b)
    /\ (scheduled_time retry
        = now + timedelta_minutes (config_manager.retry_delay_minutes config)
        /\ status retry = pending /\ created_time retry = now
        /\ sent_time retry = None /\ attempts retry = attempts b
        /\ error_message retry = None)
    /\ metadata retry = [("is_retry", MBool true);
                         ("original_batch_id", MUuid (batch_id b));
                         ("retry_attempt", MInt (attempts b))].
Proof.
  intros Hb. unfold _schedule_retry. rewrite Hb. cbv zeta.
  eexists. unfold _schedule_batch. cbn [heap set_active_batches set_next_uuid
                                        set_heap].
  rewrite lookup_app_r by lia. rewrite Nat.sub_diag. cbn.
  repeat split; reflexivity.
Qed.

(** Recording the outcome of a dispatch and taking the batch out of the
    active collection. *)
Lemma settle_inv (self self' : SchedulerManager) (r : ref) (b b' : EmailBatch)
  (extra : list EmailBatch) (fresh_refs : list ref) :
  engine_inv self ->
  heap self !! r = Some b -> status b' <> pending ->
  heap self' = <[r := b']> (heap self) ++ extra ->
  Forall (fun x => (List.length (heap self) <= x)%nat
                   /\ status_at (heap self') x = Some pending) fresh_refs ->
  NoDup fresh_refs ->
  active_batches self'
  = remove_first (same_batch (heap self') r)
                 (active_batches self ++ fresh_refs) ->
  Forall (fun x => In x (completed_batches self) \/ x = r)
         (completed_batches self') ->
  Forall (fun x => In x (failed_batches self) \/ x = r)
         (failed_batches self') ->
  Forall (fun j => job_batch j < List.length (heap self'))%nat (jobs self') ->
  engine_inv self'.
Proof.
  intros [I1 I2 I3 I4 I5] Hb Hs Eh Hfresh Hnd Ea Hc Hf Hj.
  assert (Hr : heap self' !! r = Some b').
  { rewrite Eh. apply lookup_app_l_Some. apply list_lookup_insert_eq.
    now apply lookup_lt_Some in Hb. }
  assert (Hold : forall x s, status_at (heap self) x = Some s -> x <> r ->
                             status_at (heap self') x = Some s).
  { intros x s Hx Hne. rewrite Eh. apply status_at_app.
    rewrite (status_at_insert _ _ _ _ _ Hb).
    destruct (decide (x = r)); [contradiction|assumption]. }
  assert (Hsettled : forall x, settled (heap self) x \/ x = r ->
                               settled (heap self') x).
  { intros x [Hx| ->].
    - rewrite Eh. apply settled_app. now apply settled_insert with (b := b).
    - exists (status b'). split; [|assumption].
      unfold status_at. now rewrite Hr. }
  assert (Hall : Forall (fun x => x <> r ->
                                  status_at (heap self') x = Some pending)
                        (active_batches self ++ fresh_refs)).
  { apply Forall_app. split.
    - eapply Forall_impl; [exact I1|]. cbn. intros x Hx Hne.
      now apply Hold.
    - eapply Forall_impl; [exact Hfresh|]. cbn. tauto. }
  assert (Hnd' : NoDup (active_batches self ++ fresh_refs)).
  { apply NoDup_app. repeat split; try assumption.
    intros x Hx Hx'. apply list_elem_of_In in Hx, Hx'.
    rewrite List.Forall_forall in I1, Hfresh.
    apply I1 in Hx. apply status_at_valid in Hx.
    apply Hfresh in Hx'. lia. }
  split.
  - rewrite Ea. apply List.Forall_forall. intros x Hx.
    assert (Hin := remove_first_In _ _ _ Hx).
    rewrite List.Forall_forall in Hall. apply Hall; [assumption|].
    intros ->. revert Hx. apply remove_first_hit; try assumption.
    + apply same_batch_self.
    + intros y Hy Hne. apply same_batch_other with (b := b'); try assumption.
      now apply Hall.
  - rewrite Ea. now apply remove_first_NoDup.
  - eapply Forall_impl; [exact Hc|]. cbn. intros x [Hx| ->].
    + apply Hsettled. left. rewrite List.Forall_forall in I3. now apply I3.
    + apply Hsettled. now right.
  - eapply Forall_impl; [exact Hf|]. cbn. intros x [Hx| ->].
    + apply Hsettled. left. rewrite List.Forall_forall in I4. now apply I4.
    + apply Hsettled. now right.
  - assumption.
Qed.

Lemma Forall_In_or_self (l : list ref) (r : ref) :
  Forall (fun x => In x l \/ x = r) l.
Proof. apply List.Forall_forall. tauto. Qed.

Lemma Forall_In_or_snoc (l : list ref) (r : ref) :
  Forall (fun x => In x l \/ x = r) (l ++ [r]).
Proof.
  apply Forall_app. split; [apply Forall_In_or_self|].
  constructor; [now right|constructor].
Qed.

Lemma execute_batch_inv (now : datetime)
  (config : config_manager.ScheduleSettings) (result : send_result) (r : ref)
  (self : SchedulerManager) :
  engine_inv self -> engine_inv (execute_batch now config result r self).
Proof.
  intros HI. unfold execute_batch.
  destruct (heap self !! r) as [b|] eqn:Hb; [|assumption].
  assert (Hlt : (r < List.length (heap self))%nat)
    by now apply lookup_lt_Some in Hb.
  destruct result as [|msg|msg].
  - apply update_schedule_status_inv.
    eapply settle_inv
      with (r := r) (extra := []) (fresh_refs := [])
           (b' := batch_set_sent_time (Some now) (batch_set_status sent b));
      [exact HI|exact Hb| | | | | | | |]; cbn.
    + discriminate.
    + now rewrite app_nil_r.
    + constructor.
    + constructor.
    + now rewrite !app_nil_r.
    + apply Forall_In_or_snoc.
    + apply Forall_In_or_self.
    + eapply Forall_impl; [apply HI|]. cbn. intros j Hj.
      now rewrite length_insert.
  - cbv zeta.
    set (b' := batch_set_attempts _ _).
    set (self1 := set_stats _ _).
    assert (Hb1 : heap self1 !! r = Some b')
      by (cbn; now apply list_lookup_insert_eq).
    apply update_schedule_status_inv.
    destruct (config_manager.retry_failed_emails config
              && (attempts b' <? config_manager.retry_attempts config)).
    + destruct (schedule_retry_spec now config r self1 b' Hb1)
        as (retry & E1 & E2 & E3 & E4 & E5 & _ & (_ & Est & _) & _).
      cbv zeta in *.
      eapply settle_inv with (r := r) (b' := b') (extra := [retry])
                             (fresh_refs := [List.length (heap self)]);
        [exact HI|exact Hb| | | | | | | |]; cbn [remove_active heap
          active_batches completed_batches failed_batches jobs
          set_active_batches].
      * discriminate.
      * rewrite E1. reflexivity.
      * constructor; [|constructor]. split; [lia|].
        rewrite E1. unfold status_at. cbn [heap self1 set_stats
          set_failed_batches set_heap].
        rewrite lookup_app_r by (rewrite length_insert; lia).
        rewrite length_insert, Nat.sub_diag. cbn. now rewrite Est.
      * apply NoDup_singleton.
      * rewrite E2. cbn [heap self1 set_stats set_failed_batches set_heap
                         active_batches].
        now rewrite length_insert.
      * rewrite E3. apply Forall_In_or_self.
      * rewrite E4. apply Forall_In_or_snoc.
      * rewrite E5, E1. cbn [heap self1 set_stats set_failed_batches set_heap
                              jobs].
        rewrite length_app, length_insert. cbn [List.length].
        apply Forall_app. split.
        -- eapply Forall_impl; [apply HI|]. cbn. intros; lia.
        -- constructor; [cbn; lia|constructor].
    + eapply settle_inv with (r := r) (b' := b') (extra := [])
                             (fresh_refs := []);
        [exact HI|exact Hb| | | | | | | |]; cbn.
      * discriminate.
      * now rewrite app_nil_r.
      * constructor.
      * constructor.
      * now rewrite !app_nil_r.
      * apply Forall_In_or_self.
      * apply Forall_In_or_snoc.
      * eapply Forall_impl; [apply HI|]. cbn. intros j Hj.
      now rewrite length_insert.
  - cbv zeta.
    eapply settle_inv
      with (r := r) (extra := []) (fresh_refs := [])
           (b' := batch_set_attempts (attempts b + 1)
                    (batch_set_error_message (Some msg)
                       (batch_set_status failed b)));
      [exact HI|exact Hb| | | | | | | |]; cbn.
    + discriminate.
    + now rewrite app_nil_r.
    + constructor.
    + constructor.
    + now rewrite !app_nil_r.
    + apply Forall_In_or_self.
    + apply Forall_In_or_snoc.
    + eapply Forall_impl; [apply HI|]. cbn. intros j Hj.
      now rewrite length_insert.
Qed.

Lemma stop_schedule_inv (now : datetime) (who : caller)
  (self : SchedulerManager) :
  engine_inv self -> engine_inv (fst (stop_schedule now who self)).
Proof.
  intros HI. unfold stop_schedule.
  destruct (is_running self); [|assumption]. cbn [negb].
  destruct who; cbn [fst].
  - destruct HI as [I1 I2 I3 I4 I5]. split; try assumption. constructor.
  - match goal with
    | |- engine_inv (set_active_batches [] (fold_left cancel_batch ?l ?s)) =>
        destruct (cancel_all l s)
          as (F1 & F2 & F3 & F4 & F5 & F6 & F7 & F8 & F9)
    end.
    cbv zeta in *. cbn [active_batches failed_batches completed_batches jobs
                        heap set_current_schedule set_jobs set_is_running
                        current_schedule] in *.
    destruct HI as [I1 I2 I3 I4 I5].
    assert (Hkeep : forall x, settled (heap self) x ->
              settled (heap (fold_left cancel_batch (active_batches self)
                 (set_current_schedule
                    (option_map
                       (fun d => sd_set_stopped_time now
                                   (sd_set_status stopped d))
                       (current_schedule self))
                    (set_jobs [] (set_is_running false self))))) x).
    { intros x (s & Hx & Hs). unfold settled, status_at in *.
      destruct (in_dec Nat.eq_dec x (active_batches self)) as [Hin|Hin].
      - rewrite F9 by assumption. cbn [heap set_current_schedule set_jobs
                                       set_is_running].
        destruct (heap self !! x); [|discriminate]. cbn.
        exists cancelled. split; [reflexivity|discriminate].
      - rewrite F8 by assumption. eauto. }
    split; cbn [active_batches failed_batches completed_batches jobs heap
                set_active_batches].
    + constructor.
    + constructor.
    + rewrite F3. eapply Forall_impl; [exact I3|]. exact Hkeep.
    + rewrite F1. apply Forall_app. split.
      * eapply Forall_impl; [exact I4|]. exact Hkeep.
      * apply List.Forall_forall. intros x Hx.
        rewrite List.Forall_forall in I1. specialize (I1 x Hx).
        unfold settled, status_of, status_at in *. rewrite F9 by assumption.
        cbn [heap set_current_schedule set_jobs set_is_running].
        destruct (heap self !! x); [|discriminate]. cbn.
        exists cancelled. split; [reflexivity|discriminate].
    + rewrite F6. constructor.
Qed.

Lemma pause_schedule_inv (now : datetime) (self : SchedulerManager) :
  engine_inv self -> engine_inv (fst (pause_schedule now self)).
Proof.
  intros HI. unfold pause_schedule.
  destruct (is_running self); [|assumption]. cbn [negb fst].
  destruct HI as [I1 I2 I3 I4 I5]. split; try assumption. constructor.
Qed.

Lemma resume_batch_inv (now : datetime) (self : SchedulerManager) (r : ref) :
  engine_inv self -> engine_inv (resume_batch now self r).
Proof.
  intros HI. unfold resume_batch.
  destruct (heap self !! r) as [b|] eqn:Hb; [|assumption].
  destruct (decide (status b = pending)) as [Hp|]; [|assumption].
  apply schedule_batch_inv.
  destruct (scheduled_time b <? now); [|assumption].
  destruct HI as [I1 I2 I3 I4 I5].
  assert (Hst : forall x, status_at (<[r := batch_set_scheduled_time
                                             (now + timedelta_minutes 5) b]>
                                        (heap self)) x
                          = status_at (heap self) x).
  { intros x. rewrite (status_at_insert _ _ _ _ _ Hb).
    destruct (decide (x = r)) as [->|]; [|reflexivity].
    unfold status_at. now rewrite Hb. }
  split; unfold status_of, settled; cbn; try assumption.
  - eapply Forall_impl; [exact I1|]. cbn. intros x Hx.
    now rewrite Hst.
  - eapply Forall_impl; [exact I3|]. cbn. intros x Hx.
    unfold settled in Hx. now setoid_rewrite Hst.
  - eapply Forall_impl; [exact I4|]. cbn. intros x Hx.
    unfold settled in Hx. now setoid_rewrite Hst.
  - now rewrite length_insert.
Qed.

Lemma resume_schedule_inv (now : datetime) (self : SchedulerManager) :
  engine_inv self -> engine_inv (fst (resume_schedule now self)).
Proof.
  intros HI. unfold resume_schedule.
  destruct (current_schedule self) as [d|]; [|assumption].
  destruct (decide (sd_status d = paused)); [|assumption]. cbn [fst].
  match goal with
  | |- engine_inv (set_current_schedule _ ?s) =>
      apply engine_inv_ext with (self := s); [reflexivity..|]
  end.
  apply fold_inv; [|assumption]. intros. now apply resume_batch_inv.
Qed.

Lemma cleanup_inv (now : datetime) (self : SchedulerManager) :
  engine_inv self -> engine_inv (cleanup now self).
Proof.
  intros HI. unfold cleanup.
  assert (H1 : engine_inv (if is_running self
                           then fst (stop_schedule now OtherThread self)
                           else self))
    by (destruct (is_running self); [now apply stop_schedule_inv|assumption]).
  destruct H1 as [I1 I2 I3 I4 I5]. split; cbn; constructor.
Qed.

Lemma scheduler_round_end_inv (now : datetime) (self : SchedulerManager) :
  engine_inv self -> engine_inv (scheduler_round_end now self).
Proof.
  intros HI. unfold scheduler_round_end.
  destruct (active_batches self); [|assumption].
  destruct (is_running self) eqn:E; [|assumption].
  now apply stop_schedule_inv.
Qed.

(** The planner makes pending batches. *)
Lemma generate_batches_pending (now : datetime) (fresh : uuid)
  (all_emails : list string) (the_subject the_body : string)
  (the_attachments : list string) (settings : ScheduleSettings) (fuel : nat)
  (bs : list EmailBatch) :
  _generate_batches now fresh all_emails the_subject the_body the_attachments
                    settings fuel = Done bs ->
  Forall (fun b => status b = pending) bs.
Proof.
  unfold _generate_batches. intros H.
  destruct (_get_next_working_day fuel now) as [t| |] eqn:Ea;
    try discriminate.
  apply get_next_working_day_done in Ea as (d & -> & _ & _).
  cbn [bind] in H.
  destruct (parse_start_time settings) as [[h mi]| |]; try discriminate.
  cbn [bind] in H.
  destruct (plan_loop_rule now fresh all_emails the_subject the_body
              the_attachments settings h mi
              (fun _ _ bs _ => Forall (fun b => status b = pending) bs)
              ltac:(intros; assumption)
              ltac:(intros; apply Forall_app; split;
                    [assumption|repeat constructor])
              ltac:(intros; assumption)
              fuel d [] 0 bs H ltac:(constructor))
    as (_ & _ & ? & _).
  assumption.
Qed.

Lemma create_schedule_inv (fuel : nat) (now : datetime)
  (config : config_manager.ScheduleSettings) (self : SchedulerManager)
  (emails : list string) (subject body : string)
  (attachments : option (list string)) (settings : option ScheduleSettings)
  (self' : SchedulerManager) (result : ScheduleResult) :
  create_schedule fuel now config self emails subject body attachments
                  settings = Done (self', result) ->
  engine_inv self -> engine_inv self'.
Proof.
  unfold create_schedule. intros H HI.
  destruct emails as [|e emails]; [now injection H as <- _|].
  destruct (blank subject); [now injection H as <- _|].
  cbv zeta in H.
  destruct (_generate_batches _ _ _ _ _ _ _ _) as [bs| |] eqn:G;
    [|now injection H as <- _|discriminate].
  destruct bs as [|b bs]; [now injection H as <- _|].
  injection H as <- _. apply generate_batches_pending in G.
  destruct HI as [I1 I2 I3 I4 I5].
  split; cbn [heap active_batches completed_batches failed_batches jobs].
  - apply List.Forall_forall. intros r Hr.
    change (In r (seq (List.length (heap self)) (List.length (b :: bs))))
      in Hr.
    apply in_seq in Hr.
    unfold status_of, status_at. cbn [heap].
    rewrite lookup_app_r by lia.
    destruct (lookup_lt_is_Some_2 (b :: bs) (r - List.length (heap self))
                ltac:(lia)) as [x Hx].
    rewrite Hx. cbn. f_equal.
    rewrite List.Forall_forall in G. apply G.
    apply list_elem_of_In. eapply list_elem_of_lookup_2. exact Hx.
  - apply (NoDup_seq (List.length (heap self)) (List.length (b :: bs))).
  - eapply Forall_impl; [exact I3|]. intros. now apply settled_app.
  - eapply Forall_impl; [exact I4|]. intros. now apply settled_app.
  - eapply Forall_impl; [exact I5|]. cbn. intros j Hj.
    rewrite length_app. lia.
Qed.

(** The invariant holds in every state the manager can reach. *)
Lemma reachable_inv (self : SchedulerManager) :
  reachable self -> engine_inv self.
Proof.
  induction 1 as [| ? ? ? ? ? ? ? ? ? ? ? _ IH Hc | ? ? _ IH | ? ? ? ? ? _ IH _
                 | ? ? _ IH | ? ? _ IH | ? ? _ IH | ? ? _ IH | ? ? _ IH].
  - split; cbn; constructor.
  - eapply create_schedule_inv; eassumption.
  - now apply start_schedule_inv.
  - now apply execute_batch_inv.
  - now apply scheduler_round_end_inv.
  - now apply stop_schedule_inv.
  - now apply pause_schedule_inv.
  - now apply resume_schedule_inv.
  - now apply cleanup_inv.
Qed.

(** ** The retry path *)

Lemma remove_active_fields (r : ref) (self : SchedulerManager) :
  let self' := remove_active r self in
  heap self' = heap self
  /\ completed_batches self' = completed_batches self
  /\ failed_batches self' = failed_batches self
  /\ jobs self' = jobs self
  /\ is_running self' = is_running self
  /\ current_schedule self' = current_schedule self.
Proof. cbn. tauto. Qed.

(** The effect of a failed dispatch of the batch [b] behind [r] on the
    store and on the active collection. *)
Lemma execute_failed (now : datetime)
  (config : config_manager.ScheduleSettings) (msg : string) (r : ref)
  (self : SchedulerManager) (b : EmailBatch) :
  heap self !! r = Some b ->
  let b' := record_failure msg b in
  let self' := execute_batch now config (SendFailed msg) r self in
  if config_manager.retry_failed_emails config
     && (attempts b' <? config_manager.retry_attempts config)
  then
    exists retry,
      heap self' = <[r := b']> (heap self) ++ [retry]
      /\ In (List.length (heap self)) (active_batches self')
      /\ (batch_id retry = next_uuid self
          /\ emails retry = emails b' /\ subject retry = subject b'
          /\ body retry = body b' /\ attachments retry = attachments b')
      /\ (scheduled_time retry
          = now + timedelta_minutes (config_manager.retry_delay_minutes config)
          /\ status retry = pending /\ created_time retry = now
          /\ sent_time retry = None /\ attempts retry = attempts b'
          /\ error_message retry = None)
      /\ metadata retry = [("is_retry", MBool true);
                           ("original_batch_id", MUuid (batch_id b'));
                           ("retry_attempt", MInt (attempts b'))]
  else
    heap self' = <[r := b']> (heap self)
    /\ forall x, In x (active_batches self') -> In x (active_batches self).
Proof.
  intros Hb. cbv zeta. unfold execute_batch. rewrite Hb. cbv zeta.
  fold (record_failure msg b).
  set (b' := record_failure msg b).
  set (self1 := set_stats _ _).
  assert (Hlt : (r < List.length (heap self))%nat)
    by now apply lookup_lt_Some in Hb.
  assert (Hb1 : heap self1 !! r = Some b')
    by (cbn; now apply list_lookup_insert_eq).
  destruct (config_manager.retry_failed_emails config
            && (attempts b' <? config_manager.retry_attempts config)).
  - destruct (schedule_retry_spec now config r self1 b' Hb1)
      as (retry & E1 & E2 & _ & _ & _ & P1 & P2 & P3).
    cbv zeta in *.
    destruct (update_schedule_status_fields now
                (remove_active r (_schedule_retry now config r self1)))
      as (U1 & U2 & _).
    cbv zeta in *. rewrite U1, U2.
    exists retry. split; [|split; [|split; [|split]]]; try assumption.
    + cbn [remove_active active_batches set_active_batches].
      apply remove_first_keep.
      * rewrite E2. apply in_or_app. right. left.
        cbn. now rewrite length_insert.
      * unfold same_batch.
        replace (List.length (heap self) =? r)%nat with false
          by (symmetry; apply Nat.eqb_neq; lia).
        cbn [orb]. rewrite E1.
        rewrite (lookup_app_l_Some _ _ _ _ Hb1).
        replace (List.length (heap self))
          with (List.length (heap self1) + 0)%nat
          by (cbn; rewrite length_insert; lia).
        rewrite lookup_app_r by lia.
        replace (List.length (heap self1) + 0 - List.length (heap self1))%nat
          with O by lia.
        cbn [lookup list_lookup]. apply bool_decide_eq_false.
        intros ->. destruct P2 as (_ & Hst & _). cbn in Hst. discriminate.
  - destruct (update_schedule_status_fields now (remove_active r self1))
      as (U1 & U2 & _).
    cbv zeta in *. rewrite U1, U2. split; [reflexivity|].
    intros x Hx. cbn in Hx. now apply remove_first_In in Hx.
Qed.

(** ** The length of a chain of failed dispatches *)

Lemma fail_chain_length (fuel : nat) (now : datetime)
  (config : config_manager.ScheduleSettings) :
  config_manager.retry_failed_emails config = true ->
  forall (r : ref) (self : SchedulerManager) (b : EmailBatch),
    heap self !! r = Some b ->
    (Z.to_nat (config_manager.retry_attempts config - attempts b) <= fuel)%nat ->
    (1 <= fuel)%nat ->
    fst (fail_chain fuel now config r self)
    = Z.to_nat (Z.max 1 (config_manager.retry_attempts config - attempts b)).
Proof.
  intros Hon. induction fuel as [|fuel IH]; intros r self b Hb Hf H1; [lia|].
  cbn [fail_chain].
  pose proof (execute_failed now config "rejected" r self b Hb) as E.
  cbv zeta in E. rewrite Hon in E. cbn [andb] in E.
  assert (Ea : attempts (record_failure "rejected" b) = attempts b + 1)
    by reflexivity.
  rewrite Ea in E.
  destruct (attempts b + 1 <? config_manager.retry_attempts config) eqn:G.
  - apply Z.ltb_lt in G.
    destruct E as (retry & Eh & _ & _ & (_ & _ & _ & _ & Hat & _) & _).
    rewrite Eh, length_app, length_insert. cbn [List.length].
    replace (List.length (heap self) <? List.length (heap self) + 1)%nat
      with true by (symmetry; apply Nat.ltb_lt; lia).
    specialize (IH (List.length (heap self))
                   (execute_batch now config (SendFailed "rejected") r self)
                   retry).
    destruct (fail_chain fuel now config _ _) as [n s]. cbn [fst] in *.
    rewrite IH.
    + rewrite Hat, ?Ea. lia.
    + rewrite Eh. apply list_lookup_middle. now rewrite length_insert.
    + rewrite Hat. lia.
    + lia.
  - apply Z.ltb_ge in G. destruct E as [Eh _].
    rewrite Eh, length_insert, Nat.ltb_irrefl. cbn [fst]. lia.
Qed.

(** ** A running scheduler has a schedule *)

Ltac split_matches :=
  repeat match goal with
         | |- context [match ?x with _ => _ end] => destruct x eqn:?
         end.

Lemma schedule_retry_running (now : datetime)
  (config : config_manager.ScheduleSettings) (r : ref)
  (self : SchedulerManager) :
  is_running (_schedule_retry now config r self) = is_running self
  /\ current_schedule (_schedule_retry now config r self)
     = current_schedule self.
Proof.
  unfold _schedule_retry, _schedule_batch. split_matches; cbn; tauto.
Qed.

Lemma update_schedule_status_running (now : datetime)
  (self : SchedulerManager) :
  is_running (_update_schedule_status now self) = is_running self
  /\ (current_schedule self <> None ->
      current_schedule (_update_schedule_status now self) <> None).
Proof.
  unfold _update_schedule_status. split_matches; cbn; split; congruence.
Qed.

Lemma execute_batch_running (now : datetime)
  (config : config_manager.ScheduleSettings) (result : send_result) (r : ref)
  (self : SchedulerManager) :
  is_running (execute_batch now config result r self) = is_running self
  /\ (current_schedule self <> None ->
      current_schedule (execute_batch now config result r self) <> None).
Proof.
  unfold execute_batch.
  destruct (heap self !! r) as [b|]; [|tauto].
  destruct result as [|msg|msg]; cbv zeta.
  - destruct (update_schedule_status_running now
                (remove_active r
                   (set_stats
                      {| total_schedules_created :=
                           total_schedules_created (stats self);
                         total_batches_sent :=
                           total_batches_sent (stats self) + 1;
                         total_emails_sent :=
                           total_emails_sent (stats self)
                           + len (emails (batch_set_sent_time (Some now)
                                            (batch_set_status sent b)));
                         total_failures := total_failures (stats self);
                         last_schedule_date :=
                           last_schedule_date (stats self) |}
                      (set_completed_batches (completed_batches self ++ [r])
                         (set_heap
                            (<[r := batch_set_sent_time (Some now)
                                      (batch_set_status sent b)]> (heap self))
                            self))))) as [U1 U2].
    split; [exact U1|exact U2].
  - match goal with
    | |- context [_update_schedule_status now (remove_active r ?s)] =>
        destruct (update_schedule_status_running now (remove_active r s))
          as [U1 U2];
        assert (R : is_running s = is_running self
                    /\ current_schedule s = current_schedule self)
    end.
    { destruct (_ && _); [|cbn; tauto].
      match goal with
      | |- context [_schedule_retry now config r ?s] =>
          destruct (schedule_retry_running now config r s) as [-> ->]
      end.
      cbn. tauto. }
    destruct R as [R1 R2]. cbn [remove_active is_running current_schedule
                                set_active_batches] in U1, U2.
    rewrite R1 in U1. rewrite R2 in U2. split; assumption.
  - cbn. tauto.
Qed.

Lemma fold_running (f : SchedulerManager -> ref -> SchedulerManager)
  (l : list ref) :
  (forall s r, is_running (f s r) = is_running s
               /\ current_schedule (f s r) = current_schedule s) ->
  forall self,
    is_running (fold_left f l self) = is_running self
    /\ current_schedule (fold_left f l self) = current_schedule self.
Proof.
  intros Hf. induction l as [|r l IH]; intros self; cbn; [tauto|].
  destruct (IH (f self r)) as [-> ->]. apply Hf.
Qed.

Lemma reachable_running (self : SchedulerManager) :
  reachable self ->
  is_running self = true -> current_schedule self <> None.
Proof.
  induction 1 as [| fuel now config self ems subj bdy atts sets self' result
                     _ IH Hc
                 | ? ? _ IH | ? ? ? ? ? _ IH _
                 | ? ? _ IH | ? ? _ IH | ? ? _ IH | ? ? _ IH | ? ? _ IH].
  - discriminate.
  - unfold create_schedule in Hc.
    destruct ems as [|e ems]; [now injection Hc as <- _|].
    destruct (blank subj); [now injection Hc as <- _|].
    cbv zeta in Hc.
    destruct (_generate_batches _ _ _ _ _ _ _ _) as [bs| |];
      [|now injection Hc as <- _|discriminate].
    destruct bs as [|b bs]; [now injection Hc as <- _|].
    injection Hc as <- _. discriminate.
  - unfold start_schedule.
    destruct (current_schedule self) as [d|] eqn:Ed;
      [|cbn [fst]; intros Hr; specialize (IH Hr); congruence].
    destruct (is_running self) eqn:Er; [cbn; rewrite Ed; discriminate|].
    cbn [fst]. intros _. cbn [current_schedule set_current_schedule
                              set_scheduler_thread].
    match goal with
    | |- context [fold_left ?f ?l ?s] =>
        destruct (fold_running f l
                    ltac:(intros s0 r0; cbv beta;
                          destruct (heap s0 !! r0) as [b0|];
                          [destruct (decide (status b0 = pending));
                           [destruct (schedule_batch_fields r0 s0)
                              as (_ & _ & _ & _ & ? & ?); split; assumption
                           |tauto]
                          |tauto]) s) as [_ ->]
    end.
    cbn. rewrite Ed. discriminate.
  - destruct (execute_batch_running now config result (job_batch j) self)
      as [-> U]. intros Hr. apply U, IH, Hr.
  - unfold scheduler_round_end.
    destruct (active_batches self); [|assumption].
    destruct (is_running self) eqn:Er; [|congruence].
    unfold stop_schedule. rewrite Er. cbn. discriminate.
  - unfold stop_schedule.
    destruct (is_running self) eqn:Er; cbn [negb fst]; [|congruence].
    cbn [is_running set_active_batches].
    match goal with
    | |- context [fold_left cancel_batch ?l ?s] =>
        destruct (cancel_all l s) as (_ & _ & _ & _ & -> & _)
    end.
    cbn. discriminate.
  - unfold pause_schedule.
    destruct (is_running self) eqn:Er; cbn [negb fst]; [|congruence].
    intros _. specialize (IH eq_refl). cbn.
    destruct (current_schedule self); [discriminate|contradiction].
  - unfold resume_schedule.
    destruct (current_schedule self) as [d|] eqn:Ed;
      [|cbn [fst]; intros Hr; specialize (IH Hr); congruence].
    destruct (decide (sd_status d = paused)); [|cbn; congruence].
    cbn [fst]. intros _. cbn [current_schedule set_current_schedule].
    match goal with
    | |- context [fold_left ?f ?l ?s] =>
        destruct (fold_running f l
                    ltac:(intros s0 r0; unfold resume_batch;
                          destruct (heap s0 !! r0) as [b0|]; [|tauto];
                          destruct (decide (status b0 = pending)); [|tauto];
                          match goal with
                          | |- context [_schedule_batch r0 ?s1] =>
                              destruct (schedule_batch_fields r0 s1)
                                as (_ & _ & _ & _ & -> & ->)
                          end;
                          destruct (scheduled_time b0 <? now); cbn; tauto) s)
          as [_ ->]
    end.
    rewrite Ed. discriminate.
  - unfold cleanup. cbn [is_running set_failed_batches set_completed_batches
                         set_active_batches set_jobs].
    destruct (is_running self) eqn:Er; [|congruence].
    unfold stop_schedule. rewrite Er. cbn [negb fst is_running
                                           set_active_batches].
    match goal with
    | |- context [fold_left cancel_batch ?l ?s] =>
        destruct (cancel_all l s) as (_ & _ & _ & _ & -> & _)
    end.
    cbn. discriminate.
Qed.

(** ** The claims about the planner *)

(** C1. For valid settings the planner ends within three rounds per
    recipient (plus three), and returns its batches when the start time is
    a time of day; every batch it returns has at most [emails_per_batch]
    recipients, and the batches scheduled on any one calendar day have at
    most [emails_per_day] recipients together. *)
Theorem planner_respects_caps (now : datetime) (fresh : uuid)
  (all_emails : list string) (the_subject the_body : string)
  (the_attachments : list string) (settings : ScheduleSettings) :
  valid_settings settings ->
  (forall fuel,
      (plan_fuel (List.length all_emails) <= fuel)%nat ->
      _generate_batches now fresh all_emails the_subject the_body
                        the_attachments settings fuel <> OutOfFuel
      /\ forall start_hour start_minute,
          parse_start_time settings = Done (start_hour, start_minute) ->
          0 <= start_hour <= 23 -> 0 <= start_minute <= 59 ->
          exists bs,
            _generate_batches now fresh all_emails the_subject the_body
                              the_attachments settings fuel = Done bs)
  /\ forall fuel bs,
      _generate_batches now fresh all_emails the_subject the_body
                        the_attachments settings fuel = Done bs ->
      Forall (fun b => len (emails b) <= emails_per_batch settings) bs
      /\ forall day : datetime,
          day_email_count bs day <= emails_per_day settings.
Proof.
  intros Hv. split.
  - intros fuel Hf. split; [now apply generate_batches_terminates|].
    intros h mi Hp Hh Hm. now apply generate_batches_returns with h mi.
  - intros fuel bs H.
    destruct (generate_batches_inv _ _ _ _ _ _ _ Hv _ _ H)
      as (h & mi & d & i & HI & _).
    split.
    + apply HI.
    + intros day. eapply plan_inv_day; eassumption.
Qed.

Lemma planner_respects_caps_witness :
  valid_settings example_settings
  /\ let bs := batches_of (_generate_batches thursday_noon 0%nat twenty_five_emails
                             "subject" "body" [] example_settings 20) in
     Forall (fun b => len (emails b) <= 5) bs
     /\ forall day : datetime, day_email_count bs day <= 10.
Proof.
  assert (Hv : valid_settings example_settings)
    by (unfold valid_settings; cbn; lia).
  split; [exact Hv|].
  apply (proj2 (planner_respects_caps thursday_noon 0%nat twenty_five_emails
                  "subject" "body" [] example_settings Hv) 20%nat).
  vm_compute. reflexivity.
Defined.

(** C2. For valid settings the planner ends, and returns its batches when
    the start time is a time of day; the recipient lists of the returned
    batches, put end to end in batch order, are the recipient list given to
    the planner. *)
Theorem planner_partitions_recipients (now : datetime) (fresh : uuid)
  (all_emails : list string) (the_subject the_body : string)
  (the_attachments : list string) (settings : ScheduleSettings) :
  valid_settings settings ->
  (forall fuel,
      (plan_fuel (List.length all_emails) <= fuel)%nat ->
      _generate_batches now fresh all_emails the_subject the_body
                        the_attachments settings fuel <> OutOfFuel
      /\ forall start_hour start_minute,
          parse_start_time settings = Done (start_hour, start_minute) ->
          0 <= start_hour <= 23 -> 0 <= start_minute <= 59 ->
          exists bs,
            _generate_batches now fresh all_emails the_subject the_body
                              the_attachments settings fuel = Done bs)
  /\ forall fuel bs,
      _generate_batches now fresh all_emails the_subject the_body
                        the_attachments settings fuel = Done bs ->
      concat (map emails bs) = all_emails.
Proof.
  intros Hv. split.
  - intros fuel Hf. split; [now apply generate_batches_terminates|].
    intros h mi Hp Hh Hm. now apply generate_batches_returns with h mi.
  - intros fuel bs H.
    destruct (generate_batches_inv _ _ _ _ _ _ _ Hv _ _ H)
      as (h & mi & d & i & (_ & Hc & _) & Hi).
    rewrite Hc. apply firstn_all2. unfold len in Hi. lia.
Qed.

Lemma planner_partitions_recipients_witness :
  valid_settings example_settings
  /\ concat (map emails
               (batches_of (_generate_batches thursday_noon 0%nat
                              twenty_five_emails "subject" "body" []
                              example_settings 20)))
     = twenty_five_emails.
Proof.
  assert (Hv : valid_settings example_settings)
    by (unfold valid_settings; cbn; lia).
  split; [exact Hv|].
  apply (proj2 (planner_partitions_recipients thursday_noon 0%nat
                  twenty_five_emails "subject" "body" [] example_settings Hv)
               20%nat).
  vm_compute. reflexivity.
Defined.



(** C7, as far as it holds.  With [working_days_only] set and a forward
    interval, no batch is scheduled in a weekend provided the last batch a
    day can get still falls on that day. *)
Lemma weekdays_when_day_fits (now : datetime) (fresh : uuid)
  (all_emails : list string) (the_subject the_body : string)
  (the_attachments : list string) (settings : ScheduleSettings)
  (fuel : nat) (bs : list EmailBatch) (start_hour start_minute : Z) :
  working_days_only settings = true ->
  0 <= batch_interval_minutes settings ->
  parse_start_time settings = Done (start_hour, start_minute) ->
  slot_shift settings start_hour start_minute (max_daily settings - 1) = 0 ->
  _generate_batches now fresh all_emails the_subject the_body
                    the_attachments settings fuel = Done bs ->
  Forall (fun b => weekday (scheduled_time b) < 5) bs.
Proof.
  intros Hw HI Hp Hfit. unfold _generate_batches. intros H.
  destruct (_get_next_working_day fuel now) as [t| |] eqn:Ea;
    try discriminate.
  apply get_next_working_day_done in Ea as (d & -> & _ & _).
  cbn [bind] in H. rewrite Hp in H. cbn [bind] in H.
  eapply plan_loop_weekdays; eassumption.
Qed.

(** C7, where it fails.  Six recipients, five per batch and ten per day,
    from 23:58 every five minutes, working days only, planned on Thursday
    2024-01-04: the first batch is on Friday at 23:58 and the second one on
    Saturday at 00:03. *)
Theorem late_start_reaches_saturday :
  exists b1 b2,
    _generate_batches thursday_noon 0%nat six_emails "subject" "body" []
                      late_settings 20 = Done [b1; b2]
    /\ working_days_only late_settings = true
    /\ (weekday (scheduled_time b1) = 4
        /\ hour_minute (scheduled_time b1) = (23, 58))
    /\ (weekday (scheduled_time b2) = 5
        /\ hour_minute (scheduled_time b2) = (0, 3)
        /\ emails b2 = ["f@x.org"]).
Proof.
  do 2 eexists. split; [vm_compute; reflexivity|].
  vm_compute. repeat split.
Qed.

(** ** The claims about the engine *)

Lemma one_batch_started_reachable : reachable one_batch_started.
Proof.
  apply reach_start.
  apply (reach_create 10 thursday_noon config_manager.defaults __init__
           ["a@x.org"] "subject" "body" None None one_batch_created
           one_batch_result reach_init).
  vm_compute. reflexivity.
Defined.

(** C8. [create_schedule] with no recipient returns a failure result with
    its message and leaves the manager as it was: no current schedule set,
    no batch created, no document written. *)
Theorem create_schedule_without_emails (fuel : nat) (now : datetime)
  (config : config_manager.ScheduleSettings) (self : SchedulerManager)
  (the_subject the_body : string) (the_attachments : option (list string))
  (settings : option ScheduleSettings) :
  exists result,
    create_schedule fuel now config self [] the_subject the_body
                    the_attachments settings = Done (self, result)
    /\ success result = false
    /\ message result = "No emails provided for scheduling"
    /\ schedule_id result = None.
Proof. eexists. repeat split. Qed.

(** C6, amended.  In a state the manager can reach, [stop_schedule] called
    from outside the scheduler thread does nothing and returns [False] when
    the scheduler is not running; when it is running, every batch of the
    collections that was pending is cancelled, none is left pending, the
    batches past pending are untouched, and the schedule is stopped. *)
Theorem stop_cancels_pending (now : datetime) (self : SchedulerManager) :
  reachable self ->
  (is_running self = false ->
   stop_schedule now OtherThread self = (self, false))
  /\ (is_running self = true ->
      let self' := fst (stop_schedule now OtherThread self) in
      snd (stop_schedule now OtherThread self) = true
      /\ (forall r, managed self r -> status_of self r = Some pending ->
                    status_of self' r = Some cancelled)
      /\ (forall r, managed self' r -> status_of self' r <> Some pending)
      /\ (forall r, managed self r -> status_of self r <> Some pending ->
                    heap self' !! r = heap self !! r)
      /\ option_map sd_status (current_schedule self') = Some stopped).
Proof.
  intros Hreach. split.
  - intros Hr. unfold stop_schedule. now rewrite Hr.
  - intros Hr.
    pose proof (reachable_inv _ Hreach) as [I1 I2 I3 I4 I5].
    pose proof (stop_schedule_inv now OtherThread self (reachable_inv _ Hreach))
      as [J1 J2 J3 J4 J5].
    pose proof (reachable_running _ Hreach Hr) as Hsched.
    unfold stop_schedule in *. rewrite Hr in *. cbn [negb fst snd] in *.
    match goal with
    | |- context [fold_left cancel_batch ?l ?s] =>
        destruct (cancel_all l s)
          as (F1 & F2 & F3 & F4 & F5 & F6 & F7 & F8 & F9)
    end.
    cbv zeta in *.
    cbn [active_batches failed_batches completed_batches jobs heap
         set_current_schedule set_jobs set_is_running set_active_batches
         current_schedule] in *.
    assert (Hpend : forall r, managed self r ->
                              status_of self r = Some pending ->
                              In r (active_batches self)).
    { intros r [Hin|[Hin|Hin]] Hp; [assumption| |].
      - rewrite List.Forall_forall in I3. destruct (I3 r Hin) as (s & E & Hs).
        unfold status_of in Hp. congruence.
      - rewrite List.Forall_forall in I4. destruct (I4 r Hin) as (s & E & Hs).
        unfold status_of in Hp. congruence. }
    split; [reflexivity|]. split; [|split; [|split]].
    + intros r Hm Hp. specialize (Hpend r Hm Hp).
      unfold status_of, status_at in *.
      cbn [heap set_active_batches]. rewrite F9 by assumption.
      cbn [heap set_current_schedule set_jobs set_is_running].
      destruct (heap self !! r); [reflexivity|discriminate].
    + intros r [Hin|[Hin|Hin]]; cbn [active_batches completed_batches
                                     failed_batches set_active_batches] in Hin.
      * destruct Hin.
      * rewrite List.Forall_forall in J3. destruct (J3 r Hin) as (s & E & Hs).
        unfold status_of. cbn [heap set_active_batches] in *. congruence.
      * rewrite List.Forall_forall in J4. destruct (J4 r Hin) as (s & E & Hs).
        unfold status_of. cbn [heap set_active_batches] in *. congruence.
    + intros r Hm Hp. cbn [heap set_active_batches]. rewrite F8; [reflexivity|].
      intros Hin. apply Hp. rewrite List.Forall_forall in I1. now apply I1.
    + cbn [current_schedule set_active_batches]. rewrite F4.
      cbn [current_schedule set_current_schedule].
      destruct (current_schedule self); [reflexivity|contradiction].
Qed.

Lemma stop_cancels_pending_witness :
  reachable one_batch_started
  /\ is_running one_batch_started = true
  /\ (managed one_batch_started 0%nat
      /\ status_of one_batch_started 0%nat = Some pending)
  /\ status_of (fst (stop_schedule thursday_noon OtherThread one_batch_started))
               0%nat = Some cancelled.
Proof.
  assert (Hm : managed one_batch_started 0%nat) by (left; left; reflexivity).
  assert (Hp : status_of one_batch_started 0%nat = Some pending)
    by reflexivity.
  split; [exact one_batch_started_reachable|].
  split; [reflexivity|]. split; [split; assumption|].
  exact (proj1 (proj2 (proj2 (stop_cancels_pending thursday_noon
                                one_batch_started one_batch_started_reachable)
                             eq_refl)) 0%nat Hm Hp).
Defined.

(** C6, as stated, fails before the schedule is started: the scheduler is
    not running, [stop_schedule] returns [False], the batch stays pending
    and the schedule stays created. *)
Lemma stop_before_start_changes_nothing :
  reachable one_batch_created
  /\ (managed one_batch_created 0%nat
      /\ status_of one_batch_created 0%nat = Some pending)
  /\ let after := fst (stop_schedule thursday_noon OtherThread
                                     one_batch_created) in
     snd (stop_schedule thursday_noon OtherThread one_batch_created) = false
     /\ status_of after 0%nat = Some pending
     /\ option_map sd_status (current_schedule after) = Some created.
Proof.
  split.
  - apply (reach_create 10 thursday_noon config_manager.defaults __init__
             ["a@x.org"] "subject" "body" None None one_batch_created
             one_batch_result reach_init).
    vm_compute. reflexivity.
  - split; [split; [left; left; reflexivity|reflexivity]|].
    vm_compute. repeat split.
Qed.

(** C10. When [stop_schedule] goes through, the batches it cancels are the
    active ones, each is appended to the failed collection, nothing else in
    the store changes, and the snapshot counts them as failed and counts no
    pending batch. *)
Theorem stop_counts_cancelled_as_failed (now : datetime) (who : caller)
  (self self' : SchedulerManager) :
  stop_schedule now who self = (self', true) ->
  failed_batches self' = failed_batches self ++ active_batches self
  /\ active_batches self' = []
  /\ (forall r b, In r (active_batches self) -> heap self !! r = Some b ->
                  heap self' !! r = Some (batch_set_status cancelled b))
  /\ (forall r, ~ In r (active_batches self) ->
                heap self' !! r = heap self !! r)
  /\ forall snap,
      get_current_schedule_status self' = Some snap ->
      snap_failed_batches snap
      = len (failed_batches self) + len (active_batches self)
      /\ snap_pending_batches snap = 0
      /\ snap_completed_batches snap = len (completed_batches self).
Proof.
  unfold stop_schedule. destruct (is_running self); [|discriminate].
  cbn [negb]. destruct who; [discriminate|]. intros [= <-].
  match goal with
  | |- context [fold_left cancel_batch ?l ?s] =>
      destruct (cancel_all l s)
        as (F1 & F2 & F3 & F4 & F5 & F6 & F7 & F8 & F9)
  end.
  cbv zeta in *.
  cbn [active_batches failed_batches completed_batches jobs heap
       set_current_schedule set_jobs set_is_running set_active_batches
       current_schedule] in *.
  split; [assumption|]. split; [reflexivity|]. split; [|split].
  - intros r b Hin Hb. rewrite F9 by assumption.
    cbn [heap set_current_schedule set_jobs set_is_running].
    now rewrite Hb.
  - intros r Hin. now rewrite F8.
  - intros snap. unfold get_current_schedule_status.
    cbn [current_schedule failed_batches active_batches completed_batches
         set_active_batches].
    rewrite F4, F1, F3.
    cbn [current_schedule set_current_schedule set_jobs set_is_running].
    destruct (current_schedule self) as [d|]; cbn [option_map];
      [|discriminate].
    intros [= <-].
    cbn [snap_failed_batches snap_pending_batches snap_completed_batches].
    rewrite len_app. repeat split.
Qed.

Lemma stop_counts_cancelled_as_failed_witness :
  let after := fst (stop_schedule thursday_noon OtherThread
                                  one_batch_started) in
  failed_batches after = [0%nat]
  /\ option_map snap_failed_batches (get_current_schedule_status after)
     = Some 1.
Proof.
  cbv zeta.
  assert (E : stop_schedule thursday_noon OtherThread one_batch_started
              = (fst (stop_schedule thursday_noon OtherThread
                                    one_batch_started), true))
    by (vm_compute; reflexivity).
  pose proof (stop_counts_cancelled_as_failed _ _ _ _ E) as (H1 & _).
  split; [exact H1|]. vm_compute. reflexivity.
Defined.

(** C5, amended.  Let the dispatch of a batch with [a] attempts fail at a
    time [now] from which the retry time, [now] plus the configuration's
    [retry_delay_minutes], is a datetime Python represents.  If
    [send_email_batch] returned a result that is no success, the failure is
    recorded on the batch: it is [failed], with the message of the result
    and [a + 1] attempts.  If then the configuration's [retry_failed_emails]
    is set and [a + 1] is below the configuration's [retry_attempts], the
    retry path adds one batch to the store and to the active collection:
    pending, with the recipients and the content of the failed batch,
    [a + 1] attempts, the retry time as its scheduled time, and metadata
    that name the failed batch.  If [retry_failed_emails] is not set, or
    [a] has reached [retry_attempts], it adds none.  If [send_email_batch]
    raised, the failure is recorded in the same way, with the text of the
    exception, the batch joins the failed batches, and no batch is added,
    whatever the configuration.  The settings of the schedule are not
    read. *)
Theorem retry_path (now : datetime)
  (config : config_manager.ScheduleSettings) (msg : string) (r : ref)
  (self : SchedulerManager) (b : EmailBatch) :
  heap self !! r = Some b ->
  representable now ->
  representable
    (now + timedelta_minutes (config_manager.retry_delay_minutes config)) ->
  let self' := execute_batch now config (SendFailed msg) r self in
  let raised := execute_batch now config (SendRaised msg) r self in
  (heap self' !! r = Some (record_failure msg b)
   /\ status (record_failure msg b) = failed
   /\ attempts (record_failure msg b) = attempts b + 1
   /\ error_message (record_failure msg b) = Some msg)
  /\ (config_manager.retry_failed_emails config = true ->
      attempts b + 1 < config_manager.retry_attempts config ->
      exists retry,
        heap self' = <[r := record_failure msg b]> (heap self) ++ [retry]
        /\ In (List.length (heap self)) (active_batches self')
        /\ status retry = pending
        /\ (emails retry = emails b /\ subject retry = subject b
            /\ body retry = body b /\ attachments retry = attachments b)
        /\ attempts retry = attempts b + 1
        /\ scheduled_time retry
           = now + timedelta_minutes
                     (config_manager.retry_delay_minutes config)
        /\ dict_get (metadata retry) "is_retry" = Some (MBool true)
        /\ dict_get (metadata retry) "original_batch_id"
           = Some (MUuid (batch_id b)))
  /\ (config_manager.retry_failed_emails config = false
      \/ config_manager.retry_attempts config <= attempts b ->
      heap self' = <[r := record_failure msg b]> (heap self))
  /\ (heap raised = <[r := record_failure msg b]> (heap self)
      /\ In r (failed_batches raised)).
Proof.
  intros Hb _ _. cbv zeta.
  pose proof (execute_failed now config msg r self b Hb) as E.
  cbv zeta in E.
  assert (Hlt : (r < List.length (heap self))%nat)
    by now apply lookup_lt_Some in Hb.
  assert (Ea : attempts (record_failure msg b) = attempts b + 1)
    by reflexivity.
  rewrite Ea in E.
  assert (Hraised :
            heap (execute_batch now config (SendRaised msg) r self)
            = <[r := record_failure msg b]> (heap self)
            /\ In r (failed_batches
                       (execute_batch now config (SendRaised msg) r self))).
  { unfold execute_batch. rewrite Hb. cbv zeta. unfold remove_active.
    cbn [heap failed_batches set_failed_batches set_active_batches set_heap].
    split; [reflexivity|]. apply in_or_app. right. now left. }
  destruct (config_manager.retry_failed_emails config) eqn:Eon;
    cbn [andb] in E.
  - destruct (attempts b + 1 <? config_manager.retry_attempts config) eqn:G.
    + apply Z.ltb_lt in G.
      destruct E as (retry & Eh & Hin & (_ & P1) & (Ht & Hs & _ & _ & Ha & _)
                     & Hmeta).
      split; [|split; [|split]].
      * repeat split. rewrite Eh. apply lookup_app_l_Some.
        now apply list_lookup_insert_eq.
      * intros _ _. exists retry. rewrite Hmeta.
        repeat split; tauto.
      * intros [Hoff|Hle]; [discriminate|lia].
      * exact Hraised.
    + apply Z.ltb_ge in G. destruct E as [Eh _]. split; [|split; [|split]].
      * repeat split. rewrite Eh. now apply list_lookup_insert_eq.
      * intros _ Hlt'. lia.
      * intros _. exact Eh.
      * exact Hraised.
  - destruct E as [Eh _]. split; [|split; [|split]].
    + repeat split. rewrite Eh. now apply list_lookup_insert_eq.
    + discriminate.
    + intros _. exact Eh.
    + exact Hraised.
Qed.

Lemma retry_path_witness :
  heap lone_manager !! 0%nat = Some lone_batch
  /\ representable thursday_noon
  /\ representable
       (thursday_noon
        + timedelta_minutes
            (config_manager.retry_delay_minutes config_manager.defaults))
  /\ config_manager.retry_failed_emails config_manager.defaults = true
  /\ attempts lone_batch + 1
     < config_manager.retry_attempts config_manager.defaults
  /\ exists retry,
      heap (execute_batch thursday_noon config_manager.defaults
                          (SendFailed "rejected") 0%nat lone_manager)
      = [record_failure "rejected" lone_batch; retry]
      /\ attempts retry = 1
      /\ scheduled_time retry = thursday_noon + timedelta_minutes 30.
Proof.
  assert (Hb : heap lone_manager !! 0%nat = Some lone_batch) by reflexivity.
  assert (Hn : representable thursday_noon)
    by (unfold representable; vm_compute; split; discriminate).
  assert (Ht : representable
                 (thursday_noon
                  + timedelta_minutes
                      (config_manager.retry_delay_minutes
                         config_manager.defaults)))
    by (unfold representable; vm_compute; split; discriminate).
  assert (Hon : config_manager.retry_failed_emails config_manager.defaults
                = true) by reflexivity.
  assert (Hlt : attempts lone_batch + 1
                < config_manager.retry_attempts config_manager.defaults)
    by reflexivity.
  split; [exact Hb|]. split; [exact Hn|]. split; [exact Ht|].
  split; [exact Hon|]. split; [exact Hlt|].
  destruct (proj1 (proj2 (retry_path thursday_noon config_manager.defaults
                            "rejected" 0%nat lone_manager lone_batch
                            Hb Hn Ht))
                  Hon Hlt)
    as (retry & Eh & _ & _ & _ & Hat & Hti & _).
  exists retry. split; [exact Eh|]. split; [exact Hat|exact Hti].
Defined.

(** C5, as stated, fails on the settings of the schedule.  These enable
    retries, one hour after a failure, up to three attempts, and the batch
    has none before its dispatch fails.  Under the default configuration the
    retry batch is scheduled thirty minutes after the failure, not one hour;
    under a configuration that switches retries off no retry batch is made
    at all. *)
Lemma retry_ignores_schedule_settings :
  (option_map sd_settings (current_schedule hourly_started)
   = Some example_settings
   /\ retry_failed_batches example_settings = true
   /\ retry_delay_hours example_settings = 1
   /\ option_map attempts (heap hourly_started !! 0%nat) = Some 0
   /\ 0 < max_retry_attempts example_settings)
  /\ (List.length (heap hourly_failed_once) = 2%nat
      /\ option_map scheduled_time (heap hourly_failed_once !! 1%nat)
         = Some (thursday_noon + timedelta_minutes 30)
      /\ thursday_noon + timedelta_minutes 30
         <> thursday_noon + 1 * us_per_hour)
  /\ (config_manager.retry_failed_emails no_retry_config = false
      /\ List.length (heap hourly_failed_without_retry) = 1%nat
      /\ active_batches hourly_failed_without_retry = []).
Proof. vm_compute. repeat split; discriminate. Qed.

(** C4, where it fails.  Under the default configuration, which enables
    retries with [retry_attempts = 3], a batch whose every dispatch fails is
    dispatched three times in all, not four: the third failure creates no
    retry batch and leaves nothing active. *)
Theorem default_retry_chain_fails_three_times :
  config_manager.retry_failed_emails config_manager.defaults = true
  /\ config_manager.retry_attempts config_manager.defaults = 3
  /\ option_map (fun d => max_retry_attempts (sd_settings d))
                (current_schedule one_batch_started) = Some 3
  /\ let end_of_chain :=
       fail_chain 10 thursday_noon config_manager.defaults 0%nat
                  one_batch_started in
     fst end_of_chain = 3%nat
     /\ active_batches (snd end_of_chain) = []
     /\ map status (heap (snd end_of_chain)) = [failed; failed; failed]
     /\ map attempts (heap (snd end_of_chain)) = [1; 2; 3].
Proof. vm_compute. repeat split. Qed.

(** * Further properties of the planner *)

(** The rule of the two loops, for a whole run of [_generate_batches]: a
    property that holds at the start of the anchor day and that the three
    moves of the planner keep holds of the plan it returns, with the
    recipients used up. *)
Lemma generate_batches_rule (now : datetime) (fresh : uuid)
  (all_emails : list string) (the_subject the_body : string)
  (the_attachments : list string) (settings : ScheduleSettings)
  (P : Z -> Z -> Z -> Z -> list EmailBatch -> Z -> Prop) :
  (forall h mi d bs i,
      P h mi d 0 bs i -> i < len all_emails ->
      working_days_only settings = true -> 5 <= weekday (timedelta_days d) ->
      P h mi (d + 1) 0 bs i) ->
  (forall h mi d j bs i,
      P h mi d j bs i -> 0 <= j -> day_entered settings h mi d ->
      day_guard all_emails settings d j bs i ->
      P h mi d (j + 1)
        (appended now fresh all_emails the_subject the_body the_attachments
                  settings h mi d j bs i)
        (i + len (slice all_emails i (i + emails_per_batch settings)))) ->
  (forall h mi d j bs i,
      P h mi d j bs i -> 0 <= j -> day_entered settings h mi d ->
      ~ day_guard all_emails settings d j bs i ->
      P h mi (d + 1) 0 bs i) ->
  (forall h mi d,
      date now < d -> weekday (timedelta_days d) < 5 -> P h mi d 0 [] 0) ->
  forall fuel bs,
    _generate_batches now fresh all_emails the_subject the_body
                      the_attachments settings fuel = Done bs ->
    exists h mi d i,
      parse_start_time settings = Done (h, mi)
      /\ P h mi d 0 bs i /\ len all_emails <= i.
Proof.
  intros Hskip Hbatch Hnext Hinit fuel bs H. unfold _generate_batches in H.
  destruct (_get_next_working_day fuel now) as [t| |] eqn:Ea;
    try discriminate.
  apply get_next_working_day_done in Ea as (d & -> & Hd & Hw).
  cbn [bind] in H.
  destruct (parse_start_time settings) as [[h mi]| |] eqn:Ep;
    try discriminate.
  cbn [bind] in H.
  destruct (plan_loop_rule now fresh all_emails the_subject the_body
              the_attachments settings h mi (P h mi)
              (Hskip h mi) (Hbatch h mi) (Hnext h mi)
              fuel d [] 0 bs H (Hinit h mi d Hd Hw))
    as (d' & i' & HP & Hi & _).
  exists h, mi, d', i'. auto.
Qed.




(** ** The settings a plan needs *)

Lemma room_inv_rule (now : datetime) (fresh : uuid)
  (all_emails : list string) (the_subject the_body : string)
  (the_attachments : list string) (settings : ScheduleSettings)
  (fuel : nat) (bs : list EmailBatch) :
  _generate_batches now fresh all_emails the_subject the_body
                    the_attachments settings fuel = Done bs ->
  exists d i, room_inv settings d 0 bs i /\ len all_emails <= i.
Proof.
  intros H.
  destruct (generate_batches_rule now fresh all_emails the_subject the_body
              the_attachments settings
              (fun _ _ => room_inv settings)) with (fuel := fuel) (bs := bs)
    as (h & mi & d & i & _ & HP & Hi); try assumption.
  - intros; assumption.
  - intros h mi d j bs0 i [H0 H1] Hj _ (G1 & G2 & G3). unfold appended. split.
    + intros E. now apply app_eq_nil in E as [_ E].
    + intros _. pose proof (day_email_count_nonneg bs0 (timedelta_days d)).
      unfold max_daily in G2. lia.
  - intros; assumption.
  - intros. split; [reflexivity|congruence].
  - eauto.
Qed.

Lemma generate_batches_room (now : datetime) (fresh : uuid)
  (all_emails : list string) (the_subject the_body : string)
  (the_attachments : list string) (settings : ScheduleSettings)
  (fuel : nat) (bs : list EmailBatch) :
  _generate_batches now fresh all_emails the_subject the_body
                    the_attachments settings fuel = Done bs ->
  all_emails <> [] ->
  bs <> [] /\ valid_settings settings.
Proof.
  intros H Hne. apply room_inv_rule in H as (d & i & [H0 H1] & Hi).
  assert (Hlen : 0 < len all_emails).
  { destruct all_emails; [congruence|]. unfold len. cbn. lia. }
  assert (Hbs : bs <> []) by (intros E; specialize (H0 E); lia).
  split; [assumption|]. destruct (H1 Hbs) as [Hq Hd]. unfold valid_settings.
  destruct (Z_lt_le_dec 0 (emails_per_batch settings)) as [Hp|Hn].
  - split; [assumption|].
    destruct (Z_le_gt_dec (emails_per_batch settings) (emails_per_day settings))
      as [|Hgt]; [assumption|].
    rewrite Z.div_small in Hq by lia. lia.
  - exfalso. destruct (Z.eq_dec (emails_per_batch settings) 0) as [E|E].
    + rewrite E, Z.div_0_r in Hq. lia.
    + pose proof (Z.div_mod (emails_per_day settings)
                    (emails_per_batch settings) E) as Hdm.
      pose proof (Z.mod_neg_bound (emails_per_day settings)
                    (emails_per_batch settings) ltac:(lia)) as Hb.
      nia.
Qed.

(** X2. The planner returns a plan for a list of recipients that is not
    empty only under settings with [0 < emails_per_batch <= emails_per_day],
    and that plan is not empty. *)
Theorem plan_needs_valid_settings (now : datetime) (fresh : uuid)
  (all_emails : list string) (the_subject the_body : string)
  (the_attachments : list string) (settings : ScheduleSettings)
  (fuel : nat) (bs : list EmailBatch) :
  _generate_batches now fresh all_emails the_subject the_body
                    the_attachments settings fuel = Done bs ->
  all_emails <> [] ->
  bs <> [] /\ valid_settings settings.
Proof. apply generate_batches_room. Qed.

Lemma plan_needs_valid_settings_witness :
  twenty_five_emails <> [] /\ valid_settings example_settings.
Proof.
  assert (E : _generate_batches thursday_noon 0%nat twenty_five_emails
                                "subject" "body" [] example_settings 20
              = Done (batches_of
                        (_generate_batches thursday_noon 0%nat
                           twenty_five_emails "subject" "body" []
                           example_settings 20)))
    by (vm_compute; reflexivity).
  split; [discriminate|].
  apply (plan_needs_valid_settings _ _ _ _ _ _ _ _ _ E). discriminate.
Defined.

(** ** The batches, one by one *)

Lemma lookup_snoc_inv {A} (l : list A) (x y : A) (k : nat) :
  (l ++ [x]) !! k = Some y ->
  l !! k = Some y \/ (k = List.length l /\ y = x).
Proof.
  intros H. destruct (decide (k < List.length l)%nat) as [Hlt|Hge].
  - left. now rewrite lookup_app_l in H.
  - right. rewrite lookup_app_r in H by lia.
    destruct (k - List.length l)%nat as [|n] eqn:E; cbn in H.
    + split; [lia|congruence].
    + destruct n; discriminate.
Qed.

Lemma chunk_inv_rule (now : datetime) (fresh : uuid)
  (all_emails : list string) (the_subject the_body : string)
  (the_attachments : list string) (settings : ScheduleSettings)
  (fuel : nat) (bs : list EmailBatch) :
  valid_settings settings ->
  _generate_batches now fresh all_emails the_subject the_body
                    the_attachments settings fuel = Done bs ->
  exists d i, chunk_inv all_emails settings d 0 bs i /\ len all_emails <= i.
Proof.
  intros [V1 V2] H.
  destruct (generate_batches_rule now fresh all_emails the_subject the_body
              the_attachments settings
              (fun _ _ => chunk_inv all_emails settings))
    with (fuel := fuel) (bs := bs)
    as (h & mi & d & i & _ & HP & Hi); try assumption.
  - intros; assumption.
  - intros h mi d j bs0 i (Hi & Hl & Hk) Hj _ (G1 & G2 & G3).
    assert (Ei : i = len bs0 * emails_per_batch settings) by lia.
    pose proof (len_nonneg bs0) as Hn.
    unfold chunk_inv, appended. rewrite len_app.
    set (b0 := new_batch _ _ _ _ _ _ _ _ _ _). change (len [b0]) with 1.
    repeat split.
    + rewrite len_slice_forward by nia. nia.
    + right. nia.
    + intros k b Hb. apply lookup_snoc_inv in Hb as [Hb|[-> ->]].
      * now apply Hk.
      * subst b0. cbn [new_batch emails]. fold (len bs0). now rewrite <- Ei.
  - intros; assumption.
  - intros. repeat split.
    + change (len []) with 0. pose proof (len_nonneg all_emails). lia.
    + now left.
    + intros k b Hb. destruct k; discriminate.
  - eauto.
Qed.

(** X3. Under valid settings the [k]-th batch of the plan holds the
    recipients [k * emails_per_batch] to [(k + 1) * emails_per_batch]: no
    batch is empty, every batch but the last one is full, and the plan has
    as many batches as the recipients need, whatever the days they fall
    on. *)
Theorem plan_is_chunked (now : datetime) (fresh : uuid)
  (all_emails : list string) (the_subject the_body : string)
  (the_attachments : list string) (settings : ScheduleSettings)
  (fuel : nat) (bs : list EmailBatch) :
  valid_settings settings ->
  _generate_batches now fresh all_emails the_subject the_body
                    the_attachments settings fuel = Done bs ->
  len bs
  = (len all_emails + emails_per_batch settings - 1)
    / emails_per_batch settings
  /\ forall (k : nat) (b : EmailBatch),
      bs !! k = Some b ->
      emails b
      = slice all_emails (Z.of_nat k * emails_per_batch settings)
              (Z.of_nat k * emails_per_batch settings
               + emails_per_batch settings)
      /\ 1 <= len (emails b)
      /\ ((S k < List.length bs)%nat ->
          len (emails b) = emails_per_batch settings).
Proof.
  intros Hv H. pose proof Hv as [V1 V2].
  apply chunk_inv_rule in H as (d & i & (Hi & Hl & Hk) & Hend); [|assumption].
  pose proof (len_nonneg all_emails) as Hn.
  assert (Hq : len all_emails <= len bs * emails_per_batch settings) by lia.
  split.
  - destruct Hl as [->|Hl].
    + change (len []) with 0 in *. symmetry. apply Z.div_small. lia.
    + apply Z.div_unique
        with (r := len all_emails - 1
                   - (len bs - 1) * emails_per_batch settings); lia.
  - intros k b Hb. pose proof (lookup_lt_Some _ _ _ Hb) as Hlt.
    destruct Hl as [->|Hl]; [cbn in Hlt; lia|].
    rewrite (Hk k b Hb). split; [reflexivity|].
    assert (Z.of_nat k <= len bs - 1) by (unfold len; lia).
    rewrite len_slice_forward by nia.
    split; [nia|]. intros Hs.
    assert (Z.of_nat k + 1 <= len bs - 1) by (unfold len; lia). nia.
Qed.

Lemma plan_is_chunked_witness :
  valid_settings example_settings
  /\ len (batches_of (_generate_batches thursday_noon 0%nat twenty_five_emails
                        "subject" "body" [] example_settings 20))
     = (len twenty_five_emails + 5 - 1) / 5.
Proof.
  assert (Hv : valid_settings example_settings)
    by (unfold valid_settings; cbn; lia).
  assert (E : _generate_batches thursday_noon 0%nat twenty_five_emails
                                "subject" "body" [] example_settings 20
              = Done (batches_of
                        (_generate_batches thursday_noon 0%nat
                           twenty_five_emails "subject" "body" []
                           example_settings 20)))
    by (vm_compute; reflexivity).
  split; [exact Hv|].
  exact (proj1 (plan_is_chunked _ _ _ _ _ _ _ _ _ Hv E)).
Defined.

Lemma fields_inv_rule (now : datetime) (fresh : uuid)
  (all_emails : list string) (the_subject the_body : string)
  (the_attachments : list string) (settings : ScheduleSettings)
  (fuel : nat) (bs : list EmailBatch) :
  _generate_batches now fresh all_emails the_subject the_body
                    the_attachments settings fuel = Done bs ->
  exists d i,
    fields_inv now fresh the_subject the_body the_attachments settings
               d 0 bs i.
Proof.
  intros H.
  destruct (generate_batches_rule now fresh all_emails the_subject the_body
              the_attachments settings
              (fun _ _ => fields_inv now fresh the_subject the_body
                                     the_attachments settings))
    with (fuel := fuel) (bs := bs)
    as (h & mi & d & i & _ & HP & Hi); try assumption.
  - intros; assumption.
  - intros h mi d j bs0 i HI Hj _ (G1 & G2 & G3) k b Hb.
    unfold appended in Hb. apply lookup_snoc_inv in Hb as [Hb|[-> ->]].
    + now apply HI.
    + unfold planned_fields, day_batch_number. cbn.
      repeat split; try reflexivity.
      exists (j + 1). unfold max_daily in G2. split; [reflexivity|lia].
  - intros; assumption.
  - intros h mi d _ _ k b Hb. destruct k; discriminate.
  - eauto.
Qed.

(** X4. Every batch of a plan is a fresh pending batch: the [k]-th one has
    the [k]-th identifier drawn by the call, the subject, body and
    attachments of the call, no attempt, no sending time and no error; its
    metadata record its number within its day, between 1 and
    [emails_per_day // emails_per_batch], that maximum, and the number of
    its recipients. *)
Theorem plan_batches_are_fresh (now : datetime) (fresh : uuid)
  (all_emails : list string) (the_subject the_body : string)
  (the_attachments : list string) (settings : ScheduleSettings)
  (fuel : nat) (bs : list EmailBatch) :
  _generate_batches now fresh all_emails the_subject the_body
                    the_attachments settings fuel = Done bs ->
  (forall (k : nat) (b : EmailBatch),
      bs !! k = Some b ->
      planned_fields now fresh the_subject the_body the_attachments
                     settings k b)
  /\ NoDup (map batch_id bs).
Proof.
  intros H. apply fields_inv_rule in H as (d & i & HI).
  split; [exact HI|].
  apply NoDup_alt. intros a c x Ha Hc.
  rewrite list_lookup_fmap in Ha, Hc.
  destruct (bs !! a) as [ba|] eqn:Ea; [|discriminate].
  destruct (bs !! c) as [bc|] eqn:Ec; [|discriminate].
  cbn in Ha, Hc.
  destruct (HI a ba Ea) as [Ia _]. destruct (HI c bc Ec) as [Ic _]. 
  assert (batch_id ba = batch_id bc) by congruence. lia.
Qed.

Lemma plan_batches_are_fresh_witness :
  NoDup (map batch_id
           (batches_of (_generate_batches thursday_noon 0%nat
                          twenty_five_emails "subject" "body" []
                          example_settings 20))).
Proof.
  assert (E : _generate_batches thursday_noon 0%nat twenty_five_emails
                                "subject" "body" [] example_settings 20
              = Done (batches_of
                        (_generate_batches thursday_noon 0%nat
                           twenty_five_emails "subject" "body" []
                           example_settings 20)))
    by (vm_compute; reflexivity).
  exact (proj2 (plan_batches_are_fresh _ _ _ _ _ _ _ _ _ E)).
Defined.

(** ** The times of neighbouring batches *)

Lemma last_lookup_pred {A} (l : list A) (x a : A) (k : nat) :
  l !! k = Some x -> S k = List.length l -> last l = Some a -> x = a.
Proof.
  intros Hk Hl Ha. rewrite last_lookup in Ha.
  replace (Nat.pred (List.length l)) with k in Ha by lia. congruence.
Qed.

Lemma spacing_inv_rule (now : datetime) (fresh : uuid)
  (all_emails : list string) (the_subject the_body : string)
  (the_attachments : list string) (settings : ScheduleSettings)
  (fuel : nat) (bs : list EmailBatch) :
  _generate_batches now fresh all_emails the_subject the_body
                    the_attachments settings fuel = Done bs ->
  exists h mi d i, spacing_inv settings h mi d 0 bs i.
Proof.
  intros H.
  destruct (generate_batches_rule now fresh all_emails the_subject the_body
              the_attachments settings (spacing_inv settings))
    with (fuel := fuel) (bs := bs)
    as (h & mi & d & i & _ & HP & Hi); try assumption.
  - intros h mi d bs0 i [Hp Hl] _ _ _. split; [assumption|].
    intros a Ha. destruct (Hl a Ha) as (da & ja & H0 & Ht & Hn & Hd).
    exists da, ja. repeat split; try assumption. right. lia.
  - intros h mi d j bs0 i [Hp Hl] Hj _ _. unfold appended.
    set (b0 := new_batch _ _ _ _ _ _ _ _ _ _).
    assert (Eb : scheduled_time b0 = slot_time settings h mi d j)
      by reflexivity.
    assert (En : day_batch_number b0 = Some (j + 1)) by reflexivity.
    split.
    + intros k a b Ha Hb.
      apply lookup_snoc_inv in Hb as [Hb|[Ek ->]].
      * apply lookup_snoc_inv in Ha as [Ha|[-> _]]; [now apply Hp with k|].
        apply lookup_lt_Some in Hb. lia.
      * apply lookup_snoc_inv in Ha as [Ha|[-> _]]; [|lia].
        destruct (last bs0) as [a'|] eqn:El.
        2:{ apply last_None in El. subst bs0. destruct k; discriminate. }
        assert (a = a') as <- by (now apply last_lookup_pred with bs0 k).
        destruct (Hl a eq_refl) as (da & ja & H0 & Ht & Hn & Hd).
        exists (ja + 1). split; [assumption|].
        rewrite Eb, En, Ht. unfold slot_time.
        destruct Hd as [[-> <-]|[Hlt ->]].
        -- left. split; [reflexivity|]. lia.
        -- right. split; [reflexivity|]. exists (d - da).
           split; [lia|]. unfold timedelta_days. lia.
    + intros a Ha. rewrite last_snoc in Ha. injection Ha as <-.
      exists d, j. repeat split; try assumption. left. lia.
  - intros h mi d j bs0 i [Hp Hl] Hj _ _. split; [assumption|].
    intros a Ha. destruct (Hl a Ha) as (da & ja & H0 & Ht & Hn & Hd).
    exists da, ja. repeat split; try assumption. right. lia.
  - intros h mi d _ _. split.
    + intros k a b Ha. destruct k; discriminate.
    + intros a Ha. discriminate.
  - eauto.
Qed.

(** X5. Of two batches that follow each other in a plan, the second one is
    either the next batch of the same day, scheduled exactly
    [batch_interval_minutes] after the first, or the first batch of a later
    day, scheduled a whole number of days after the time at which the day
    of the other began. *)
Theorem plan_spacing (now : datetime) (fresh : uuid)
  (all_emails : list string) (the_subject the_body : string)
  (the_attachments : list string) (settings : ScheduleSettings)
  (fuel : nat) (bs : list EmailBatch) :
  _generate_batches now fresh all_emails the_subject the_body
                    the_attachments settings fuel = Done bs ->
  forall (k : nat) (a b : EmailBatch),
    bs !! k = Some a -> bs !! S k = Some b -> follows settings a b.
Proof.
  intros H. apply spacing_inv_rule in H as (h & mi & d & i & [Hp _]).
  exact Hp.
Qed.

Lemma plan_spacing_witness :
  exists a b,
    batches_of (_generate_batches thursday_noon 0%nat twenty_five_emails
                  "subject" "body" [] example_settings 20) !! 1%nat = Some a
    /\ batches_of (_generate_batches thursday_noon 0%nat twenty_five_emails
                     "subject" "body" [] example_settings 20) !! 2%nat
       = Some b
    /\ follows example_settings a b.
Proof.
  assert (E : _generate_batches thursday_noon 0%nat twenty_five_emails
                                "subject" "body" [] example_settings 20
              = Done (batches_of
                        (_generate_batches thursday_noon 0%nat
                           twenty_five_emails "subject" "body" []
                           example_settings 20)))
    by (vm_compute; reflexivity).
  set (bs := batches_of _) in *.
  destruct (bs !! 1%nat) as [a|] eqn:Ea;
    [|exfalso; revert Ea; vm_compute; discriminate].
  destruct (bs !! 2%nat) as [b|] eqn:Eb;
    [|exfalso; revert Eb; vm_compute; discriminate].
  exists a, b. split; [reflexivity|]. split; [reflexivity|].
  exact (plan_spacing _ _ _ _ _ _ _ _ _ E 1%nat a b Ea Eb).
Defined.

(** ** Working days *)

(** X6. With [working_days_only] set, valid settings, an interval that is
    not negative and a start time from which the
    [emails_per_day // emails_per_batch] batches of a day all begin before
    midnight, no batch of the plan is scheduled on a Saturday or a Sunday.
    The default settings of the scheduler are such. *)
Theorem plan_keeps_working_days (now : datetime) (fresh : uuid)
  (all_emails : list string) (the_subject the_body : string)
  (the_attachments : list string) (settings : ScheduleSettings)
  (fuel : nat) (bs : list EmailBatch) (start_hour start_minute : Z) :
  valid_settings settings ->
  working_days_only settings = true ->
  0 <= batch_interval_minutes settings ->
  parse_start_time settings = Done (start_hour, start_minute) ->
  0 <= start_hour <= 23 -> 0 <= start_minute <= 59 ->
  start_hour * 60 + start_minute
  + (emails_per_day settings / emails_per_batch settings - 1)
    * batch_interval_minutes settings < 1440 ->
  _generate_batches now fresh all_emails the_subject the_body
                    the_attachments settings fuel = Done bs ->
  Forall (fun b => weekday (scheduled_time b) < 5) bs.
Proof.
  intros Hv Hw HI Hp Hh Hm Hfit H.
  assert (Hshift : slot_shift settings start_hour start_minute
                              (max_daily settings - 1) = 0).
  { destruct (max_daily_pos settings Hv) as [Hm1 _].
    unfold slot_shift, start_offset, max_daily in *.
    apply Z.div_small.
    unfold timedelta_minutes, us_per_hour, us_per_minute, us_per_day. nia. }
  unfold _generate_batches in H.
  destruct (_get_next_working_day fuel now) as [t| |] eqn:Ea;
    try discriminate.
  apply get_next_working_day_done in Ea as (d & -> & _ & _).
  cbn [bind] in H. rewrite Hp in H. cbn [bind] in H.
  eapply plan_loop_weekdays; eassumption.
Qed.

Lemma plan_keeps_working_days_witness :
  valid_settings default_settings
  /\ working_days_only default_settings = true
  /\ parse_start_time default_settings = Done (6, 0)
  /\ 6 * 60 + 0 + (499 / 10 - 1) * 5 < 1440
  /\ Forall (fun b => weekday (scheduled_time b) < 5)
            (batches_of (_generate_batches thursday_noon 0%nat
                           twenty_five_emails "subject" "body" []
                           default_settings 20)).
Proof.
  assert (Hv : valid_settings default_settings)
    by (unfold valid_settings; cbn; lia).
  assert (Hp : parse_start_time default_settings = Done (6, 0))
    by (vm_compute; reflexivity).
  assert (Hfit : 6 * 60 + 0 + (499 / 10 - 1) * 5 < 1440)
    by (vm_compute; reflexivity).
  assert (E : _generate_batches thursday_noon 0%nat twenty_five_emails
                                "subject" "body" [] default_settings 20
              = Done (batches_of
                        (_generate_batches thursday_noon 0%nat
                           twenty_five_emails "subject" "body" []
                           default_settings 20)))
    by (vm_compute; reflexivity).
  split; [exact Hv|]. split; [reflexivity|]. split; [exact Hp|].
  split; [exact Hfit|].
  apply (plan_keeps_working_days _ _ _ _ _ _ _ _ _ 6 0 Hv eq_refl
           ltac:(cbn; lia) Hp ltac:(lia) ltac:(lia) Hfit E).
Defined.

(** * Further properties of the engine *)

(** ** Creating a schedule *)

Lemma fold_min_le (rest : list EmailBatch) :
  forall m : Z,
    fold_left (fun m b => Z.min m (scheduled_time b)) rest m <= m
    /\ Forall (fun b => fold_left (fun m b => Z.min m (scheduled_time b)) rest m
                        <= scheduled_time b) rest.
Proof.
  induction rest as [|b rest IH]; intros m; cbn [fold_left].
  - split; [lia|constructor].
  - destruct (IH (Z.min m (scheduled_time b))) as [H1 H2]. split; [lia|].
    constructor; [lia|assumption].
Qed.

Lemma fold_max_ge (rest : list EmailBatch) :
  forall m : Z,
    m <= fold_left (fun m b => Z.max m (scheduled_time b)) rest m
    /\ Forall (fun b => scheduled_time b
                        <= fold_left (fun m b => Z.max m (scheduled_time b))
                                     rest m) rest.
Proof.
  induction rest as [|b rest IH]; intros m; cbn [fold_left].
  - split; [lia|constructor].
  - destruct (IH (Z.max m (scheduled_time b))) as [H1 H2]. split; [lia|].
    constructor; [lia|assumption].
Qed.

Lemma date_mono (s t : datetime) : s <= t -> date s <= date t.
Proof.
  intros H. unfold date. apply Z.div_le_mono; [|assumption].
  unfold us_per_day. lia.
Qed.



Lemma create_schedule_ok (fuel : nat) (now : datetime)
  (config : config_manager.ScheduleSettings) (self : SchedulerManager)
  (all_emails : list string) (the_subject the_body : string)
  (the_attachments : option (list string))
  (schedule_settings : option ScheduleSettings) (h mi : Z) :
  all_emails <> [] -> blank the_subject = false ->
  valid_settings (settings_used config schedule_settings) ->
  parse_start_time (settings_used config schedule_settings) = Done (h, mi) ->
  0 <= h <= 23 -> 0 <= mi <= 59 ->
  (plan_fuel (List.length all_emails) <= fuel)%nat ->
  exists self' result bs d,
    create_schedule fuel now config self all_emails the_subject the_body
                    the_attachments schedule_settings = Done (self', result)
    /\ success result = true
    /\ (heap self' = heap self ++ bs
        /\ active_batches self'
           = seq (List.length (heap self)) (List.length bs)
        /\ bs <> []
        /\ concat (map emails bs) = all_emails
        /\ Forall (fun b => status b = pending) bs)
    /\ (current_schedule self' = Some d
        /\ schedule_files self' = schedule_files self ++ [d]
        /\ sd_status d = created
        /\ sd_total_emails d = len all_emails
        /\ sd_settings d = settings_used config schedule_settings
        /\ schedule_id result = Some (sd_schedule_id d))
    /\ (completed_batches self' = completed_batches self
        /\ failed_batches self' = failed_batches self
        /\ is_running self' = is_running self
        /\ jobs self' = jobs self)
    /\ total_batches result = len bs
    /\ exists start stop,
        start_date result = Some start /\ end_date result = Some stop
        /\ Forall (fun b => start <= scheduled_time b <= stop) bs
        /\ total_days result = date stop - date start + 1
        /\ 1 <= total_days result.
Proof.
  intros Hne Hb Hv Hp Hh Hm Hf. unfold create_schedule.
  destruct all_emails as [|e0 es]; [congruence|]. rewrite Hb.
  fold (settings_used config schedule_settings).
  set (settings := settings_used config schedule_settings) in *.
  set (att := match the_attachments with Some l => l | None => [] end).
  destruct (generate_batches_returns now (next_uuid self) (e0 :: es)
              the_subject the_body att settings Hv h mi fuel Hf Hp Hh Hm)
    as [bs Eg].
  rewrite Eg.
  destruct (generate_batches_room _ _ _ _ _ _ _ _ _ Eg ltac:(discriminate))
    as [Hbs _].
  pose proof (generate_batches_pending _ _ _ _ _ _ _ _ _ Eg) as Hpend.
  destruct (generate_batches_inv now (next_uuid self) (e0 :: es) the_subject
              the_body att settings Hv fuel bs Eg)
    as (h' & mi' & d' & i & (Hi & Hc & _) & Hend).
  destruct bs as [|b rest]; [congruence|].
  destruct (fold_min_le rest (scheduled_time b)) as [Hmin1 Hmin2].
  destruct (fold_max_ge rest (scheduled_time b)) as [Hmax1 Hmax2].
  eexists _, _, (b :: rest), _. split; [reflexivity|].
  cbn [success heap active_batches current_schedule schedule_files
       completed_batches failed_batches is_running jobs total_batches
       start_date end_date total_days schedule_id sd_status sd_total_emails
       sd_settings sd_schedule_id].
  split; [reflexivity|]. split.
  { split; [reflexivity|]. split; [reflexivity|]. split; [discriminate|].
    split; [|assumption].
    rewrite Hc. apply firstn_all2. unfold len in *. lia. }
  split. { repeat split; reflexivity. }
  split. { repeat split; reflexivity. }
  split; [reflexivity|].
  eexists _, _. split; [reflexivity|]. split; [reflexivity|].
  unfold min_scheduled_time, max_scheduled_time.
  split; [|split; [reflexivity|]].
  - constructor; [lia|].
    apply List.Forall_forall. intros x Hx.
    rewrite List.Forall_forall in Hmin2, Hmax2.
    specialize (Hmin2 x Hx). specialize (Hmax2 x Hx). cbv beta in *. lia.
  - assert (date (fold_left (fun m b0 => Z.min m (scheduled_time b0)) rest
                            (scheduled_time b))
            <= date (fold_left (fun m b0 => Z.max m (scheduled_time b0)) rest
                               (scheduled_time b)))
      by (apply date_mono; lia).
    lia.
Qed.



(** ** Starting *)

Lemma schedule_batch_job (r : ref) (self : SchedulerManager) (b : EmailBatch) :
  heap self !! r = Some b ->
  jobs (_schedule_batch r self)
  = jobs self ++ [{| job_at := hour_minute (scheduled_time b);
                     job_batch := r |}].
Proof. intros H. unfold _schedule_batch. now rewrite H. Qed.

(** The loop of [start_schedule] over pending batches registers one job
    for each, in order, and touches nothing else. *)
Lemma arm_all (l : list ref) :
  forall self : SchedulerManager,
    Forall (fun r => status_of self r = Some pending) l ->
    let self' :=
      fold_left
        (fun s r =>
           match heap s !! r with
           | Some batch =>
               if decide (status batch = pending)
               then _schedule_batch r s else s
           | None => s
           end) l self in
    (heap self' = heap self
     /\ active_batches self' = active_batches self
     /\ completed_batches self' = completed_batches self
     /\ failed_batches self' = failed_batches self
     /\ current_schedule self' = current_schedule self
     /\ is_running self' = is_running self)
    /\ map Some (jobs self')
       = map Some (jobs self) ++ map (job_of (heap self)) l.
Proof.
  induction l as [|r l IH]; intros self Hl; cbn [fold_left].
  - cbn. rewrite app_nil_r. repeat split.
  - inversion Hl as [|? ? Hr Hl']; subst.
    unfold status_of, status_at in Hr.
    destruct (heap self !! r) as [b|] eqn:Eb; [|discriminate].
    cbn in Hr. injection Hr as Hr.
    destruct (decide (status b = pending)) as [_|]; [|contradiction].
    pose proof (schedule_batch_fields r self) as (F1 & F2 & F3 & F4 & F5 & F6).
    cbv zeta in F1.
    specialize (IH (_schedule_batch r self)).
    assert (Hl'' : Forall (fun r0 => status_of (_schedule_batch r self) r0
                                     = Some pending) l).
    { eapply Forall_impl; [exact Hl'|]. intros x Hx.
      unfold status_of in *. now rewrite F1. }
    destruct (IH Hl'') as ((G1 & G2 & G3 & G4 & G5 & G6) & GJ).
    split.
    + repeat split; congruence.
    + rewrite GJ, F1, (schedule_batch_job r self b Eb), map_app.
      cbn [map]. unfold job_of at 2. rewrite Eb. cbn [option_map].
      now rewrite <- app_assoc.
Qed.

(** X9. [start_schedule] is refused, and changes nothing, when there is no
    schedule or the scheduler is running.  Otherwise, in a state the
    manager can reach, it sets the running flag, marks the schedule as
    running from now, and registers exactly one job for each active batch,
    in their order, at the hour and minute of its scheduled time; the
    batches themselves are not changed. *)
Theorem start_arms_active_batches (now : datetime) (self : SchedulerManager) :
  reachable self ->
  (current_schedule self = None \/ is_running self = true ->
   start_schedule now self = (self, false))
  /\ (current_schedule self <> None -> is_running self = false ->
      let self' := fst (start_schedule now self) in
      snd (start_schedule now self) = true
      /\ is_running self' = true
      /\ map Some (jobs self')
         = map (job_of (heap self)) (active_batches self)
      /\ (heap self' = heap self
          /\ active_batches self' = active_batches self
          /\ completed_batches self' = completed_batches self
          /\ failed_batches self' = failed_batches self)
      /\ option_map sd_status (current_schedule self') = Some running
      /\ option_map sd_started_time (current_schedule self')
         = Some (Some now)).
Proof.
  intros Hr. apply reachable_inv in Hr. split.
  - unfold start_schedule. intros [E|E]; [now rewrite E|].
    rewrite E. now destruct (current_schedule self).
  - intros Hc Hn. unfold start_schedule.
    destruct (current_schedule self) as [d|] eqn:Ec; [|congruence].
    rewrite Hn. cbn [fst snd].
    pose proof (arm_all (active_batches self)
                  (set_jobs [] (set_is_running true self))
                  (inv_active self Hr))
      as ((G1 & G2 & G3 & G4 & G5 & G6) & GJ).
    cbv zeta in G1, G2, G3, G4, G5, G6, GJ.
    change (active_batches (set_jobs [] (set_is_running true self)))
      with (active_batches self).
    set (s2 := fold_left _ (active_batches self) _) in *.
    cbn [is_running jobs heap active_batches completed_batches failed_batches
         current_schedule set_current_schedule set_scheduler_thread].
    split; [reflexivity|]. split; [exact G6|].
    split; [exact GJ|].
    split; [repeat split; assumption|].
    rewrite G5. cbn. rewrite Ec. split; reflexivity.
Qed.

Lemma start_arms_active_batches_witness :
  reachable one_batch_created
  /\ current_schedule one_batch_created <> None
  /\ is_running one_batch_created = false
  /\ map Some (jobs (fst (start_schedule thursday_noon one_batch_created)))
     = map (job_of (heap one_batch_created))
           (active_batches one_batch_created).
Proof.
  assert (Hr : reachable one_batch_created).
  { unfold one_batch_created.
    destruct (create_schedule 10 thursday_noon config_manager.defaults __init__
                ["a@x.org"] "subject" "body" None None)
      as [[s r]| |] eqn:E; try constructor.
    eapply reach_create; [constructor|exact E]. }
  split; [exact Hr|]. split; [discriminate|]. split; [reflexivity|].
  exact (proj1 (proj2 (proj2
           (proj2 (start_arms_active_batches thursday_noon one_batch_created Hr)
                  ltac:(discriminate) eq_refl)))).
Defined.

(** ** Dispatching a batch *)

Lemma execute_ok_fields (now : datetime)
  (config : config_manager.ScheduleSettings) (r : ref)
  (self : SchedulerManager) (b : EmailBatch) :
  heap self !! r = Some b ->
  let self' := execute_batch now config SendOk r self in
  heap self' = <[r := record_sent now b]> (heap self)
  /\ active_batches self'
     = remove_first (same_batch (heap self') r) (active_batches self)
  /\ completed_batches self' = completed_batches self ++ [r]
  /\ failed_batches self' = failed_batches self
  /\ jobs self' = jobs self
  /\ is_running self' = is_running self
  /\ stats self' = count_sent (len (emails b)) (stats self)
  /\ next_uuid self' = next_uuid self.
Proof.
  intros H. unfold execute_batch. rewrite H. cbv zeta.
  unfold _update_schedule_status, remove_active.
  cbn [heap active_batches completed_batches failed_batches jobs is_running
       stats next_uuid current_schedule set_stats set_completed_batches
       set_heap set_active_batches set_current_schedule].
  destruct (current_schedule self) as [d|].
  2:{ cbn. repeat split. }
  destruct (remove_first _ _) eqn:E.
  2:{ cbn. rewrite <- E. repeat split. }
  destruct (0 <? _); cbn; rewrite <- ?E; repeat split.
Qed.

(** The schedule after a dispatch that returned: completed from now if no
    active batch is left, and as before otherwise. *)
Lemma execute_schedule (now : datetime)
  (config : config_manager.ScheduleSettings) (result : send_result)
  (r : ref) (self : SchedulerManager) (b : EmailBatch) (d : schedule_data) :
  heap self !! r = Some b -> current_schedule self = Some d ->
  let self' := execute_batch now config result r self in
  current_schedule self'
  = match result with
    | SendRaised _ => Some d
    | _ =>
        match active_batches self' with
        | [] => Some (sd_set_completed_time now (sd_set_status completed d))
        | _ :: _ => Some d
        end
    end.
Proof.
  intros H Hd. unfold execute_batch. rewrite H. cbv zeta.
  destruct result as [|msg|msg].
  - unfold _update_schedule_status, remove_active.
    cbn [heap active_batches completed_batches failed_batches jobs is_running
         stats next_uuid current_schedule set_stats set_completed_batches
         set_heap set_active_batches set_current_schedule].
    rewrite Hd. destruct (remove_first _ _) eqn:E; [|cbn; exact Hd].
    rewrite len_app. change (len [r]) with 1. change (len []) with 0.
    pose proof (len_nonneg (completed_batches self)).
    pose proof (len_nonneg (failed_batches self)).
    replace (0 <? _) with true by (symmetry; apply Z.ltb_lt; lia).
    reflexivity.
  - match goal with
    | |- context [_update_schedule_status now (remove_active r ?s)] =>
        set (self2 := s)
    end.
    assert (E2 : current_schedule self2 = Some d
                 /\ failed_batches self2 = failed_batches self ++ [r]).
    { subst self2.
      match goal with
      | |- context [if ?c then _schedule_retry now config r ?s else _] =>
          set (self1 := s); destruct c
      end.
      - destruct (schedule_retry_running now config r self1) as [_ ->].
        split; [exact Hd|].
        unfold _schedule_retry.
        destruct (heap self1 !! r); [|reflexivity].
        cbv zeta.
        match goal with
        | |- failed_batches (_schedule_batch ?x ?s) = _ =>
            destruct (schedule_batch_fields x s) as (_ & _ & _ & -> & _)
        end.
        reflexivity.
      - split; [exact Hd|]. reflexivity. }
    destruct E2 as [E2 E3].
    unfold _update_schedule_status.
    destruct (remove_active_fields r self2) as (_ & F2 & F3 & _ & _ & F6).
    cbv zeta in F2, F3, F6. rewrite F6, E2, F2, F3, E3.
    destruct (active_batches (remove_active r self2)) eqn:E.
    + rewrite len_app. change (len [r]) with 1. change (len []) with 0.
      pose proof (len_nonneg (completed_batches self2)).
      pose proof (len_nonneg (failed_batches self)).
      replace (0 <? _) with true by (symmetry; apply Z.ltb_lt; lia).
      cbn [current_schedule set_current_schedule active_batches]. now rewrite E.
    + now rewrite E.
  - exact Hd.
Qed.

Lemma execute_ok_active (now : datetime)
  (config : config_manager.ScheduleSettings) (r : ref)
  (self : SchedulerManager) :
  engine_inv self -> In r (active_batches self) ->
  let self' := execute_batch now config SendOk r self in
  exists b,
    heap self !! r = Some b /\ status b = pending
    /\ ~ In r (active_batches self')
    /\ forall x, x <> r ->
                 In x (active_batches self') <-> In x (active_batches self).
Proof.
  intros Hinv Hin.
  pose proof (inv_active self Hinv) as Hact.
  rewrite List.Forall_forall in Hact.
  pose proof (Hact r Hin) as Hr. unfold status_of, status_at in Hr.
  destruct (heap self !! r) as [b|] eqn:Eb; [|discriminate].
  cbn in Hr. injection Hr as Hr.
  destruct (execute_ok_fields now config r self b Eb)
    as (F1 & F2 & _). cbv zeta. exists b.
  split; [reflexivity|]. split; [assumption|].
  rewrite F2, F1.
  assert (Hlt : (r < List.length (heap self))%nat)
    by (eapply lookup_lt_Some; exact Eb).
  assert (Hother : forall x, In x (active_batches self) -> x <> r ->
                             same_batch (<[r := record_sent now b]> (heap self))
                                        r x = false).
  { intros x Hx Hne.
    apply same_batch_other with (b := record_sent now b).
    - assumption.
    - now apply list_lookup_insert_eq.
    - discriminate.
    - rewrite (status_at_insert _ _ _ b) by assumption.
      destruct (decide (x = r)); [contradiction|]. apply (Hact x Hx). }
  split.
  - apply remove_first_hit.
    + apply (inv_nodup self Hinv).
    + apply same_batch_self.
    + assumption.
  - intros x Hne. split.
    + apply remove_first_In.
    + intros Hx. apply remove_first_keep; [assumption|]. now apply Hother.
Qed.

(** X10. A successful dispatch of an active batch, in a state the manager
    can reach: the batch was pending and is now sent, at the time of the
    dispatch; it leaves the active batches, which are otherwise as before,
    and is appended to the completed ones; the statistics count one batch
    and its recipients more; no other batch object changes. *)
Theorem dispatch_success (now : datetime)
  (config : config_manager.ScheduleSettings) (r : ref)
  (self : SchedulerManager) :
  reachable self -> In r (active_batches self) ->
  let self' := execute_batch now config SendOk r self in
  exists b,
    (heap self !! r = Some b /\ status b = pending)
    /\ (heap self' !! r = Some (record_sent now b)
        /\ status (record_sent now b) = sent
        /\ sent_time (record_sent now b) = Some now
        /\ forall x, x <> r -> heap self' !! x = heap self !! x)
    /\ (~ In r (active_batches self')
        /\ forall x, x <> r ->
                     In x (active_batches self')
                     <-> In x (active_batches self))
    /\ completed_batches self' = completed_batches self ++ [r]
    /\ failed_batches self' = failed_batches self
    /\ stats self' = count_sent (len (emails b)) (stats self).
Proof.
  intros Hr Hin. apply reachable_inv in Hr.
  destruct (execute_ok_active now config r self Hr Hin)
    as (b & Eb & Hp & Hout & Hrest).
  destruct (execute_ok_fields now config r self b Eb)
    as (F1 & _ & F3 & F4 & _ & _ & F7 & _).
  cbv zeta in *. exists b. split; [split; assumption|].
  split.
  { rewrite F1. split.
    - apply list_lookup_insert_eq. eapply lookup_lt_Some. exact Eb.
    - split; [reflexivity|]. split; [reflexivity|].
      intros x Hx. now apply lookup_insert_other. }
  split; [split; assumption|]. repeat split; assumption.
Qed.

Lemma dispatch_success_witness :
  reachable one_batch_started
  /\ In 0%nat (active_batches one_batch_started)
  /\ completed_batches
       (execute_batch thursday_noon config_manager.defaults SendOk 0%nat
                      one_batch_started)
     = completed_batches one_batch_started ++ [0%nat].
Proof.
  split; [exact one_batch_started_reachable|].
  split; [left; reflexivity|].
  destruct (dispatch_success thursday_noon config_manager.defaults 0%nat
              one_batch_started one_batch_started_reachable
              ltac:(left; reflexivity))
    as (b & _ & _ & _ & H & _).
  exact H.
Defined.



(** ** Jobs that stay registered *)

(** X12. A dispatch does not take its job out of the registry, and the
    end of a round of the scheduler leaves the manager as it is while
    another batch is active.  So the job is still registered then, and
    nothing in it looks at the status of its batch: if it is run again, and
    the sending succeeds again, the batch is a second time among the
    completed batches, its recipients are counted a second time in the
    statistics, and its sending time is that of the second run. *)
Theorem job_runs_again (now1 now2 now3 : datetime)
  (config : config_manager.ScheduleSettings) (j : job)
  (self : SchedulerManager) (b : EmailBatch) :
  In j (jobs self) -> heap self !! job_batch j = Some b ->
  let once := execute_batch now1 config SendOk (job_batch j) self in
  let later := scheduler_round_end now2 once in
  let twice := execute_batch now3 config SendOk (job_batch j) later in
  In j (jobs once)
  /\ (active_batches once <> [] ->
      later = once
      /\ In j (jobs later)
      /\ completed_batches twice
         = completed_batches self ++ [job_batch j; job_batch j]
      /\ total_batches_sent (stats twice)
         = total_batches_sent (stats self) + 2
      /\ total_emails_sent (stats twice)
         = total_emails_sent (stats self) + 2 * len (emails b)
      /\ heap twice !! job_batch j
         = Some (record_sent now3 (record_sent now1 b))).
Proof.
  intros Hj Eb.
  assert (Hlt : (job_batch j < List.length (heap self))%nat)
    by (eapply lookup_lt_Some; exact Eb).
  destruct (execute_ok_fields now1 config (job_batch j) self b Eb)
    as (F1 & _ & F3 & _ & F5 & _ & F7 & _).
  cbv zeta in *.
  set (once := execute_batch now1 config SendOk (job_batch j) self) in *.
  assert (Hj1 : In j (jobs once)) by (now rewrite F5).
  split; [exact Hj1|]. intros Hact.
  assert (El : scheduler_round_end now2 once = once).
  { unfold scheduler_round_end.
    destruct (active_batches once); [congruence|reflexivity]. }
  rewrite El.
  assert (Eb1 : heap once !! job_batch j = Some (record_sent now1 b)).
  { rewrite F1. now apply list_lookup_insert_eq. }
  destruct (execute_ok_fields now3 config (job_batch j) once _ Eb1)
    as (G1 & _ & G3 & _ & _ & _ & G7 & _).
  cbv zeta in *.
  split; [reflexivity|]. split; [exact Hj1|].
  split; [now rewrite G3, F3, <- app_assoc|].
  rewrite G7, F7. cbn. split; [lia|]. split; [lia|].
  rewrite G1. apply list_lookup_insert_eq.
  rewrite F1, length_insert. assumption.
Qed.

Lemma job_runs_again_witness :
  (exists j b,
      In j (jobs two_days_started) /\ job_batch j = 0%nat
      /\ heap two_days_started !! 0%nat = Some b)
  /\ active_batches
       (execute_batch thursday_noon config_manager.defaults SendOk 0%nat
          two_days_started) = [1%nat]
  /\ completed_batches
       (execute_batch thursday_noon config_manager.defaults SendOk 0%nat
          (scheduler_round_end thursday_noon
             (execute_batch thursday_noon config_manager.defaults SendOk
                0%nat two_days_started)))
     = [0%nat; 0%nat].
Proof.
  assert (Hj : In {| job_at := (9, 0); job_batch := 0%nat |}
                  (jobs two_days_started)) by (left; reflexivity).
  assert (Ha : active_batches
                 (execute_batch thursday_noon config_manager.defaults SendOk
                    0%nat two_days_started) = [1%nat])
    by (vm_compute; reflexivity).
  assert (Hb : exists b, heap two_days_started !! 0%nat = Some b)
    by (vm_compute; eexists; reflexivity).
  destruct Hb as [b Eb].
  split; [eexists _, b; split; [exact Hj|split; [reflexivity|exact Eb]]|].
  split; [exact Ha|].
  destruct (proj2 (job_runs_again thursday_noon thursday_noon thursday_noon
                     config_manager.defaults _ two_days_started b Hj Eb))
    as (_ & _ & H & _).
  { cbn [job_batch]. rewrite Ha. discriminate. }
  exact H.
Defined.

(** ** A run in which every sending succeeds *)

Lemma recipients_ext (h h' : list EmailBatch) (l : list ref) :
  (forall x, In x l -> h' !! x = h !! x) -> recipients h' l = recipients h l.
Proof.
  induction l as [|r l IH]; intros H; cbn [recipients fold_right];
    [reflexivity|].
  fold (recipients h' l). fold (recipients h l).
  rewrite IH by (intros x Hx; apply H; now right).
  now rewrite (H r) by now left.
Qed.

Lemma dispatch_all_spec (clock : ref -> datetime)
  (config : config_manager.ScheduleSettings) (l : list ref) :
  forall self : SchedulerManager,
    engine_inv self -> active_batches self = l ->
    let s' := dispatch_all clock config l self in
    (active_batches s' = []
     /\ completed_batches s' = completed_batches self ++ l
     /\ failed_batches s' = failed_batches self
     /\ jobs s' = jobs self
     /\ is_running s' = is_running self)
    /\ (forall r, In r l ->
                  exists b, heap self !! r = Some b
                            /\ status b = pending
                            /\ heap s' !! r = Some (record_sent (clock r) b))
    /\ (forall x, ~ In x l -> heap s' !! x = heap self !! x)
    /\ total_batches_sent (stats s') = total_batches_sent (stats self) + len l
    /\ total_emails_sent (stats s')
       = total_emails_sent (stats self) + recipients (heap self) l.
Proof.
  induction l as [|r l IH]; intros self Hinv Hact; cbn [dispatch_all fold_left].
  - rewrite app_nil_r. change (len []) with 0. cbn [recipients fold_right].
    repeat split; try assumption; try lia. intros r [].
  - fold (dispatch_all clock config l
            (execute_batch (clock r) config SendOk r self)).
    set (s1 := execute_batch (clock r) config SendOk r self).
    assert (Hin : In r (active_batches self)) by (rewrite Hact; now left).
    pose proof (inv_active self Hinv) as Hp.
    rewrite List.Forall_forall in Hp. specialize (Hp r Hin).
    unfold status_of, status_at in Hp.
    destruct (heap self !! r) as [b|] eqn:Eb; [|discriminate].
    cbn in Hp. injection Hp as Hp.
    destruct (execute_ok_fields (clock r) config r self b Eb)
      as (F1 & F2 & F3 & F4 & F5 & F6 & F7 & _).
    cbv zeta in F1, F2, F3, F4, F5, F6, F7. fold s1 in F1, F2, F3, F4, F5, F6, F7.
    assert (Hact1 : active_batches s1 = l).
    { rewrite F2, Hact. cbn [remove_first]. now rewrite same_batch_self. }
    assert (Hinv1 : engine_inv s1) by (now apply execute_batch_inv).
    pose proof (inv_nodup self Hinv) as Hnd. rewrite Hact in Hnd.
    apply NoDup_cons in Hnd as [Hnotin Hnd].
    assert (Hnotin' : ~ In r l) by (intros ?; apply Hnotin; now apply list_elem_of_In).
    destruct (IH s1 Hinv1 Hact1)
      as ((G1 & G2 & G3 & G4 & G5) & Gin & Gout & Gn & Ge).
    cbv zeta in *.
    assert (Hsame : forall x, x <> r -> heap s1 !! x = heap self !! x).
    { intros x Hx. rewrite F1. now apply lookup_insert_other. }
    split.
    { split; [exact G1|]. split; [now rewrite G2, F3, <- app_assoc|].
      repeat split; congruence. }
    split.
    { intros x [<-|Hx].
      - exists b. split; [assumption|]. split; [assumption|].
        rewrite (Gout r Hnotin'), F1. apply list_lookup_insert_eq.
        eapply lookup_lt_Some. exact Eb.
      - destruct (Gin x Hx) as (b' & E1 & E2 & E3). exists b'.
        rewrite <- (Hsame x) by (intros ->; contradiction). auto. }
    split.
    { intros x Hx. rewrite Gout by (intros ?; apply Hx; now right).
      apply Hsame. intros ->. apply Hx. now left. }
    rewrite Gn, Ge, F7. cbn [count_sent total_batches_sent total_emails_sent].
    change (r :: l) with ([r] ++ l). rewrite len_app. change (len [r]) with 1.
    split; [lia|].
    cbn [recipients fold_right app]. rewrite Eb.
    fold (recipients (heap self) l).
    rewrite (recipients_ext (heap self) (heap s1) l)
      by (intros x Hx; apply Hsame; intros ->; contradiction).
    lia.
Qed.

Lemma dispatch_all_schedule (clock : ref -> datetime)
  (config : config_manager.ScheduleSettings) (l : list ref)
  (d : schedule_data) :
  forall self : SchedulerManager,
    l <> [] -> engine_inv self -> active_batches self = l ->
    current_schedule self = Some d ->
    exists t,
      current_schedule (dispatch_all clock config l self)
      = Some (sd_set_completed_time t (sd_set_status completed d)).
Proof.
  induction l as [|r l IH]; intros self Hne Hinv Hact Hd; [congruence|].
  cbn [dispatch_all fold_left].
  fold (dispatch_all clock config l
          (execute_batch (clock r) config SendOk r self)).
  set (s1 := execute_batch (clock r) config SendOk r self).
  assert (Hin : In r (active_batches self)) by (rewrite Hact; now left).
  pose proof (inv_active self Hinv) as Hp.
  rewrite List.Forall_forall in Hp. specialize (Hp r Hin).
  unfold status_of, status_at in Hp.
  destruct (heap self !! r) as [b|] eqn:Eb; [|discriminate].
  destruct (execute_ok_fields (clock r) config r self b Eb) as (_ & F2 & _).
  cbv zeta in F2. fold s1 in F2.
  assert (Hact1 : active_batches s1 = l).
  { rewrite F2, Hact. cbn [remove_first]. now rewrite same_batch_self. }
  pose proof (execute_schedule (clock r) config SendOk r self b d Eb Hd) as E.
  cbv zeta in E. fold s1 in E. rewrite Hact1 in E.
  destruct l as [|r2 l].
  - exists (clock r). exact E.
  - apply IH; try assumption; [discriminate|].
    now apply execute_batch_inv.
Qed.

Lemma dispatch_all_reachable (clock : ref -> datetime)
  (config : config_manager.ScheduleSettings) (l : list ref) :
  forall self : SchedulerManager,
    reachable self ->
    (forall r, In r l -> exists j, In j (jobs self) /\ job_batch j = r) ->
    reachable (dispatch_all clock config l self).
Proof.
  induction l as [|r l IH]; intros self Hr Hj; [exact Hr|].
  cbn [dispatch_all fold_left].
  fold (dispatch_all clock config l
          (execute_batch (clock r) config SendOk r self)).
  destruct (Hj r ltac:(now left)) as (j & Hin & <-).
  apply IH; [now apply reach_execute|].
  intros x Hx. destruct (Hj x ltac:(now right)) as (j' & Hin' & <-).
  exists j'. split; [|reflexivity].
  pose proof (reachable_inv self Hr) as Hinv.
  pose proof (inv_jobs self Hinv) as Hjobs.
  rewrite List.Forall_forall in Hjobs. specialize (Hjobs j Hin).
  destruct (lookup_lt_is_Some_2 _ _ Hjobs) as [b Eb].
  destruct (execute_ok_fields (clock (job_batch j)) config (job_batch j) self b Eb)
    as (_ & _ & _ & _ & F5 & _).
  cbv zeta in F5. now rewrite F5.
Qed.

(** X13. A run without failure.  From a state the manager can reach, with a
    schedule and active batches that each have a job, let the jobs of the
    active batches run in the order of the batches, every sending
    succeeding.  Then every one of those batches is sent, at the time of
    its dispatch, and has moved to the completed batches, in order; no
    batch is active or newly failed; the statistics have grown by the
    number of batches and by the number of their recipients; the schedule
    is completed; and the scheduler thread, at the end of its round, clears
    the running flag and the jobs and leaves the schedule completed. *)
Theorem successful_run (clock : ref -> datetime) (now : datetime)
  (config : config_manager.ScheduleSettings) (self : SchedulerManager) :
  reachable self ->
  current_schedule self <> None ->
  active_batches self <> [] ->
  (forall r, In r (active_batches self) ->
             exists j, In j (jobs self) /\ job_batch j = r) ->
  let ran := dispatch_all clock config (active_batches self) self in
  let ended := scheduler_round_end now ran in
  reachable ran
  /\ (active_batches ran = []
      /\ completed_batches ran
         = completed_batches self ++ active_batches self
      /\ failed_batches ran = failed_batches self)
  /\ (forall r, In r (active_batches self) ->
                exists b, heap self !! r = Some b
                          /\ heap ran !! r = Some (record_sent (clock r) b))
  /\ (total_batches_sent (stats ran)
      = total_batches_sent (stats self) + len (active_batches self)
      /\ total_emails_sent (stats ran)
         = total_emails_sent (stats self)
           + recipients (heap self) (active_batches self))
  /\ option_map sd_status (current_schedule ran) = Some completed
  /\ (is_running self = true ->
      is_running ended = false /\ jobs ended = []
      /\ current_schedule ended = current_schedule ran
      /\ heap ended = heap ran).
Proof.
  intros Hr Hc Hne Hj. pose proof (reachable_inv self Hr) as Hinv.
  destruct (current_schedule self) as [d|] eqn:Ed; [|congruence].
  destruct (dispatch_all_spec clock config (active_batches self) self Hinv
              eq_refl)
    as ((G1 & G2 & G3 & G4 & G5) & Gin & Gout & Gn & Ge).
  destruct (dispatch_all_schedule clock config (active_batches self) d self
              Hne Hinv eq_refl Ed) as [t Hs].
  cbv zeta in *.
  set (ran := dispatch_all clock config (active_batches self) self) in *.
  split; [now apply dispatch_all_reachable|].
  split; [repeat split; assumption|].
  split.
  { intros r Hin. destruct (Gin r Hin) as (b & E1 & _ & E2). eauto. }
  split; [split; assumption|].
  split; [now rewrite Hs|].
  intros Hrun. unfold scheduler_round_end. rewrite G1, G5, Hrun.
  rewrite stop_from_scheduler_thread by (now rewrite G5).
  repeat split.
Qed.

Lemma successful_run_witness :
  reachable one_batch_started
  /\ current_schedule one_batch_started <> None
  /\ active_batches one_batch_started = [0%nat]
  /\ option_map sd_status
       (current_schedule
          (dispatch_all (fun _ => thursday_noon) config_manager.defaults
             (active_batches one_batch_started) one_batch_started))
     = Some completed.
Proof.
  split; [exact one_batch_started_reachable|].
  split; [discriminate|]. split; [reflexivity|].
  refine (proj1 (proj2 (proj2 (proj2 (proj2
            (successful_run (fun _ => thursday_noon) thursday_noon
               config_manager.defaults one_batch_started
               one_batch_started_reachable _ _ _)))))).
  - discriminate.
  - discriminate.
  - intros r [<-|[]].
    exists {| job_at := (6, 0); job_batch := 0%nat |}.
    split; [left; reflexivity|reflexivity].
Defined.

(** ** Pausing and resuming *)







(** X15. A schedule that was stopped cannot be resumed: [resume_schedule]
    returns [False] and changes nothing.  It can be started again, if there
    is one; the scheduler then runs with no active batch and no job. *)
Theorem stopped_schedule_is_not_resumed (now1 now2 : datetime)
  (self : SchedulerManager) :
  is_running self = true ->
  let halted := fst (stop_schedule now1 OtherThread self) in
  resume_schedule now2 halted = (halted, false)
  /\ (current_schedule self <> None ->
      snd (start_schedule now2 halted) = true
      /\ is_running (fst (start_schedule now2 halted)) = true
      /\ jobs (fst (start_schedule now2 halted)) = []
      /\ active_batches (fst (start_schedule now2 halted)) = []).
Proof.
  intros Hrun. unfold stop_schedule. rewrite Hrun. cbn [negb fst].
  set (s2 := set_current_schedule _ _).
  destruct (cancel_all (active_batches s2) s2)
    as (_ & _ & _ & F4 & F5 & _).
  cbv zeta in F4, F5.
  set (halted := set_active_batches [] _).
  assert (Ec : current_schedule halted
               = option_map
                   (fun d => sd_set_stopped_time now1 (sd_set_status stopped d))
                   (current_schedule self)).
  { subst halted. cbn [current_schedule set_active_batches]. rewrite F4.
    reflexivity. }
  assert (Er : is_running halted = false).
  { subst halted. cbn [is_running set_active_batches]. rewrite F5.
    reflexivity. }
  split.
  - unfold resume_schedule. rewrite Ec.
    destruct (current_schedule self) as [d|]; [|reflexivity].
    cbn [option_map sd_status sd_set_stopped_time sd_set_status].
    destruct (decide (stopped = paused)); [discriminate|reflexivity].
  - intros Hc. unfold start_schedule. rewrite Ec, Er.
    destruct (current_schedule self) as [d|]; [|congruence].
    cbn [option_map fst snd].
    change (active_batches (set_jobs [] (set_is_running true halted)))
      with (@nil ref).
    cbn. repeat split.
Qed.

Lemma stopped_schedule_is_not_resumed_witness :
  is_running one_batch_started = true
  /\ snd (resume_schedule thursday_noon
            (fst (stop_schedule thursday_noon OtherThread one_batch_started)))
     = false.
Proof.
  split; [reflexivity|].
  rewrite (proj1 (stopped_schedule_is_not_resumed thursday_noon thursday_noon
                    one_batch_started eq_refl)).
  reflexivity.
Defined.

(** ** The status report *)

Lemma earliest_fold (h : list EmailBatch) (l : list ref) :
  forall acc : option EmailBatch,
    Forall (fun r => is_Some (h !! r)) l ->
    let step := fun (best : option EmailBatch) (r : ref) =>
                  match best, h !! r with
                  | None, b => b
                  | Some a, Some b =>
                      if scheduled_time b <? scheduled_time a
                      then Some b else Some a
                  | Some a, None => Some a
                  end in
    match fold_left step l acc with
    | None => acc = None /\ l = []
    | Some b =>
        (acc = Some b \/ exists r, In r l /\ h !! r = Some b)
        /\ (forall a, acc = Some a -> scheduled_time b <= scheduled_time a)
        /\ forall r b', In r l -> h !! r = Some b' ->
                        scheduled_time b <= scheduled_time b'
    end.
Proof.
  induction l as [|r l IH]; intros acc Hl step; cbn [fold_left].
  - destruct acc as [a|]; [|split; reflexivity].
    split; [now left|]. split.
    + intros a' E. injection E as <-. lia.
    + intros r b' [].
  - inversion Hl as [|? ? [b Eb] Hl']; subst.
    specialize (IH (step acc r) Hl'). cbv zeta in IH. fold step in IH.
    destruct (fold_left step l (step acc r)) as [m|] eqn:Ef.
    + destruct IH as (Hsrc & Hacc & Hall).
      assert (Hstep : exists s, step acc r = Some s
                                /\ scheduled_time s <= scheduled_time b
                                /\ (forall a, acc = Some a ->
                                              scheduled_time s
                                              <= scheduled_time a)
                                /\ (acc = Some s \/ s = b)).
      { unfold step. rewrite Eb. destruct acc as [a|].
        - destruct (scheduled_time b <? scheduled_time a) eqn:E.
          + apply Z.ltb_lt in E. exists b. repeat split; try lia; [|now right].
            intros a' Ea. injection Ea as <-. lia.
          + apply Z.ltb_ge in E. exists a. repeat split; try lia; [|now left].
            intros a' Ea. injection Ea as <-. lia.
        - exists b. repeat split; try lia; [discriminate|now right]. }
      destruct Hstep as (s & Es & Hsb & Hsa & Hsrc').
      specialize (Hacc s Es).
      split; [|split].
      * destruct Hsrc as [E|(x & Hx & Ex)].
        -- rewrite Es in E. injection E as ->.
           destruct Hsrc' as [Hs | ->]; [now left|].
           right. exists r. split; [now left|assumption].
        -- right. exists x. split; [now right|assumption].
      * intros a Ea. specialize (Hsa a Ea). lia.
      * intros x b' [<-|Hx] Ex; [|now apply (Hall x)].
        rewrite Eb in Ex. injection Ex as <-. lia.
    + destruct IH as [E _]. unfold step in E. rewrite Eb in E.
      destruct acc as [a|]; [|discriminate].
      destruct (scheduled_time b <? scheduled_time a); discriminate.
Qed.

(** X16. The report of [get_current_schedule_status], in a state the
    manager can reach: there is one exactly when there is a schedule; its
    total is the sum of its three counts; and its next batch is that of an
    active batch, pending, whose scheduled time is the least of the times
    of the active batches (none when no batch is active). *)
Theorem status_reports_earliest (self : SchedulerManager) :
  reachable self ->
  (get_current_schedule_status self = None <-> current_schedule self = None)
  /\ forall snap,
      get_current_schedule_status self = Some snap ->
      snap_total_batches snap
      = snap_completed_batches snap + snap_failed_batches snap
        + snap_pending_batches snap
      /\ snap_pending_batches snap = len (active_batches self)
      /\ (active_batches self = [] -> snap_next_batch snap = None)
      /\ (active_batches self <> [] ->
          exists r b,
            In r (active_batches self) /\ heap self !! r = Some b
            /\ status b = pending
            /\ snap_next_batch snap
               = Some (batch_id b, scheduled_time b, len (emails b))
            /\ forall r' b',
                In r' (active_batches self) -> heap self !! r' = Some b' ->
                scheduled_time b <= scheduled_time b').
Proof.
  intros Hr. pose proof (reachable_inv self Hr) as Hinv.
  unfold get_current_schedule_status.
  destruct (current_schedule self) as [d|]; [|split; [tauto|discriminate]].
  split; [split; discriminate|].
  intros snap E. injection E as <-.
  cbn [snap_total_batches snap_completed_batches snap_failed_batches
       snap_pending_batches snap_next_batch].
  split; [reflexivity|]. split; [reflexivity|].
  pose proof (inv_active self Hinv) as Hact.
  assert (Hsome : Forall (fun r => is_Some (heap self !! r))
                         (active_batches self)).
  { eapply Forall_impl; [exact Hact|]. intros r Hp.
    unfold status_of, status_at in Hp.
    destruct (heap self !! r); [eauto|discriminate]. }
  pose proof (earliest_fold (heap self) (active_batches self) None Hsome) as He.
  cbv zeta in He. fold (earliest (heap self) (active_batches self)) in He.
  split.
  - intros ->. reflexivity.
  - intros Hne.
    destruct (earliest (heap self) (active_batches self)) as [b|].
    + destruct He as ([?|(r & Hin & Eb)] & _ & Hmin); [discriminate|].
      exists r, b. split; [assumption|]. split; [assumption|].
      split.
      { rewrite List.Forall_forall in Hact. specialize (Hact r Hin).
        unfold status_of, status_at in Hact. rewrite Eb in Hact.
        cbn in Hact. congruence. }
      split; [reflexivity|exact Hmin].
    + destruct He as [_ E]. congruence.
Qed.

Lemma status_reports_earliest_witness :
  reachable one_batch_started
  /\ exists snap,
      get_current_schedule_status one_batch_started = Some snap
      /\ snap_pending_batches snap = len (active_batches one_batch_started).
Proof.
  split; [exact one_batch_started_reachable|].
  destruct (get_current_schedule_status one_batch_started) as [snap|] eqn:E;
    [|exfalso; revert E; vm_compute; discriminate].
  exists snap. split; [reflexivity|].
  exact (proj1 (proj2 (proj2 (status_reports_earliest one_batch_started
                                one_batch_started_reachable) snap E))).
Defined.

(** ** What holds in every state *)

(** X17. In every state the manager can reach: the active batches are
    pending and no batch is twice among them; every completed or failed
    batch has a status other than pending; every registered job runs a
    batch that is in the store; and every batch of the three collections
    is in the store. *)
Theorem manager_invariant (self : SchedulerManager) :
  reachable self ->
  (forall r, In r (active_batches self) -> status_of self r = Some pending)
  /\ NoDup (active_batches self)
  /\ (forall r,
        In r (completed_batches self) \/ In r (failed_batches self) ->
        exists s, status_of self r = Some s /\ s <> pending)
  /\ (forall j, In j (jobs self) -> is_Some (heap self !! job_batch j))
  /\ (forall r, managed self r -> is_Some (heap self !! r)).
Proof.
  intros Hr. pose proof (reachable_inv self Hr) as [H1 H2 H3 H4 H5].
  rewrite List.Forall_forall in H1, H3, H4, H5.
  assert (Hc : forall r,
             In r (completed_batches self) \/ In r (failed_batches self) ->
             exists s, status_of self r = Some s /\ s <> pending).
  { intros r [H|H]; [apply (H3 r H)|apply (H4 r H)]. }
  repeat split; try assumption.
  - intros j Hj. apply lookup_lt_is_Some_2. now apply H5.
  - intros r [H|H].
    + specialize (H1 r H). unfold status_of, status_at in H1.
      destruct (heap self !! r); [eauto|discriminate].
    + destruct (Hc r H) as (s & Hs & _). unfold status_of, status_at in Hs.
      destruct (heap self !! r); [eauto|discriminate].
Qed.

Lemma manager_invariant_witness :
  reachable one_batch_started
  /\ In 0%nat (active_batches one_batch_started)
  /\ status_of one_batch_started 0%nat = Some pending.
Proof.
  split; [exact one_batch_started_reachable|].
  assert (H : In 0%nat (active_batches one_batch_started))
    by (left; reflexivity).
  split; [exact H|].
  exact (proj1 (manager_invariant one_batch_started
                  one_batch_started_reachable) 0%nat H).
Defined.

(** X18. In every state the manager can reach, a running scheduler has a
    schedule; so [get_active_schedule_count] is one exactly when the
    running flag is set, and zero otherwise. *)
Theorem running_scheduler_has_schedule (self : SchedulerManager) :
  reachable self ->
  (is_running self = true -> current_schedule self <> None)
  /\ get_active_schedule_count self = (if is_running self then 1 else 0).
Proof.
  intros Hr. pose proof (reachable_running self Hr) as H.
  split; [exact H|]. unfold get_active_schedule_count.
  destruct (is_running self).
  - destruct (current_schedule self); [reflexivity|].
    now specialize (H eq_refl).
  - now destruct (current_schedule self).
Qed.

Lemma running_scheduler_has_schedule_witness :
  reachable one_batch_started
  /\ get_active_schedule_count one_batch_started
     = (if is_running one_batch_started then 1 else 0).
Proof.
  split; [exact one_batch_started_reachable|].
  exact (proj2 (running_scheduler_has_schedule one_batch_started
                  one_batch_started_reachable)).
Defined.

(** ** The health check *)

(** X19. [health_check] is not a read-only test.  On a manager that has
    its email processor and its configuration manager it returns [True]
    and, by its call of [schedule.clear()], leaves no job registered: after
    it, in a state the manager could reach, no batch can be dispatched,
    though the active batches are still pending, the running flag and the
    schedule are as before, and the scheduler thread, which stops only
    when no batch is active, goes on.  Without one of the two objects it
    returns [False] and changes nothing. *)
Theorem health_check_clears_jobs (now : datetime)
  (email_processor config_manager : bool) (self : SchedulerManager) :
  reachable self ->
  let checked := fst (health_check email_processor config_manager self) in
  (email_processor && config_manager = false ->
   health_check email_processor config_manager self = (self, false))
  /\ (email_processor && config_manager = true ->
      snd (health_check email_processor config_manager self) = true
      /\ jobs checked = []
      /\ (heap checked = heap self
          /\ active_batches checked = active_batches self
          /\ is_running checked = is_running self
          /\ current_schedule checked = current_schedule self)
      /\ (forall r, In r (active_batches checked) ->
                    status_of checked r = Some pending)
      /\ (active_batches self <> [] ->
          scheduler_round_end now checked = checked)).
Proof.
  intros Hr. pose proof (reachable_inv self Hr) as Hinv.
  unfold health_check. cbv zeta.
  destruct email_processor, config_manager; cbn [negb andb fst snd];
    (split; [intros E; try discriminate; reflexivity|]);
    intros E; try discriminate.
  repeat split.
  - pose proof (inv_active self Hinv) as Hact.
    rewrite List.Forall_forall in Hact. exact Hact.
  - intros Hne. unfold scheduler_round_end.
    cbn [active_batches set_jobs].
    destruct (active_batches self); [congruence|reflexivity].
Qed.

Lemma health_check_clears_jobs_witness :
  reachable one_batch_started
  /\ jobs one_batch_started <> []
  /\ jobs (fst (health_check true true one_batch_started)) = [].
Proof.
  split; [exact one_batch_started_reachable|]. split; [discriminate|].
  exact (proj1 (proj2 (proj2 (health_check_clears_jobs thursday_noon true true
                                one_batch_started
                                one_batch_started_reachable) eq_refl))).
Defined.

(** * The configuration and the planner *)

Lemma append_if_nil (c : bool) (msg : string) (l : list string) :
  config_manager.append_if c msg l = [] -> c = false /\ l = [].
Proof.
  unfold config_manager.append_if. destruct c; [|auto].
  intros H. now apply app_eq_nil in H as [_ H].
Qed.

(** A start time that [validate_config] does not flag is one the planner
    reads as a time of day. *)
Lemma time_format_ok (c : config_manager.ScheduleSettings) :
  config_manager.time_format_error (config_manager.start_time c) = false ->
  exists h mi,
    parse_start_time (settings_of_config c) = Done (h, mi)
    /\ 0 <= h <= 23 /\ 0 <= mi <= 59.
Proof.
  unfold config_manager.time_format_error, parse_start_time.
  cbn [start_time settings_of_config].
  destruct (split (config_manager.start_time c) ":") as [|a [|b [|? ?]]];
    try discriminate.
  destruct (int a) as [h|]; [|discriminate].
  destruct (int b) as [mi|]; [|discriminate].
  intros H. apply negb_false_iff in H.
  rewrite !andb_true_iff, !Z.leb_le in H.
  exists h, mi. split; [reflexivity|lia].
Qed.

(** A start time that it flags makes the planner raise [ValueError], at the
    parsing or at the first day. *)
Lemma time_format_bad (now : datetime) (fresh : uuid)
  (all_emails : list string) (the_subject the_body : string)
  (the_attachments : list string) (c : config_manager.ScheduleSettings)
  (fuel : nat) :
  config_manager.time_format_error (config_manager.start_time c) = true ->
  config_manager.emails_per_batch c <> 0 ->
  all_emails <> [] -> (3 <= fuel)%nat ->
  _generate_batches now fresh all_emails the_subject the_body
                    the_attachments (settings_of_config c) fuel
  = Raise ValueError.
Proof.
  intros Ht Hb Hne Hf. unfold _generate_batches.
  destruct (get_next_working_day_total fuel now Hf) as [t Ea]. rewrite Ea.
  apply get_next_working_day_done in Ea as (d & -> & _ & Hw).
  cbn [bind].
  unfold config_manager.time_format_error in Ht. unfold parse_start_time.
  cbn [start_time settings_of_config].
  destruct (split (config_manager.start_time c) ":") as [|a [|b [|? ?]]];
    try reflexivity.
  destruct (int a) as [h|]; [|reflexivity].
  destruct (int b) as [mi|]; [|reflexivity].
  cbn [bind]. destruct fuel as [|fuel]; [lia|]. cbn [plan_loop].
  assert (Hlen : 0 < len all_emails).
  { destruct all_emails; [congruence|]. unfold len. cbn. lia. }
  replace (0 <? len all_emails) with true by (symmetry; apply Z.ltb_lt; lia).
  replace (5 <=? weekday (timedelta_days d)) with false
    by (symmetry; apply Z.leb_gt; lia).
  rewrite andb_false_r.
  cbn [emails_per_batch settings_of_config].
  replace (config_manager.emails_per_batch c =? 0) with false
    by (symmetry; now apply Z.eqb_neq).
  unfold replace_hour_minute. apply negb_true_iff in Ht. now rewrite Ht.
Qed.

(** With a start time that is a time of day and a batch size other than
    zero, the planner raises nothing. *)
Lemma plan_loop_raises_nothing (now : datetime) (fresh : uuid)
  (all_emails : list string) (the_subject the_body : string)
  (the_attachments : list string) (settings : ScheduleSettings)
  (h mi : Z) (fuel : nat) :
  emails_per_batch settings <> 0 ->
  0 <= h <= 23 -> 0 <= mi <= 59 ->
  forall bs i current_date e,
    plan_loop now fresh all_emails the_subject the_body the_attachments
              settings fuel h mi bs i current_date <> Raise e.
Proof.
  intros Hb Hh Hm.
  induction fuel as [|fuel IH]; intros bs i cd e; cbn [plan_loop];
    [discriminate|].
  destruct (i <? len all_emails); [|discriminate].
  destruct (working_days_only settings && (5 <=? weekday cd)); [apply IH|].
  destruct (emails_per_batch settings =? 0) eqn:Ez;
    [apply Z.eqb_eq in Ez; contradiction|].
  unfold replace_hour_minute.
  replace ((0 <=? h) && (h <=? 23) && (0 <=? mi) && (mi <=? 59))
    with true by (symmetry; rewrite !andb_true_iff, !Z.leb_le; lia).
  destruct (day_loop _ _ _ _ _ _ _ _ _ _ _ _ _ _) as [bs1 i1]. apply IH.
Qed.

Lemma start_time_flagged (cfg : config_manager.ConfigManager) :
  In "Start time must be in HH:MM format (00:00 to 23:59)"
     (config_manager.errors (config_manager.validate_config cfg))
  <-> config_manager.time_format_error
        (config_manager.start_time (config_manager.schedule_settings cfg))
      = true.
Proof.
  unfold config_manager.validate_config.
  cbn [config_manager.errors].
  destruct (config_manager.time_format_error _);
    destruct (_ <? _); destruct (_ || _); destruct (_ || _);
    destruct (blank _); cbn; intuition discriminate.
Qed.

(** X20. The start time check of [validate_config] and the planner agree
    on a start time of at most nine ASCII characters: for a configuration
    whose batch size is not zero, a list of recipients that is not empty and
    a time [now] with three days of calendar after it, the configuration is
    reported with the error "Start time must be in HH:MM format (00:00 to
    23:59)" exactly when the planner, run on the schedule settings of that
    configuration, raises [ValueError]. *)
Theorem start_time_check_agrees_with_planner (now : datetime) (fresh : uuid)
  (all_emails : list string) (the_subject the_body : string)
  (the_attachments : list string) (cfg : config_manager.ConfigManager)
  (fuel : nat) :
  short_ascii
    (config_manager.start_time (config_manager.schedule_settings cfg)) ->
  representable now -> date now + 3 <= max_ordinal ->
  config_manager.emails_per_batch (config_manager.schedule_settings cfg) <> 0 ->
  all_emails <> [] -> (3 <= fuel)%nat ->
  In "Start time must be in HH:MM format (00:00 to 23:59)"
     (config_manager.errors (config_manager.validate_config cfg))
  <-> _generate_batches now fresh all_emails the_subject the_body
                        the_attachments
                        (settings_of_config
                           (config_manager.get_schedule_settings cfg))
                        fuel
      = Raise ValueError.
Proof.
  intros _ _ _ Hb Hne Hf. rewrite start_time_flagged.
  unfold config_manager.get_schedule_settings.
  set (c := config_manager.schedule_settings cfg) in *.
  split.
  - intros Ht. now apply time_format_bad.
  - intros Hraise.
    destruct (config_manager.time_format_error (config_manager.start_time c))
      eqn:Ht; [reflexivity|exfalso].
    apply time_format_ok in Ht as (h & mi & Hp & Hh & Hm).
    unfold _generate_batches in Hraise.
    destruct (_get_next_working_day fuel now) as [t|e|] eqn:Ea;
      cbn [bind] in Hraise; try discriminate.
    + rewrite Hp in Hraise. cbn [bind] in Hraise. revert Hraise.
      now apply plan_loop_raises_nothing.
    + revert Ea. apply skip_weekend_no_raise.
Qed.

Lemma start_time_check_agrees_with_planner_witness :
  short_ascii
    (config_manager.start_time
       (config_manager.schedule_settings config_manager.__init__))
  /\ (representable thursday_noon /\ date thursday_noon + 3 <= max_ordinal)
  /\ config_manager.emails_per_batch
       (config_manager.schedule_settings config_manager.__init__) <> 0
  /\ six_emails <> [] /\ (3 <= 20)%nat
  /\ _generate_batches thursday_noon 0%nat six_emails "subject" "body" []
                       (settings_of_config
                          (config_manager.get_schedule_settings
                             config_manager.__init__)) 20
     <> Raise ValueError.
Proof.
  assert (H0 : short_ascii
                 (config_manager.start_time
                    (config_manager.schedule_settings
                       config_manager.__init__)))
    by (split; [reflexivity|cbn; lia]).
  assert (Hn : representable thursday_noon)
    by (unfold representable; vm_compute; split; discriminate).
  assert (Hr : date thursday_noon + 3 <= max_ordinal)
    by (vm_compute; discriminate).
  assert (H1 : config_manager.emails_per_batch
                 (config_manager.schedule_settings config_manager.__init__)
               <> 0) by discriminate.
  assert (H2 : six_emails <> []) by discriminate.
  assert (H3 : (3 <= 20)%nat) by lia.
  split; [exact H0|]. split; [split; [exact Hn|exact Hr]|].
  split; [exact H1|]. split; [exact H2|]. split; [exact H3|].
  intros H.
  apply (start_time_check_agrees_with_planner thursday_noon 0%nat six_emails
           "subject" "body" [] config_manager.__init__ 20 H0 Hn Hr H1 H2 H3)
    in H.
  revert H. vm_compute. intuition discriminate.
Defined.

(** X21. A configuration that [validate_config] reports without errors can
    be planned.  With a default subject and a subject of ASCII characters,
    a start time of at most nine ASCII characters and room in the calendar
    for the plan, [create_schedule], given no settings of its own, succeeds
    on every list of recipients that is not empty and every subject that is
    not blank, and in the plan no batch has more than 100 recipients and no
    day more than 1000. *)
Theorem validated_config_can_be_planned (fuel : nat) (now : datetime)
  (cfg : config_manager.ConfigManager) (self : SchedulerManager)
  (all_emails : list string) (the_subject the_body : string)
  (the_attachments : option (list string)) :
  isascii (config_manager.default_subject (config_manager.email_settings cfg))
  = true ->
  short_ascii
    (config_manager.start_time (config_manager.schedule_settings cfg)) ->
  config_manager.errors (config_manager.validate_config cfg) = [] ->
  all_emails <> [] ->
  isascii the_subject = true -> blank the_subject = false ->
  calendar_room now (len all_emails) 3 ->
  (plan_fuel (List.length all_emails) <= fuel)%nat ->
  exists self' result bs,
    create_schedule fuel now (config_manager.get_schedule_settings cfg) self
                    all_emails the_subject the_body the_attachments None
    = Done (self', result)
    /\ success result = true
    /\ heap self' = heap self ++ bs
    /\ active_batches self' = seq (List.length (heap self)) (List.length bs)
    /\ concat (map emails bs) = all_emails
    /\ Forall (fun b => len (emails b) <= 100) bs
    /\ forall day : datetime, day_email_count bs day <= 1000.
Proof.
  intros _ _ He Hne _ Hb _ Hf. unfold config_manager.validate_config in He.
  cbn [config_manager.errors] in He.
  apply append_if_nil in He as [Ht He].
  apply append_if_nil in He as [H1 He].
  apply append_if_nil in He as [H2 He].
  apply append_if_nil in He as [H3 _].
  unfold config_manager.get_schedule_settings.
  set (c := config_manager.schedule_settings cfg) in *. clearbody c.
  apply Z.ltb_ge in H1. apply orb_false_iff in H2 as [H2 H2'].
  apply orb_false_iff in H3 as [H3 H3'].
  apply Z.ltb_ge in H2, H2', H3, H3'.
  apply time_format_ok in Ht as (h & mi & Hp & Hh & Hm).
  assert (Hv : valid_settings (settings_used c None)).
  { unfold valid_settings. cbn. lia. }
  destruct (create_schedule_ok fuel now c self all_emails the_subject
              the_body the_attachments None h mi Hne Hb Hv Hp Hh Hm Hf)
    as (self' & result & bs & d & Hc & Hs & (G1 & G2 & _ & G4 & _) & _).
  exists self', result, bs.
  split; [exact Hc|]. split; [exact Hs|]. split; [exact G1|].
  split; [exact G2|]. split; [exact G4|].
  (* the caps, from the invariant of the planner *)
  unfold create_schedule in Hc.
  destruct all_emails as [|e0 es]; [congruence|]. rewrite Hb in Hc.
  set (att := match the_attachments with Some l => l | None => [] end) in *.
  destruct (_generate_batches now (next_uuid self) (e0 :: es) the_subject
              the_body att (settings_of_config c) fuel)
    as [bs0| |] eqn:Eg; try discriminate.
  2:{ injection Hc as <- <-. discriminate. }
  destruct bs0 as [|b0 rest]; [injection Hc as <- <-; discriminate|].
  assert (bs = b0 :: rest) as ->.
  { injection Hc as Hself _. rewrite <- Hself in G1. cbn [heap] in G1.
    now apply app_inv_head in G1. }
  destruct (generate_batches_inv now (next_uuid self) (e0 :: es) the_subject
              the_body att (settings_of_config c) Hv fuel _ Eg)
    as (h' & mi' & d' & i & HI & _).
  split.
  - destruct HI as (_ & _ & Hsz & _).
    eapply Forall_impl; [exact Hsz|]. cbv beta.
    cbn [emails_per_batch settings_of_config]. intros x Hx. lia.
  - intros day.
    pose proof (plan_inv_day (e0 :: es) (settings_of_config c) h' mi' Hv
                  d' 0 _ i day HI) as Hd.
    cbn [emails_per_day settings_of_config] in Hd. lia.
Qed.

Lemma validated_config_can_be_planned_witness :
  config_manager.errors (config_manager.validate_config config_manager.__init__)
  = []
  /\ short_ascii
       (config_manager.start_time
          (config_manager.schedule_settings config_manager.__init__))
  /\ calendar_room thursday_noon (len six_emails) 3
  /\ exists self' result,
      create_schedule 30 thursday_noon
        (config_manager.get_schedule_settings config_manager.__init__)
        __init__ six_emails "subject" "body" None None
      = Done (self', result)
      /\ success result = true.
Proof.
  assert (He : config_manager.errors
                 (config_manager.validate_config config_manager.__init__)
               = []) by (vm_compute; reflexivity).
  assert (Hs : short_ascii
                 (config_manager.start_time
                    (config_manager.schedule_settings
                       config_manager.__init__)))
    by (split; [reflexivity|cbn; lia]).
  assert (Hc : calendar_room thursday_noon (len six_emails) 3)
    by (unfold calendar_room, representable; vm_compute;
        repeat split; discriminate).
  split; [exact He|]. split; [exact Hs|]. split; [exact Hc|].
  destruct (validated_config_can_be_planned 30 thursday_noon
              config_manager.__init__ __init__ six_emails "subject" "body"
              None eq_refl Hs He ltac:(discriminate) eq_refl eq_refl Hc
              ltac:(cbn; lia))
    as (self' & result & bs & H1 & H2 & _).
  exists self', result. split; assumption.
Defined.

(** * The list of emails *)

(** ** Duplicates *)

Lemma filter_filter {A} (p q : A -> bool) (l : list A) :
  List.filter p (List.filter q l) = List.filter (fun x => q x && p x) l.
Proof.
  induction l as [|a l IH]; cbn; [reflexivity|].
  destruct (q a); cbn; [destruct (p a)|]; now rewrite IH.
Qed.

Lemma filter_true {A} (p : A -> bool) (l : list A) :
  (forall x, In x l -> p x = true) -> List.filter p l = l.
Proof.
  induction l as [|a l IH]; intros H; cbn; [reflexivity|].
  rewrite (H a) by now left. f_equal. apply IH. intros x Hx. apply H.
  now right.
Qed.

Lemma dedup_fold (l : list string) :
  forall (seen : gset string) (acc : list string),
    (fold_left email_processor.dedup_step l (seen, acc)).2
    = acc ++ List.filter (fun y => negb (bool_decide (y ∈ seen)))
                         (first_occurrences (map normalise l)).
Proof.
  induction l as [|e l IH]; intros seen acc; cbn [fold_left map].
  - cbn. now rewrite app_nil_r.
  - unfold email_processor.dedup_step at 2. cbn [fst snd].
    fold (normalise e). cbn [first_occurrences List.filter].
    destruct (bool_decide (normalise e ∈ seen)) eqn:E; cbn [negb].
    + rewrite IH. f_equal. rewrite filter_filter.
      apply List.filter_ext_in. intros y _.
      destruct (String.eqb_spec y (normalise e)) as [->|]; cbn;
        [now rewrite E|reflexivity].
    + rewrite IH, <- app_assoc. cbn [app]. do 2 f_equal.
      rewrite filter_filter. apply List.filter_ext_in. intros y _.
      destruct (String.eqb_spec y (normalise e)) as [->|Hne]; cbn.
      * rewrite bool_decide_eq_true_2
          by (apply elem_of_union; left; now apply elem_of_singleton).
        reflexivity.
      * destruct (bool_decide (y ∈ seen)) eqn:Ey.
        -- apply bool_decide_eq_true_1 in Ey.
           rewrite bool_decide_eq_true_2
             by (apply elem_of_union; now right).
           reflexivity.
        -- apply bool_decide_eq_false_1 in Ey.
           rewrite bool_decide_eq_false_2; [reflexivity|].
           intros [H|H]%elem_of_union; [|contradiction].
           now apply elem_of_singleton in H.
Qed.

Lemma first_occurrences_In (l : list string) (a : string) :
  In a (first_occurrences l) <-> In a l.
Proof.
  induction l as [|x l IH]; cbn; [tauto|].
  rewrite List.filter_In, IH.
  destruct (String.eqb_spec a x) as [->|Hne]; cbn; [tauto|].
  intuition congruence.
Qed.

Lemma first_occurrences_NoDup (l : list string) :
  List.NoDup (first_occurrences l).
Proof.
  induction l as [|x l IH]; cbn; constructor.
  - rewrite List.filter_In. intros [_ H]. now rewrite String.eqb_refl in H.
  - now apply List.NoDup_filter.
Qed.

Lemma first_occurrences_length (l : list string) :
  (List.length (first_occurrences l) <= List.length l)%nat.
Proof.
  induction l as [|x l IH]; cbn; [lia|].
  pose proof (List.filter_length_le
                (fun y => negb (String.eqb y x)) (first_occurrences l)).
  lia.
Qed.

(** ** Validation in runs *)

Lemma validate_fold (is_valid : string -> bool) (l : list string) :
  forall v i : list email_processor.EmailData,
    fold_left (email_processor.validate_step is_valid) l (v, i)
    = (v ++ map (fun a => email_processor.new_email a true)
                (List.filter is_valid l),
       i ++ map (fun a => email_processor.new_email a false)
                (List.filter (fun a => negb (is_valid a)) l)).
Proof.
  induction l as [|a l IH]; intros v i; cbn [fold_left List.filter map].
  - now rewrite !app_nil_r.
  - unfold email_processor.validate_step at 2. cbn [fst snd].
    destruct (is_valid a); cbn [negb map]; rewrite IH, <- app_assoc;
      reflexivity.
Qed.

Lemma fold_runs {A S} (step : S -> A -> S) (run : Z -> list A)
  (starts : list Z) :
  forall st : S,
    fold_left (fun st i => fold_left step (run i) st) starts st
    = fold_left step (flat_map run starts) st.
Proof.
  induction starts as [|i starts IH]; intros st; cbn [fold_left flat_map];
    [reflexivity|].
  now rewrite IH, fold_left_app.
Qed.

(** The runs of [step] elements from the starts of [range_from_zero] are
    the list, cut in pieces. *)
Lemma runs_cover {A} (u : list A) (step : Z) (m : nat) :
  0 < step -> (Z.of_nat m - 1) * step < Z.max 1 (len u) ->
  flat_map (fun i => slice u i (i + step))
           (map (fun k => Z.of_nat k * step) (seq 0 m))
  = firstn (Z.to_nat (Z.min (Z.of_nat m * step) (len u))) u.
Proof.
  intros Hs. induction m as [|m IH]; intros Hm.
  - cbn [seq map flat_map].
    replace (Z.to_nat _) with O by (pose proof (len_nonneg u); lia).
    reflexivity.
  - rewrite seq_S, map_app, flat_map_app. cbn [map flat_map Nat.add].
    rewrite app_nil_r.
    pose proof (len_nonneg u) as Hn.
    destruct (Z.eq_dec (len u) 0) as [E0|E0].
    { assert (u = []) as ->
        by (destruct u; [reflexivity|unfold len in E0; cbn in E0; lia]).
      assert (m = O) as -> by nia.
      unfold slice. cbn [seq map flat_map app].
      now rewrite skipn_nil, !firstn_nil. }
    rewrite IH by nia.
    assert (Hle : Z.of_nat m * step <= len u) by nia.
    replace (Z.min (Z.of_nat m * step) (len u)) with (Z.of_nat m * step)
      by lia.
    rewrite firstn_slice by nia.
    rewrite len_slice_forward by nia. f_equal. lia.
Qed.

Lemma range_cover {A} (u : list A) (step : Z) (starts : list Z) :
  0 < step -> range_from_zero (len u) step = Some starts ->
  flat_map (fun i => slice u i (i + step)) starts = u.
Proof.
  intros Hs. unfold range_from_zero.
  replace (step =? 0) with false by (symmetry; apply Z.eqb_neq; lia).
  replace (step <? 0) with false by (symmetry; apply Z.ltb_ge; lia).
  intros E. injection E as <-.
  pose proof (len_nonneg u) as Hn.
  set (q := (len u + step - 1) / step).
  assert (Hq : step * q <= len u + step - 1 < step * q + step).
  { pose proof (Z.div_mod (len u + step - 1) step ltac:(lia)) as Hd.
    pose proof (Z.mod_pos_bound (len u + step - 1) step Hs) as Hb.
    fold q in Hd. lia. }
  assert (Hq0 : 0 <= q) by (apply Z.div_pos; lia).
  rewrite runs_cover by (try assumption; rewrite Z2Nat.id by lia; nia).
  rewrite Z2Nat.id by lia.
  apply firstn_all2. unfold len in *. nia.
Qed.

(** X22. [_process_email_list], on addresses of ASCII characters and with
    a batch size above zero (it is 1000): every address is put in lower
    case and stripped, and of equal addresses the first is kept; each
    address that is left is validated once, whatever the runs of a hundred
    it is validated in, and the list of emails holds the valid ones, in
    their order, followed by the invalid ones.  So no address is twice in
    the list, the addresses of the list are those that were given, and the
    counts of the result add up. *)
Theorem process_email_list_keeps_first_occurrences
  (is_valid : string -> bool) (self : email_processor.EmailProcessor)
  (raw_emails : list string) :
  Forall (fun email => isascii email = true) raw_emails ->
  0 < email_processor.batch_size self ->
  let unique := first_occurrences (map normalise raw_emails) in
  exists self' result,
    email_processor._process_email_list is_valid self raw_emails
    = Done (self', result)
    /\ email_processor.email_list self'
       = map (fun a => email_processor.new_email a true)
             (List.filter is_valid unique)
         ++ map (fun a => email_processor.new_email a false)
                (List.filter (fun a => negb (is_valid a)) unique)
    /\ List.NoDup (map email_processor.address
                       (email_processor.email_list self'))
    /\ (forall a,
          In a (map email_processor.address
                    (email_processor.email_list self'))
          <-> In a (map normalise raw_emails))
    /\ map email_processor.address (email_processor.get_valid_emails self')
       = List.filter is_valid unique
    /\ (email_processor.processed_count result = len raw_emails
        /\ email_processor.unique_emails result = len unique
        /\ email_processor.valid_emails result
           + email_processor.invalid_emails result = len unique
        /\ email_processor.duplicates_removed result
           = len raw_emails - len unique
        /\ 0 <= email_processor.duplicates_removed result).
Proof.
  intros _ Hb unique. unfold email_processor._process_email_list.
  rewrite (dedup_fold raw_emails ∅ []). cbn [app].
  rewrite filter_true by (intros x _; reflexivity).
  fold unique.
  set (step := Z.min (email_processor.batch_size self) 100).
  assert (Hs : 0 < step) by (unfold step; lia).
  destruct (range_from_zero (len unique) step) as [starts|] eqn:Er.
  2:{ unfold range_from_zero in Er.
      replace (step =? 0) with false in Er
        by (symmetry; apply Z.eqb_neq; lia).
      destruct (step <? 0); discriminate. }
  rewrite (fold_runs (email_processor.validate_step is_valid)
                     (fun i => slice unique i (i + step))).
  rewrite (range_cover unique step starts Hs Er), validate_fold.
  cbn [app].
  set (v := List.filter is_valid unique).
  set (i := List.filter (fun a => negb (is_valid a)) unique).
  eexists _, _. split; [reflexivity|].
  cbn [email_processor.email_list email_processor.processed_count
       email_processor.unique_emails email_processor.valid_emails
       email_processor.invalid_emails email_processor.duplicates_removed].
  split; [reflexivity|].
  assert (Eaddr : map email_processor.address
                      (map (fun a => email_processor.new_email a true) v
                       ++ map (fun a => email_processor.new_email a false) i)
                  = v ++ i).
  { rewrite map_app, !map_map. cbn. now rewrite !map_id. }
  assert (Hin : forall a, In a (v ++ i) <-> In a unique).
  { intros a. rewrite in_app_iff. unfold v, i. rewrite !List.filter_In.
    destruct (is_valid a); cbn; intuition congruence. }
  split.
  { rewrite Eaddr. apply List.NoDup_app.
    - apply List.NoDup_filter, first_occurrences_NoDup.
    - apply List.NoDup_filter, first_occurrences_NoDup.
    - intros a Hv Hi. unfold v, i in *. rewrite List.filter_In in Hv, Hi.
      destruct Hv as [_ Hv]. destruct Hi as [_ Hi]. rewrite Hv in Hi.
      discriminate. }
  split.
  { intros a. rewrite Eaddr, Hin. apply first_occurrences_In. }
  split.
  { unfold email_processor.get_valid_emails.
    cbn [email_processor.email_list]. rewrite List.filter_app.
    rewrite (filter_true _ (map _ v))
      by (intros x Hx; apply in_map_iff in Hx as (a & <- & _); reflexivity).
    replace (List.filter _ (map _ i)) with (@nil email_processor.EmailData).
    2:{ symmetry. clear. induction i as [|a i IH]; [reflexivity|exact IH]. }
    rewrite app_nil_r, map_map. cbn. apply map_id. }
  assert (Hlen : len v + len i = len unique).
  { unfold v, i, len. clear.
    induction unique as [|a u IH]; cbn; [reflexivity|].
    destruct (is_valid a); cbn; lia. }
  assert (Hmap : forall (f : string -> email_processor.EmailData) l,
             len (map f l) = len l)
    by (intros; unfold len; now rewrite length_map).
  rewrite !Hmap.
  repeat split; try lia.
  pose proof (first_occurrences_length (map normalise raw_emails)) as Hl.
  rewrite length_map in Hl. unfold unique, len. lia.
Qed.

Lemma process_email_list_keeps_first_occurrences_witness :
  Forall (fun email => isascii email = true)
         ["A@x.org "; "a@x.org"; "b@x.org"]
  /\ 0 < email_processor.batch_size email_processor.__init__
  /\ exists self' result,
      email_processor._process_email_list
        (fun _ => true) email_processor.__init__
        ["A@x.org "; "a@x.org"; "b@x.org"]
      = Done (self', result)
      /\ map email_processor.address (email_processor.email_list self')
         = ["a@x.org"; "b@x.org"].
Proof.
  assert (Ha : Forall (fun email => isascii email = true)
                      ["A@x.org "; "a@x.org"; "b@x.org"])
    by (repeat constructor).
  assert (H : 0 < email_processor.batch_size email_processor.__init__)
    by (cbn; lia).
  split; [exact Ha|]. split; [exact H|].
  destruct (process_email_list_keeps_first_occurrences
              (fun _ => true) email_processor.__init__
              ["A@x.org "; "a@x.org"; "b@x.org"] Ha H)
    as (self' & result & H1 & H2 & _).
  exists self', result. split; [exact H1|]. rewrite H2. vm_compute.
  reflexivity.
Defined.

(** ** Sending *)

Lemma update_status_address (now : datetime)
  (l : list email_processor.EmailData) (a st : string) (err : option string) :
  map email_processor.address
      (email_processor._update_email_status now l a st err)
  = map email_processor.address l.
Proof.
  induction l as [|e l IH]; cbn [email_processor._update_email_status map];
    [reflexivity|].
  destruct (String.eqb (email_processor.address e) a); cbn [map];
    [reflexivity|now rewrite IH].
Qed.

Lemma update_all_address (now : datetime) (batch : list string)
  (st : string) (err : option string) :
  forall l : list email_processor.EmailData,
    map email_processor.address
        (email_processor.update_all now l batch st err)
    = map email_processor.address l.
Proof.
  unfold email_processor.update_all.
  induction batch as [|a batch IH]; intros l; cbn [fold_left];
    [reflexivity|].
  now rewrite IH, update_status_address.
Qed.

(** With no address twice in the list, updating the first entry of an
    address is updating every entry of that address. *)
Lemma update_status_sent (now : datetime)
  (l : list email_processor.EmailData) (a : string) :
  List.NoDup (map email_processor.address l) ->
  email_processor._update_email_status now l a "sent" None
  = map (fun e => if String.eqb (email_processor.address e) a
                  then mark_sent now e else e) l.
Proof.
  induction l as [|e l IH]; intros Hnd;
    cbn [email_processor._update_email_status map]; [reflexivity|].
  cbn [map] in Hnd. apply List.NoDup_cons_iff in Hnd as [Hnotin Hnd].
  destruct (String.eqb_spec (email_processor.address e) a) as [Ea|Ea].
  - f_equal. symmetry. rewrite <- (map_id l) at 2. apply map_ext_in.
    intros x Hx.
    destruct (String.eqb_spec (email_processor.address x) a) as [Ex|];
      [|reflexivity].
    exfalso. apply Hnotin. rewrite Ea, <- Ex. now apply in_map.
  - f_equal. now apply IH.
Qed.

Lemma update_all_sent (now : datetime) (batch : list string) :
  forall l : list email_processor.EmailData,
    List.NoDup (map email_processor.address l) -> List.NoDup batch ->
    email_processor.update_all now l batch "sent" None
    = map (fun e => if among batch (email_processor.address e)
                    then mark_sent now e else e) l.
Proof.
  unfold email_processor.update_all.
  induction batch as [|a batch IH]; intros l Hl Hb; cbn [fold_left].
  - cbn. now rewrite map_id.
  - apply List.NoDup_cons_iff in Hb as [Hnotin Hb].
    rewrite update_status_sent by assumption.
    rewrite IH; [|rewrite map_map|assumption].
    2:{ erewrite map_ext; [exact Hl|]. intros e. cbv beta.
        now destruct (String.eqb (email_processor.address e) a). }
    rewrite map_map. apply map_ext. intros e. cbv beta.
    unfold among. cbn [existsb].
    destruct (String.eqb_spec (email_processor.address e) a) as [Ea|Ea].
    + cbn [mark_sent email_processor.address orb]. rewrite Ea.
      replace (existsb (String.eqb a) batch) with false; [reflexivity|].
      symmetry. apply not_true_is_false. intros H.
      apply existsb_exists in H as (x & Hx & E).
      apply String.eqb_eq in E. subst x. contradiction.
    + replace (String.eqb (email_processor.address e) a) with false
        by (symmetry; now apply String.eqb_neq).
      reflexivity.
Qed.

(** X23. A batch that Outlook accepts, sent through a processor whose list
    has no address twice (as [_process_email_list] leaves it), the batch
    having no address twice either: every entry of the list whose address
    is in the batch becomes "sent", with one attempt more, at the time of
    the sending; the other entries do not change; the result counts the
    whole batch as sent and so does the counter of sent emails; and the
    addresses of the batch are no longer among the valid emails, the others
    being valid as before. *)
Theorem accepted_batch_is_marked_sent (now : datetime)
  (w : option (list string)) (self : email_processor.EmailProcessor)
  (batch_emails : list string) :
  batch_emails <> [] ->
  List.NoDup (map email_processor.address (email_processor.email_list self)) ->
  List.NoDup batch_emails ->
  let sent :=
    email_processor.send_email_batch now true (email_processor.Accepted w)
                                     self batch_emails in
  email_processor.email_list sent.1
  = map (fun e => if among batch_emails (email_processor.address e)
                  then mark_sent now e else e)
        (email_processor.email_list self)
  /\ (email_processor.success sent.2 = true
      /\ email_processor.sent_count sent.2 = len batch_emails
      /\ email_processor.failed_count sent.2 = 0)
  /\ email_processor.stats_sent_emails sent.1
     = email_processor.stats_sent_emails self + len batch_emails
  /\ email_processor.get_valid_emails sent.1
     = List.filter
         (fun e => negb (among batch_emails (email_processor.address e)))
         (email_processor.get_valid_emails self).
Proof.
  intros Hne Hl Hb. unfold email_processor.send_email_batch.
  destruct batch_emails as [|a rest] eqn:Eb; [congruence|]. rewrite <- Eb in *.
  cbn [negb fst snd email_processor.email_list email_processor.success
       email_processor.sent_count email_processor.failed_count
       email_processor.stats_sent_emails].
  rewrite update_all_sent by assumption.
  split; [reflexivity|]. split; [repeat split|]. split; [reflexivity|].
  unfold email_processor.get_valid_emails.
  cbn [email_processor.email_list]. rewrite filter_filter.
  clear. induction (email_processor.email_list self) as [|e l IH];
    cbn [map List.filter]; [reflexivity|].
  destruct (among batch_emails (email_processor.address e)); cbn [negb].
  - cbn [mark_sent email_processor.status]. cbn [String.eqb Ascii.eqb].
    rewrite andb_false_r. change (String.eqb "sent" "valid") with false.
    exact IH.
  - rewrite andb_true_r.
    destruct (String.eqb (email_processor.status e) "valid");
      [now rewrite IH|exact IH].
Qed.

Lemma accepted_batch_is_marked_sent_witness :
  ["a@x.org"] <> []
  /\ email_processor.get_valid_emails
       (email_processor.send_email_batch
          thursday_noon true (email_processor.Accepted None)
          {| email_processor.email_list :=
               [email_processor.new_email "a@x.org" true;
                email_processor.new_email "b@x.org" true];
             email_processor.stats_sent_emails := 0;
             email_processor.stats_failed_emails := 0;
             email_processor.batch_size := 1000 |}
          ["a@x.org"]).1
     = [email_processor.new_email "b@x.org" true].
Proof.
  split; [discriminate|].
  rewrite (proj2 (proj2 (proj2
             (accepted_batch_is_marked_sent thursday_noon None
                {| email_processor.email_list :=
                     [email_processor.new_email "a@x.org" true;
                      email_processor.new_email "b@x.org" true];
                   email_processor.stats_sent_emails := 0;
                   email_processor.stats_failed_emails := 0;
                   email_processor.batch_size := 1000 |}
                ["a@x.org"] ltac:(discriminate)
                ltac:(repeat constructor; cbn; intuition discriminate)
                ltac:(repeat constructor; cbn; intuition discriminate))))).
  reflexivity.
Defined.

(** X24. What [send_email_batch] reports and what it leaves.  It reports a
    success exactly when the batch is not empty, Outlook is connected and
    Outlook accepts the batch.  An empty batch and a missing connection
    leave the processor as it was: no entry of the list records the
    failure.  In every case the list keeps its entries, with their
    addresses in their order, and the two counters together grow by the
    size of the batch when it was handed to Outlook, and by nothing
    otherwise. *)
Theorem send_email_batch_outcome (now : datetime) (connected : bool)
  (reply : email_processor.outlook_reply)
  (self : email_processor.EmailProcessor) (batch_emails : list string) :
  let sent :=
    email_processor.send_email_batch now connected reply self batch_emails in
  (email_processor.success sent.2 = true
   <-> batch_emails <> [] /\ connected = true
       /\ exists w, reply = email_processor.Accepted w)
  /\ (batch_emails = [] \/ connected = false -> sent.1 = self)
  /\ map email_processor.address (email_processor.email_list sent.1)
     = map email_processor.address (email_processor.email_list self)
  /\ email_processor.stats_sent_emails sent.1
     + email_processor.stats_failed_emails sent.1
     = email_processor.stats_sent_emails self
       + email_processor.stats_failed_emails self
       + (if connected then len batch_emails else 0)
  /\ email_processor.sent_count sent.2 + email_processor.failed_count sent.2
     = (if connected then len batch_emails else 0).
Proof.
  unfold email_processor.send_email_batch.
  destruct batch_emails as [|a rest] eqn:Eb.
  { cbn [fst snd email_processor.email_list email_processor.success
         email_processor.sent_count email_processor.failed_count
         email_processor.stats_sent_emails
         email_processor.stats_failed_emails].
    change (len []) with 0.
    split; [split; [discriminate|intros (H & _); congruence]|].
    split; [reflexivity|]. split; [reflexivity|].
    split; destruct connected; lia. }
  rewrite <- Eb.
  assert (Hne : batch_emails <> []) by (rewrite Eb; discriminate).
  clear Eb.
  destruct connected; cbn [negb].
  2:{ cbn [fst snd email_processor.email_list email_processor.success
           email_processor.sent_count email_processor.failed_count
           email_processor.stats_sent_emails
           email_processor.stats_failed_emails].
      split; [split; [discriminate|intros (_ & H & _); discriminate]|].
      split; [reflexivity|]. split; [reflexivity|]. split; lia. }
  destruct reply as [w|m|t];
    cbn [fst snd email_processor.email_list email_processor.success
         email_processor.sent_count email_processor.failed_count
         email_processor.stats_sent_emails
         email_processor.stats_failed_emails];
    rewrite update_all_address.
  - split; [split; [intros _; eauto|reflexivity]|].
    split; [intros [H|H]; [contradiction|discriminate]|].
    split; [reflexivity|]. split; lia.
  - split; [split; [discriminate|intros (_ & _ & w & H); discriminate]|].
    split; [intros [H|H]; [contradiction|discriminate]|].
    split; [reflexivity|]. split; lia.
  - split; [split; [discriminate|intros (_ & _ & w & H); discriminate]|].
    split; [intros [H|H]; [contradiction|discriminate]|].
    split; [reflexivity|]. split; lia.
Qed.

Lemma send_email_batch_outcome_witness :
  (["a@x.org"] = [] \/ false = false)
  /\ (email_processor.send_email_batch
        thursday_noon false (email_processor.Accepted None)
        example_processor ["a@x.org"]).1
     = example_processor.
Proof.
  split; [now right|].
  exact (proj1 (proj2 (send_email_batch_outcome
                         thursday_noon false (email_processor.Accepted None)
                         example_processor ["a@x.org"]))
           (or_intror eq_refl)).
Defined.

(** * The schedule frame *)

(** What [create_schedule] did when it reports a success. *)
Lemma create_schedule_succeeded (fuel : nat) (now : datetime)
  (config : config_manager.ScheduleSettings) (self : SchedulerManager)
  (all_emails : list string) (the_subject the_body : string)
  (the_attachments : option (list string))
  (schedule_settings : option ScheduleSettings)
  (self' : SchedulerManager) (result : ScheduleResult) :
  create_schedule fuel now config self all_emails the_subject the_body
                  the_attachments schedule_settings = Done (self', result) ->
  success result = true ->
  exists bs,
    _generate_batches now (next_uuid self) all_emails the_subject the_body
                      (match the_attachments with
                       | Some l => l
                       | None => []
                       end)
                      (settings_used config schedule_settings) fuel = Done bs
    /\ heap self' = heap self ++ bs
    /\ active_batches self' = seq (List.length (heap self)) (List.length bs)
    /\ total_batches result = len bs.
Proof.
  unfold create_schedule. intros H Hs.
  destruct all_emails as [|e0 es];
    [injection H as <- <-; discriminate|].
  destruct (blank the_subject); [injection H as <- <-; discriminate|].
  fold (settings_used config schedule_settings) in H.
  destruct (_generate_batches _ _ _ _ _ _ _ _) as [bs|e|];
    [|injection H as <- <-; discriminate|discriminate].
  destruct bs as [|b rest]; [injection H as <- <-; discriminate|].
  injection H as <- <-. exists (b :: rest). repeat split.
Qed.

Lemma create_schedule_failed (fuel : nat) (now : datetime)
  (config : config_manager.ScheduleSettings) (self : SchedulerManager)
  (all_emails : list string) (the_subject the_body : string)
  (the_attachments : option (list string))
  (schedule_settings : option ScheduleSettings)
  (self' : SchedulerManager) (result : ScheduleResult) :
  create_schedule fuel now config self all_emails the_subject the_body
                  the_attachments schedule_settings = Done (self', result) ->
  success result = false -> self' = self.
Proof.
  unfold create_schedule. intros H Hs.
  destruct all_emails as [|e0 es]; [now injection H as <- <-|].
  destruct (blank the_subject); [now injection H as <- <-|].
  destruct (_generate_batches _ _ _ _ _ _ _ _) as [bs|e|];
    [|now injection H as <- <-|discriminate].
  destruct bs as [|b rest]; [now injection H as <- <-|].
  injection H as <- <-. discriminate.
Qed.

(** The settings that [_validate_settings] accepts. *)
Lemma validate_settings_true (frame : schedule_frame.ScheduleFrame)
  (shown : list schedule_frame.dialog) :
  schedule_frame._validate_settings frame = (true, shown) ->
  shown = []
  /\ exists emails_per_day emails_per_batch h mi,
      schedule_frame.emails_per_day_var frame = Some emails_per_day
      /\ schedule_frame.emails_per_batch_var frame = Some emails_per_batch
      /\ (1 <= emails_per_batch <= 50
          /\ emails_per_batch <= emails_per_day <= 1000)
      /\ parse_start_time
           (schedule_frame.settings_of_frame emails_per_day emails_per_batch
              frame)
         = Done (h, mi)
      /\ 0 <= h <= 23 /\ 0 <= mi <= 59.
Proof.
  unfold schedule_frame._validate_settings.
  destruct (schedule_frame.emails_per_day_var frame) as [d|];
    [|discriminate].
  destruct (schedule_frame.emails_per_batch_var frame) as [b|];
    [|discriminate].
  destruct ((d <? 1) || (1000 <? d)) eqn:E1; [discriminate|].
  destruct ((b <? 1) || (50 <? b)) eqn:E2; [discriminate|].
  destruct (d <? b) eqn:E3; [discriminate|].
  destruct (config_manager.time_format_error _) eqn:E4; [discriminate|].
  intros H. injection H as <-. split; [reflexivity|].
  apply orb_false_iff in E1 as [E1 E1'].
  apply orb_false_iff in E2 as [E2 E2'].
  apply Z.ltb_ge in E1, E1', E2, E2', E3.
  unfold config_manager.time_format_error in E4.
  unfold parse_start_time. cbn [start_time schedule_frame.settings_of_frame].
  destruct (split (schedule_frame.start_time_var frame) ":")
    as [|x [|y [|? ?]]]; try discriminate.
  destruct (int x) as [h|]; [|discriminate].
  destruct (int y) as [mi|]; [|discriminate].
  apply negb_false_iff in E4. rewrite !andb_true_iff, !Z.leb_le in E4.
  exists d, b, h, mi. repeat split; try reflexivity; lia.
Qed.

(** X25. What the button "create schedule" can do.  When [_create_schedule]
    returns, either it shows the box of a created schedule, and then the
    scheduler manager holds a new plan whose recipients are the addresses
    of the valid emails of the processor, in their order, with at most 50
    recipients in a batch and at most 1000 on a day; or it shows another
    box, or none, and the scheduler manager is as it was. *)
Theorem frame_creates_schedule_or_nothing (fuel : nat) (now : datetime)
  (config : config_manager.ScheduleSettings)
  (frame : schedule_frame.ScheduleFrame)
  (processor : email_processor.EmailProcessor)
  (data : schedule_frame.email_data)
  (manager manager' : SchedulerManager)
  (shown : list schedule_frame.dialog) :
  schedule_frame._create_schedule fuel now config frame processor data manager
  = Done (manager', shown) ->
  (exists result bs,
      shown = [schedule_frame.showinfo_created result]
      /\ success result = true
      /\ total_batches result = len bs
      /\ heap manager' = heap manager ++ bs
      /\ active_batches manager'
         = seq (List.length (heap manager)) (List.length bs)
      /\ concat (map emails bs)
         = map email_processor.address
               (email_processor.get_valid_emails processor)
      /\ Forall (fun b => len (emails b) <= 50) bs
      /\ forall day : datetime, day_email_count bs day <= 1000)
  \/ (manager' = manager
      /\ forall result, shown <> [schedule_frame.showinfo_created result]).
Proof.
  unfold schedule_frame._create_schedule. intros H.
  destruct (schedule_frame._validate_settings frame) as [[|] shown0] eqn:Ev.
  2:{ injection H as <- <-. right. split; [reflexivity|].
      intros result E. subst shown0.
      unfold schedule_frame._validate_settings in Ev.
      repeat match type of Ev with
             | match ?x with _ => _ end = _ => destruct x
             | (if ?c then _ else _) = _ => destruct c
             end; discriminate. }
  apply validate_settings_true in Ev
    as (_ & d & b & h & mi & Ed & Ebv & (Hb & Hd) & Hp & Hh & Hm).
  destruct (email_processor.total_emails processor =? 0);
    [injection H as <- <-; right; split; [reflexivity|discriminate]|].
  destruct (blank (schedule_frame.subject data));
    [injection H as <- <-; right; split; [reflexivity|discriminate]|].
  destruct (blank (schedule_frame.body data));
    [injection H as <- <-; right; split; [reflexivity|discriminate]|].
  destruct (map email_processor.address
                (email_processor.get_valid_emails processor))
    as [|e0 es] eqn:Evalid;
    [injection H as <- <-; right; split; [reflexivity|discriminate]|].
  rewrite Ed, Ebv in H. cbv zeta in H.
  set (settings := schedule_frame.settings_of_frame d b frame) in *.
  set (att := match schedule_frame.attachments data with
              | Some l => l
              | None => []
              end) in *.
  destruct (create_schedule fuel now config manager (e0 :: es)
              (schedule_frame.subject data) (schedule_frame.body data)
              (Some att) (Some settings)) as [[m r]| |] eqn:Ec;
    cbn [bind fst snd] in H; try discriminate.
  destruct (success r) eqn:Es; injection H as <- <-.
  - left.
    destruct (create_schedule_succeeded _ _ _ _ _ _ _ _ _ _ _ Ec Es)
      as (bs & Eg & Hheap & Hact & Htot).
    cbn [settings_used] in Eg.
    assert (Hv : valid_settings settings)
      by (unfold valid_settings; cbn; lia).
    destruct (generate_batches_inv now (next_uuid manager) (e0 :: es)
                (schedule_frame.subject data) (schedule_frame.body data)
                att settings Hv fuel bs Eg)
      as (h' & mi' & d' & i & HI & Hend).
    exists r, bs. split; [reflexivity|]. split; [exact Es|].
    split; [assumption|]. split; [assumption|]. split; [assumption|].
    split.
    { destruct HI as (_ & Hc & _). rewrite Hc. apply firstn_all2.
      unfold len in *. lia. }
    split.
    + destruct HI as (_ & _ & Hsz & _).
      eapply Forall_impl; [exact Hsz|]. cbv beta.
      cbn [emails_per_batch settings schedule_frame.settings_of_frame].
      intros x Hx. lia.
    + intros day.
      pose proof (plan_inv_day (e0 :: es) settings h' mi' Hv d' 0 bs i day HI)
        as Hday.
      cbn [emails_per_day settings schedule_frame.settings_of_frame] in Hday.
      lia.
  - right. split; [|discriminate].
    eapply create_schedule_failed; eassumption.
Qed.

Lemma frame_creates_schedule_or_nothing_witness :
  match schedule_frame._create_schedule
          10 thursday_noon config_manager.defaults example_frame
          example_processor example_data __init__ with
  | Done (manager', shown) =>
      (exists result, shown = [schedule_frame.showinfo_created result])
      \/ manager' = __init__
  | _ => False
  end.
Proof.
  destruct (schedule_frame._create_schedule
              10 thursday_noon config_manager.defaults example_frame
              example_processor example_data __init__)
    as [[manager' shown]| |] eqn:E;
    [|exfalso; revert E; vm_compute; discriminate..].
  destruct (frame_creates_schedule_or_nothing _ _ _ _ _ _ _ _ _ E)
    as [(result & bs & H & _)|[H _]].
  - left. exists result. exact H.
  - right. exact H.
Defined.

(** X26. With settings that [_validate_settings] accepts, a start time
    of at most nine ASCII characters, a subject and a message of ASCII
    characters that are not blank, a processor that holds a valid email and
    room in the calendar for the plan, the button "create schedule" creates
    the schedule: [_create_schedule] returns and the box it shows is that of
    a created schedule. *)
Theorem frame_creates_schedule (fuel : nat) (now : datetime)
  (config : config_manager.ScheduleSettings)
  (frame : schedule_frame.ScheduleFrame)
  (processor : email_processor.EmailProcessor)
  (data : schedule_frame.email_data) (manager : SchedulerManager) :
  fst (schedule_frame._validate_settings frame) = true ->
  short_ascii (schedule_frame.start_time_var frame) ->
  isascii (schedule_frame.subject data) = true ->
  blank (schedule_frame.subject data) = false ->
  isascii (schedule_frame.body data) = true ->
  blank (schedule_frame.body data) = false ->
  email_processor.get_valid_emails processor <> [] ->
  calendar_room now (len (email_processor.get_valid_emails processor)) 3 ->
  (plan_fuel (List.length (email_processor.get_valid_emails processor))
   <= fuel)%nat ->
  exists manager' result,
    schedule_frame._create_schedule fuel now config frame processor data
                                    manager
    = Done (manager', [schedule_frame.showinfo_created result])
    /\ success result = true
    /\ option_map sd_total_emails (current_schedule manager')
       = Some (len (email_processor.get_valid_emails processor)).
Proof.
  intros Hval _ _ Hs _ Hbody Hne _ Hf.
  unfold schedule_frame._create_schedule.
  destruct (schedule_frame._validate_settings frame) as [ok shown] eqn:Ev.
  cbn [fst] in Hval. subst ok.
  apply validate_settings_true in Ev
    as (_ & d & b & h & mi & Ed & Ebv & (Hb & Hd) & Hp & Hh & Hm).
  assert (Htot : (email_processor.total_emails processor =? 0) = false).
  { apply Z.eqb_neq. unfold email_processor.total_emails,
      email_processor.get_valid_emails in *.
    destruct (email_processor.email_list processor); [now cbn in Hne|].
    unfold len. cbn. lia. }
  rewrite Htot, Hs, Hbody.
  destruct (map email_processor.address
                (email_processor.get_valid_emails processor))
    as [|e0 es] eqn:Evalid.
  { apply map_eq_nil in Evalid. contradiction. }
  rewrite Ed, Ebv. cbv zeta.
  set (settings := schedule_frame.settings_of_frame d b frame) in *.
  set (att := match schedule_frame.attachments data with
              | Some l => l
              | None => []
              end).
  assert (Hv : valid_settings (settings_used config (Some settings)))
    by (unfold valid_settings; cbn; lia).
  assert (Hlen : List.length (e0 :: es)
                 = List.length (email_processor.get_valid_emails processor))
    by (now rewrite <- Evalid, length_map).
  destruct (create_schedule_ok fuel now config manager (e0 :: es)
              (schedule_frame.subject data) (schedule_frame.body data)
              (Some att) (Some settings) h mi ltac:(discriminate) Hs Hv Hp
              Hh Hm ltac:(now rewrite Hlen))
    as (manager' & result & bs & sd & Hc & Hsucc & _
        & (Hcur & _ & _ & Htotal & _) & _).
  rewrite Hc. cbn [bind fst snd]. rewrite Hsucc.
  exists manager', result. split; [reflexivity|]. split; [assumption|].
  rewrite Hcur. cbn [option_map]. rewrite Htotal. unfold len.
  now rewrite Hlen.
Qed.

Lemma frame_creates_schedule_witness :
  fst (schedule_frame._validate_settings example_frame) = true
  /\ short_ascii (schedule_frame.start_time_var example_frame)
  /\ email_processor.get_valid_emails example_processor <> []
  /\ calendar_room thursday_noon
       (len (email_processor.get_valid_emails example_processor)) 3
  /\ exists manager' result,
      schedule_frame._create_schedule
        10 thursday_noon config_manager.defaults example_frame
        example_processor example_data __init__
      = Done (manager', [schedule_frame.showinfo_created result])
      /\ success result = true.
Proof.
  assert (Hs : short_ascii (schedule_frame.start_time_var example_frame))
    by (split; [reflexivity|cbn; lia]).
  assert (Hc : calendar_room thursday_noon
                 (len (email_processor.get_valid_emails example_processor))
                 3)
    by (unfold calendar_room, representable; vm_compute;
        repeat split; discriminate).
  split; [reflexivity|]. split; [exact Hs|]. split; [discriminate|].
  split; [exact Hc|].
  destruct (frame_creates_schedule 10 thursday_noon config_manager.defaults
              example_frame example_processor example_data __init__
              eq_refl Hs eq_refl eq_refl eq_refl eq_refl
              ltac:(discriminate) Hc ltac:(cbn; lia))
    as (manager' & result & H1 & H2 & _).
  exists manager', result. split; assumption.
Defined.

(** * Serialisation *)

(** Induction on a value, with the property at hand for the items of a
    list or a tuple and for the values of a dict. *)
Lemma value_induction (P : value -> Prop) :
  P VNone ->
  (forall b, P (VBool b)) ->
  (forall n, P (VInt n)) ->
  (forall s, P (VStr s)) ->
  (forall t, P (VDatetime t)) ->
  (forall items, Forall P items -> P (VList items)) ->
  (forall entries, Forall (fun kv => P (snd kv)) entries ->
                   P (VDict entries)) ->
  (forall items, Forall P items -> P (VTuple items)) ->
  forall v, P v.
Proof.
  intros HNone HBool HInt HStr HDate HList HDict HTuple.
  fix IH 1. intros [|b|n|s|t|items|entries|items].
  - exact HNone.
  - apply HBool.
  - apply HInt.
  - apply HStr.
  - apply HDate.
  - apply HList. revert items. fix IHl 1. intros [|x items].
    + constructor.
    + constructor; [apply IH|apply IHl].
  - apply HDict. revert entries. fix IHl 1. intros [|[k x] entries].
    + constructor.
    + constructor; [apply IH|apply IHl].
  - apply HTuple. revert items. fix IHl 1. intros [|x items].
    + constructor.
    + constructor; [apply IH|apply IHl].
Qed.

(** X27. [_make_json_serializable], whatever [isoformat] is.  In a value
    without tuples the result holds no [datetime].  The result has the
    keys, in their order, and the numbers of items of the value.  A value
    without [datetime] is returned as it is, and so is the result itself
    when it is serialised again.  A [datetime] in a tuple stays. *)
Theorem serialised_value_has_no_datetime (isoformat : datetime -> string)
  (data : value) :
  (has_tuple data = false ->
   has_datetime (_make_json_serializable isoformat data) = false)
  /\ shape (_make_json_serializable isoformat data) = shape data
  /\ (has_datetime data = false ->
      _make_json_serializable isoformat data = data)
  /\ _make_json_serializable isoformat
       (_make_json_serializable isoformat data)
     = _make_json_serializable isoformat data
  /\ forall t,
      _make_json_serializable isoformat (VTuple [VDatetime t])
      = VTuple [VDatetime t].
Proof.
  split; [|split; [|split; [|split]]].
  - induction data as [|b|n|s|t|items IH|entries IH|items IH]
      using value_induction; cbn; try reflexivity; try discriminate.
    + intros H. induction IH as [|x items Hx _ IHl]; cbn in *;
        [reflexivity|].
      apply orb_false_iff in H as [H1 H2]. now rewrite Hx, IHl.
    + intros H. induction IH as [|x entries Hx _ IHl]; cbn in *;
        [reflexivity|].
      apply orb_false_iff in H as [H1 H2]. now rewrite Hx, IHl.
  - induction data as [|b|n|s|t|items IH|entries IH|items IH]
      using value_induction; cbn; try reflexivity.
    + f_equal. induction IH as [|x items Hx _ IHl]; cbn;
        [reflexivity|congruence].
    + f_equal. induction IH as [|x entries Hx _ IHl]; cbn;
        [reflexivity|congruence].
  - induction data as [|b|n|s|t|items IH|entries IH|items IH]
      using value_induction; cbn; try reflexivity; try discriminate.
    + intros H. f_equal. induction IH as [|x items Hx _ IHl]; cbn in *;
        [reflexivity|].
      apply orb_false_iff in H as [H1 H2]. now rewrite Hx, IHl.
    + intros H. f_equal.
      induction IH as [|[k x] entries Hx _ IHl]; cbn in *; [reflexivity|].
      apply orb_false_iff in H as [H1 H2]. now rewrite Hx, IHl.
  - induction data as [|b|n|s|t|items IH|entries IH|items IH]
      using value_induction; cbn; try reflexivity.
    + f_equal. induction IH as [|x items Hx _ IHl]; cbn;
        [reflexivity|congruence].
    + f_equal. induction IH as [|x entries Hx _ IHl]; cbn;
        [reflexivity|congruence].
  - reflexivity.
Qed.

Lemma serialised_value_has_no_datetime_witness :
  has_tuple example_value = false
  /\ has_datetime example_value = true
  /\ has_datetime
       (_make_json_serializable (fun _ => "2024-01-04T12:00:00")
                                example_value)
     = false.
Proof.
  split; [reflexivity|]. split; [reflexivity|].
  exact (proj1 (serialised_value_has_no_datetime
                  (fun _ => "2024-01-04T12:00:00") example_value) eq_refl).
Defined.

(** * The jobs and the end *)

Lemma hour_minute_days (t : datetime) (k : Z) :
  hour_minute (t + timedelta_days k) = hour_minute t.
Proof.
  unfold hour_minute, timedelta_days. f_equal.
  - f_equal. apply Z.mod_add. unfold us_per_day. lia.
  - f_equal. unfold us_per_day, us_per_hour.
    replace (t + k * 86400000000) with (t + (k * 24) * 3600000000) by lia.
    apply Z.mod_add. lia.
Qed.

Lemma hour_minute_range (t : datetime) :
  0 <= fst (hour_minute t) <= 23 /\ 0 <= snd (hour_minute t) <= 59.
Proof.
  unfold hour_minute, us_per_day, us_per_hour, us_per_minute. cbn [fst snd].
  pose proof (Z.mod_pos_bound t 86400000000 ltac:(lia)).
  pose proof (Z.mod_pos_bound t 3600000000 ltac:(lia)).
  split; split.
  - apply Z.div_pos; lia.
  - assert (t mod 86400000000 / 3600000000 < 24); [|lia].
    apply Z.div_lt_upper_bound; lia.
  - apply Z.div_pos; lia.
  - assert (t mod 3600000000 / 60000000 < 60); [|lia].
    apply Z.div_lt_upper_bound; lia.
Qed.

(** X28. The job that [_schedule_batch] registers for a batch keeps the
    hour and the minute of its scheduled time (a time of day) and nothing
    of its date: two batches whose scheduled times are a whole number of
    days apart get jobs for the same time of day.  In particular the jobs
    that [start_schedule] registers for two such active batches differ in
    their batch only. *)
Theorem job_keeps_no_date (r r' : ref) (self : SchedulerManager)
  (b b' : EmailBatch) (k : Z) :
  heap self !! r = Some b -> heap self !! r' = Some b' ->
  scheduled_time b' = scheduled_time b + timedelta_days k ->
  exists h mi,
    (0 <= h <= 23 /\ 0 <= mi <= 59)
    /\ jobs (_schedule_batch r self)
       = jobs self ++ [{| job_at := (h, mi); job_batch := r |}]
    /\ jobs (_schedule_batch r' self)
       = jobs self ++ [{| job_at := (h, mi); job_batch := r' |}]
    /\ job_of (heap self) r = Some {| job_at := (h, mi); job_batch := r |}
    /\ job_of (heap self) r' = Some {| job_at := (h, mi); job_batch := r' |}.
Proof.
  intros Hb Hb' Ht.
  exists (fst (hour_minute (scheduled_time b))),
         (snd (hour_minute (scheduled_time b))).
  rewrite <- surjective_pairing.
  split; [apply hour_minute_range|].
  rewrite (schedule_batch_job r self b Hb),
          (schedule_batch_job r' self b' Hb').
  unfold job_of. rewrite Hb, Hb'. cbn [option_map].
  rewrite Ht, hour_minute_days. repeat split.
Qed.

Lemma job_keeps_no_date_witness :
  exists b b',
    [lone_batch; batch_set_scheduled_time
                   (scheduled_time lone_batch + timedelta_days 1) lone_batch]
      !! 0%nat = Some b
    /\ [lone_batch; batch_set_scheduled_time
                      (scheduled_time lone_batch + timedelta_days 1)
                      lone_batch] !! 1%nat = Some b'
    /\ scheduled_time b' = scheduled_time b + timedelta_days 1
    /\ exists h mi,
        job_of [lone_batch;
                batch_set_scheduled_time
                  (scheduled_time lone_batch + timedelta_days 1) lone_batch]
               1%nat
        = Some {| job_at := (h, mi); job_batch := 1%nat |}
        /\ job_of [lone_batch;
                   batch_set_scheduled_time
                     (scheduled_time lone_batch + timedelta_days 1)
                     lone_batch]
                  0%nat
           = Some {| job_at := (h, mi); job_batch := 0%nat |}.
Proof.
  eexists _, _. split; [reflexivity|]. split; [reflexivity|].
  split; [reflexivity|].
  destruct (job_keeps_no_date 0%nat 1%nat
              (set_heap [lone_batch;
                         batch_set_scheduled_time
                           (scheduled_time lone_batch + timedelta_days 1)
                           lone_batch] __init__)
              _ _ 1 eq_refl eq_refl eq_refl)
    as (h & mi & _ & _ & _ & H0 & H1).
  exists h, mi. split; [exact H1|exact H0].
Defined.

(** X29. [cleanup], called from outside the scheduler thread in a state
    the manager can reach, leaves a state it can reach in which nothing is
    left to run: no active, completed or failed batch, no job, and the
    running flag cleared.  If the scheduler was running it has been
    stopped, so every batch that was active is cancelled and the schedule
    is marked as stopped; if it was not running no batch object and no
    schedule is touched, so the batches that were pending stay pending, out
    of reach of the manager.  A second [cleanup] changes nothing. *)
Theorem cleanup_leaves_nothing_to_run (now now' : datetime)
  (self : SchedulerManager) :
  reachable self ->
  let cleaned := cleanup now self in
  reachable cleaned
  /\ (active_batches cleaned = [] /\ completed_batches cleaned = []
      /\ failed_batches cleaned = [] /\ jobs cleaned = []
      /\ is_running cleaned = false)
  /\ (is_running self = true ->
      (forall r, In r (active_batches self) ->
                 status_of cleaned r = Some cancelled)
      /\ option_map sd_status (current_schedule cleaned) = Some stopped)
  /\ (is_running self = false ->
      heap cleaned = heap self
      /\ current_schedule cleaned = current_schedule self)
  /\ cleanup now' cleaned = cleaned.
Proof.
  intros Hr. pose proof (reachable_inv self Hr) as Hinv. cbv zeta.
  split; [now apply reach_cleanup|].
  unfold cleanup.
  destruct (is_running self) eqn:Erun.
  - pose proof (reachable_running self Hr Erun) as Hc.
    destruct (current_schedule self) as [d|] eqn:Ed; [|congruence].
    unfold stop_schedule. rewrite Erun. cbn [negb fst].
    set (s2 := set_current_schedule _ _).
    destruct (cancel_all (active_batches s2) s2)
      as (_ & _ & _ & F4 & F5 & _ & _ & _ & Fin).
    cbv zeta in F4, F5, Fin.
    set (s3 := fold_left cancel_batch (active_batches s2) s2) in *.
    cbn [active_batches completed_batches failed_batches jobs is_running
         current_schedule heap set_failed_batches set_completed_batches
         set_active_batches set_jobs].
    rewrite F5, F4.
    split; [repeat split|]. split; [|split; [discriminate|]].
    + intros _. split.
      * intros r Hin. unfold status_of, status_at.
        cbn [heap set_failed_batches set_completed_batches
             set_active_batches set_jobs].
        rewrite (Fin r Hin).
        pose proof (inv_active self Hinv) as Hact.
        rewrite List.Forall_forall in Hact. specialize (Hact r Hin).
        unfold status_of, status_at in Hact.
        change (heap s2) with (heap self).
        destruct (heap self !! r); [reflexivity|discriminate].
      * subst s2. cbn. now rewrite Ed.
    + change (is_running s2) with false. reflexivity.
  - cbn [active_batches completed_batches failed_batches jobs is_running
         current_schedule heap set_failed_batches set_completed_batches
         set_active_batches set_jobs].
    split; [repeat split; assumption|]. split; [discriminate|].
    split; [intros _; split; reflexivity|].
    rewrite Erun. reflexivity.
Qed.

Lemma cleanup_leaves_nothing_to_run_witness :
  reachable one_batch_started
  /\ active_batches one_batch_started = [0%nat]
  /\ active_batches (cleanup thursday_noon one_batch_started) = []
  /\ status_of (cleanup thursday_noon one_batch_started) 0%nat
     = Some cancelled.
Proof.
  split; [exact one_batch_started_reachable|]. split; [reflexivity|].
  pose proof (cleanup_leaves_nothing_to_run thursday_noon thursday_noon
                one_batch_started one_batch_started_reachable)
    as (_ & (H1 & _) & H2 & _).
  split; [exact H1|].
  apply (proj1 (H2 eq_refl)). left. reflexivity.
Defined.

(** * A dispatch through the email processor *)

(** X30. The job of a batch with recipients, run with the email
    processor, at a time [now] from which the retry time, [now] plus the
    configuration's [retry_delay_minutes], is a datetime Python represents.
    If Outlook is connected and accepts the batch, the batch becomes sent
    and joins the completed batches, and in the list of the processor (no
    address twice, as in the batch) the entries of its recipients become
    "sent" while the others do not change.  If Outlook is not connected,
    the batch becomes failed with the error "Outlook not connected" and one
    attempt more and joins the failed batches, and the processor is as it
    was: the list of emails records nothing. *)
Theorem dispatch_through_processor (now : datetime)
  (config : config_manager.ScheduleSettings)
  (reply : email_processor.outlook_reply) (r : ref)
  (manager : SchedulerManager) (processor : email_processor.EmailProcessor)
  (b : EmailBatch) :
  heap manager !! r = Some b -> emails b <> [] ->
  representable now ->
  representable
    (now + timedelta_minutes (config_manager.retry_delay_minutes config)) ->
  (forall w,
      reply = email_processor.Accepted w ->
      List.NoDup (map email_processor.address
                      (email_processor.email_list processor)) ->
      List.NoDup (emails b) ->
      let after := dispatch now config true reply r (manager, processor) in
      heap after.1 !! r = Some (record_sent now b)
      /\ completed_batches after.1 = completed_batches manager ++ [r]
      /\ failed_batches after.1 = failed_batches manager
      /\ email_processor.email_list after.2
         = map (fun e => if among (emails b) (email_processor.address e)
                         then mark_sent now e else e)
               (email_processor.email_list processor))
  /\ (let after := dispatch now config false reply r (manager, processor) in
      heap after.1 !! r
      = Some (record_failure "Outlook not connected" b)
      /\ In r (failed_batches after.1)
      /\ completed_batches after.1 = completed_batches manager
      /\ after.2 = processor).
Proof.
  intros Hb Hne _ _. assert (Hlt : (r < List.length (heap manager))%nat)
    by (eapply lookup_lt_Some; exact Hb).
  split.
  - intros w -> Hl Hnd. unfold dispatch. cbn [fst snd]. rewrite Hb. cbv zeta.
    unfold email_processor.send_email_batch.
    destruct (emails b) as [|a rest] eqn:Ee; [congruence|]. rewrite <- Ee in *.
    cbn [negb fst snd email_processor.success send_outcome
         email_processor.email_list].
    destruct (execute_ok_fields now config r manager b Hb)
      as (F1 & _ & F3 & F4 & _).
    cbv zeta in F1, F3, F4. rewrite F1, F3, F4.
    split; [now apply list_lookup_insert_eq|].
    split; [reflexivity|]. split; [reflexivity|].
    now apply update_all_sent.
  - unfold dispatch. cbn [fst snd]. rewrite Hb. cbv zeta.
    unfold email_processor.send_email_batch.
    destruct (emails b) as [|a rest] eqn:Ee; [congruence|].
    cbn [negb fst snd email_processor.success email_processor.message
         send_outcome].
    pose proof (execute_failed now config "Outlook not connected" r manager b
                  Hb) as Hf.
    cbv zeta in Hf.
    set (after := execute_batch now config
                    (SendFailed "Outlook not connected") r manager) in *.
    assert (Hheap : heap after !! r
                    = Some (record_failure "Outlook not connected" b)).
    { destruct (_ && _).
      - destruct Hf as (retry & -> & _).
        apply lookup_app_l_Some. now apply list_lookup_insert_eq.
      - destruct Hf as [-> _]. now apply list_lookup_insert_eq. }
    split; [exact Hheap|].
    assert (Hcf : In r (failed_batches after)
                  /\ completed_batches after = completed_batches manager).
    { subst after. unfold execute_batch. rewrite Hb. cbv zeta.
      match goal with
      | |- context [_update_schedule_status now (remove_active r ?s)] =>
          set (self2 := s)
      end.
      destruct (update_schedule_status_fields now (remove_active r self2))
        as (_ & _ & U3 & U4 & _).
      cbv zeta in U3, U4. rewrite U3, U4.
      destruct (remove_active_fields r self2) as (_ & R2 & R3 & _).
      cbv zeta in R2, R3. rewrite R2, R3.
      subst self2.
      match goal with
      | |- context [if ?c then _schedule_retry now config r ?s else _] =>
          set (self1 := s); destruct c
      end.
      - unfold _schedule_retry.
        destruct (heap self1 !! r); cbv zeta.
        + match goal with
          | |- context [_schedule_batch ?x ?s] =>
              destruct (schedule_batch_fields x s) as (_ & _ & -> & -> & _)
          end.
          cbn. split; [apply in_or_app; right; now left|reflexivity].
        + cbn. split; [apply in_or_app; right; now left|reflexivity].
      - cbn. split; [apply in_or_app; right; now left|reflexivity]. }
    destruct Hcf as [Hcf1 Hcf2].
    split; [exact Hcf1|]. split; [exact Hcf2|reflexivity].
Qed.

Lemma dispatch_through_processor_witness :
  heap lone_manager !! 0%nat = Some lone_batch
  /\ emails lone_batch <> []
  /\ representable thursday_noon
  /\ representable
       (thursday_noon
        + timedelta_minutes
            (config_manager.retry_delay_minutes config_manager.defaults))
  /\ heap (dispatch thursday_noon config_manager.defaults false
                    (email_processor.Accepted None) 0%nat
                    (lone_manager, example_processor)).1 !! 0%nat
     = Some (record_failure "Outlook not connected" lone_batch).
Proof.
  assert (Hn : representable thursday_noon)
    by (unfold representable; vm_compute; split; discriminate).
  assert (Ht : representable
                 (thursday_noon
                  + timedelta_minutes
                      (config_manager.retry_delay_minutes
                         config_manager.defaults)))
    by (unfold representable; vm_compute; split; discriminate).
  split; [reflexivity|]. split; [discriminate|].
  split; [exact Hn|]. split; [exact Ht|].
  exact (proj1 (proj2 (dispatch_through_processor
                         thursday_noon config_manager.defaults
                         (email_processor.Accepted None) 0%nat lone_manager
                         example_processor lone_batch eq_refl
                         ltac:(discriminate) Hn Ht))).
Defined.
